(** * Password-reset edge function and job views: a shallow embedding

    The development follows three source files:
    - [supabase/functions/password-reset/index.ts]: the edge function with
      its three actions [request_otp], [verify_otp] and [reset_password];
    - [src/components/jobs/ApplyJobDialog.tsx]: [handleApply];
    - the job detail page ([JobDetail]): [isExpired] and what is rendered;
    - the password-reset wizard ([ForgotPassword]): its two schemas, the
      strength meter, the countdown of the resend button and the three
      handlers that call the edge function.

    JavaScript values are modelled with the coercions the code relies on,
    the hosted table store as lists of rows, and every call to the store as
    an explicit step that is logged and that may return an error. *)

From Stdlib Require Import String Ascii.
From Stdlib Require Import ZArith List Bool Lia Arith.
Import ListNotations.
Local Open Scope Z_scope.

(* ===================================================================== *)
(** ** JavaScript strings and scalar values *)
(* ===================================================================== *)

(** A JavaScript string is a sequence of UTF-16 code units. *)
Definition jsstring := list Z.

(** An ASCII literal of the source as a JavaScript string. *)
Definition lit (s : string) : jsstring :=
  map (fun a => Z.of_nat (nat_of_ascii a)) (list_ascii_of_string s).

Fixpoint str_eqb (a b : jsstring) : bool :=
  match a, b with
  | [], [] => true
  | x :: a', y :: b' => (x =? y) && str_eqb a' b'
  | _, _ => false
  end.

(** The decimal digits of a non-negative integer, most significant first.
    The fuel counts digits; [decimal] supplies one more than the binary
    length, which always suffices. *)
Fixpoint digits_fuel (fuel : nat) (n : Z) (acc : jsstring) : jsstring :=
  match fuel with
  | O => acc
  | S f =>
      let acc' := (48 + n mod 10) :: acc in
      if n <? 10 then acc' else digits_fuel f (n / 10) acc'
  end.

Definition decimal (n : Z) : jsstring :=
  digits_fuel (S (Z.to_nat (Z.log2 n))) n [].

(** The number a string of decimal digits denotes. *)
Fixpoint digits_value (s : jsstring) : Z :=
  match s with
  | [] => 0
  | c :: t => (c - 48) * 10 ^ Z.of_nat (length t) + digits_value t
  end.

(** [Number.prototype.toString()] on an integer-valued number (below 1e21,
    where JavaScript prints plain decimal digits). *)
Definition Number_toString (z : Z) : jsstring :=
  if z <? 0 then 45 :: decimal (- z) else decimal z.

(** The values a field of the parsed JSON body can take. [JUndefined] is a
    field that is absent from the body. [JNum z] is a JSON number with the
    integer value [z] (a safe integer); fractional numbers, arrays and nested
    objects are outside the model. *)
Inductive jsval : Type :=
| JUndefined
| JNull
| JBool (b : bool)
| JNum (z : Z)
| JStr (s : jsstring).

(** Truthiness, as used by [!x], [x && y] and [x || y]. *)
Definition ToBoolean (v : jsval) : bool :=
  match v with
  | JUndefined | JNull => false
  | JBool b => b
  | JNum z => negb (z =? 0)
  | JStr s => match s with [] => false | _ => true end
  end.

(** String coercion, as applied by [RegExp.prototype.test], by template
    literals (the query builder writes a filter as [`eq.${value}`]) and by
    [TextEncoder.encode]. *)
Definition ToString (v : jsval) : jsstring :=
  match v with
  | JUndefined => lit "undefined"
  | JNull => lit "null"
  | JBool true => lit "true"
  | JBool false => lit "false"
  | JNum z => Number_toString z
  | JStr s => s
  end.

(** Strict equality [v === "literal"]. *)
Definition strict_eq_lit (v : jsval) (s : string) : bool :=
  match v with
  | JStr t => str_eqb t (lit s)
  | _ => false
  end.

Definition is_digit (c : Z) : bool := (48 <=? c) && (c <=? 57).

(** [/^[0-9]{10}$/.test(s)]: without the [m] flag, [^] and [$] match only
    at the two ends of the input. *)
Definition test_10_digits (s : jsstring) : bool :=
  (length s =? 10)%nat && forallb is_digit s.

(** [String.prototype.padStart(n, "0")]. *)
Definition padStart0 (n : nat) (s : jsstring) : jsstring :=
  repeat 48 (n - length s) ++ s.

(** The property "a string of exactly [n] decimal digits". *)
Definition decimal_digits (n : nat) (s : jsstring) : Prop :=
  length s = n /\ Forall (fun c => 48 <= c <= 57) s.


(* ===================================================================== *)
(** ** Numbers: the binary64 arithmetic behind [generateOTP] *)
(* ===================================================================== *)

(** A finite non-negative IEEE-754 binary64 value is [n * 2^-1074] for an
    integer [n] that fits a 53-bit significand: [2^-1074] is the smallest
    positive (subnormal) value, so every such value is a multiple of it.
    The module computes on the numerator [n]. Values stay far below the
    overflow threshold in this program, so infinities are not represented. *)
Module Float64.

Definition emin : Z := 1074.
Definition one : Z := 2 ^ emin.

(** An integer of the source as a binary64 numerator. *)
Definition of_int (z : Z) : Z := z * one.

(** Round to nearest, ties to even, to 53 significant bits: the rounding
    applied to the exact result of every arithmetic operation. *)
Definition round (n : Z) : Z :=
  let k := Z.log2 n - 52 in
  if k <=? 0 then n
  else
    let q := n / 2 ^ k in
    let r := n mod 2 ^ k in
    let h := 2 ^ (k - 1) in
    let q' := if r <? h then q
              else if h <? r then q + 1
              else if Z.even q then q else q + 1 in
    q' * 2 ^ k.

(** [n] is the numerator of a binary64 value. *)
Definition representable (n : Z) : Prop := 0 <= n /\ round n = n.

(** [x * c] for a binary64 [x] and an integer-valued constant [c]: the
    exact product has numerator [x * c]. *)
Definition mul_int (x c : Z) : Z := round (x * c).

(** [x + y]. *)
Definition add (x y : Z) : Z := round (x + y).

(** [Math.floor] of a non-negative value, as an integer. *)
Definition floor (x : Z) : Z := x / one.

(** The range of [Math.random()]: a binary64 value in [0, 1). *)
Definition unit_interval (r : Z) : Prop := representable r /\ r < one.

End Float64.

(** [function generateOTP(): string]
    [Math.floor(100000 + Math.random() * 900000).toString()],
    with the value returned by [Math.random()] as argument. *)
Definition generateOTP (random : Z) : jsstring :=
  Number_toString
    (Float64.floor
       (Float64.add (Float64.of_int 100000) (Float64.mul_int random 900000))).

(* ===================================================================== *)
(** ** Platform functions used by [hashPassword] *)
(* ===================================================================== *)

(** [new TextEncoder().encode(s)]: the string is first read as a sequence
    of Unicode scalar values (a surrogate pair is one code point, an
    unpaired surrogate becomes U+FFFD), then written in UTF-8. *)
Module TextEncoder.

Definition is_high (c : Z) : bool := (0xD800 <=? c) && (c <=? 0xDBFF).
Definition is_low (c : Z) : bool := (0xDC00 <=? c) && (c <=? 0xDFFF).

Fixpoint scalar_values (s : jsstring) : list Z :=
  match s with
  | [] => []
  | c :: t =>
      if is_high c then
        match t with
        | d :: t' =>
            if is_low d
            then (0x10000 + (c - 0xD800) * 0x400 + (d - 0xDC00)) :: scalar_values t'
            else 0xFFFD :: scalar_values t
        | [] => [0xFFFD]
        end
      else if is_low c then 0xFFFD :: scalar_values t
      else c :: scalar_values t
  end.

Definition utf8 (cp : Z) : list Z :=
  if cp <? 0x80 then [cp]
  else if cp <? 0x800 then
    [0xC0 + cp / 64; 0x80 + cp mod 64]
  else if cp <? 0x10000 then
    [0xE0 + cp / 4096; 0x80 + (cp / 64) mod 64; 0x80 + cp mod 64]
  else
    [0xF0 + cp / 262144; 0x80 + (cp / 4096) mod 64;
     0x80 + (cp / 64) mod 64; 0x80 + cp mod 64].

Definition encode (s : jsstring) : list Z :=
  flat_map utf8 (scalar_values s).

End TextEncoder.

(** [crypto.subtle.digest("SHA-256", data)], after FIPS 180-4. Words are
    integers below [2^32]; a message and a digest are lists of bytes. *)
Module SHA256.

Definition w32 (x : Z) : Z := x mod 2 ^ 32.
Definition add32 (x y : Z) : Z := w32 (x + y).
Definition rotr (n x : Z) : Z :=
  Z.lor (Z.shiftr x n) (w32 (Z.shiftl x (32 - n))).
Definition not32 (x : Z) : Z := Z.lxor x (2 ^ 32 - 1).

Definition Ch (x y z : Z) : Z := Z.lxor (Z.land x y) (Z.land (not32 x) z).
Definition Maj (x y z : Z) : Z :=
  Z.lxor (Z.lxor (Z.land x y) (Z.land x z)) (Z.land y z).
Definition Sigma0 (x : Z) : Z := Z.lxor (Z.lxor (rotr 2 x) (rotr 13 x)) (rotr 22 x).
Definition Sigma1 (x : Z) : Z := Z.lxor (Z.lxor (rotr 6 x) (rotr 11 x)) (rotr 25 x).
Definition sigma0 (x : Z) : Z := Z.lxor (Z.lxor (rotr 7 x) (rotr 18 x)) (Z.shiftr x 3).
Definition sigma1 (x : Z) : Z := Z.lxor (Z.lxor (rotr 17 x) (rotr 19 x)) (Z.shiftr x 10).

(** The first sixty-four primes. *)
Definition primes : list Z :=
  [2; 3; 5; 7; 11; 13; 17; 19; 23; 29; 31; 37; 41; 43; 47; 53;
   59; 61; 67; 71; 73; 79; 83; 89; 97; 101; 103; 107; 109; 113; 127; 131;
   137; 139; 149; 151; 157; 163; 167; 173; 179; 181; 191; 193; 197; 199;
   211; 223; 227; 229; 233; 239; 241; 251; 257; 263; 269; 271; 277; 281;
   283; 293; 307; 311].

(** Integer cube root, one result bit at a time from bit 43 down. *)
Definition cbrt_step (n : Z) (r : Z) (bit : nat) : Z :=
  let c := r + 2 ^ Z.of_nat bit in
  if c * c * c <=? n then c else r.

Definition cbrt (n : Z) : Z := fold_left (cbrt_step n) (rev (seq 0 44)) 0.

(** The round constants: the first 32 bits of the fractional parts of
    the cube roots of the first sixty-four primes. *)
Definition K : list Z :=
  Eval vm_compute in map (fun p => w32 (cbrt (p * 2 ^ 96))) primes.

(** The initial hash value: the same for the square roots of the first
    eight primes. *)
Definition H0 : Z * Z * Z * Z * Z * Z * Z * Z :=
  Eval vm_compute in
    let h := fun p => w32 (Z.sqrt (p * 2 ^ 64)) in
    (h 2, h 3, h 5, h 7, h 11, h 13, h 17, h 19).

(** Padding: a one bit, zero bits up to 56 modulo 64 bytes, and the
    length in bits as a 64-bit big-endian integer. *)
Definition be_bytes (count : nat) (x : Z) : list Z :=
  map (fun i => (x / 2 ^ (8 * Z.of_nat i)) mod 256) (rev (seq 0 count)).

Definition pad (msg : list Z) : list Z :=
  let len := Z.of_nat (length msg) in
  let zeros := Z.to_nat ((55 - len) mod 64) in
  msg ++ [0x80] ++ repeat 0 zeros ++ be_bytes 8 (8 * len).

Fixpoint be_words (fuel : nat) (bs : list Z) : list Z :=
  match fuel, bs with
  | S f, a :: b :: c :: d :: t =>
      (((a * 256 + b) * 256 + c) * 256 + d) :: be_words f t
  | _, _ => []
  end.

Fixpoint blocks (fuel : nat) (bs : list Z) : list (list Z) :=
  match fuel, bs with
  | S f, _ :: _ => be_words 16 (firstn 64 bs) :: blocks f (skipn 64 bs)
  | _, _ => []
  end.

(** The message schedule [W_0 .. W_63] of one block. *)
Definition schedule_step (ws : list Z) (t : nat) : list Z :=
  let W := fun i => nth (t - i) ws 0 in
  ws ++ [add32 (add32 (sigma1 (W 2%nat)) (W 7%nat))
               (add32 (sigma0 (W 15%nat)) (W 16%nat))].

Definition schedule (block : list Z) : list Z :=
  fold_left schedule_step (seq 16 48) block.

Definition round_step (s : Z * Z * Z * Z * Z * Z * Z * Z) (kw : Z * Z)
  : Z * Z * Z * Z * Z * Z * Z * Z :=
  let '(a, b, c, d, e, f, g, h) := s in
  let '(k, w) := kw in
  let t1 := add32 (add32 (add32 (add32 h (Sigma1 e)) (Ch e f g)) k) w in
  let t2 := add32 (Sigma0 a) (Maj a b c) in
  (add32 t1 t2, a, b, c, add32 d t1, e, f, g).

Definition compress (s : Z * Z * Z * Z * Z * Z * Z * Z) (block : list Z)
  : Z * Z * Z * Z * Z * Z * Z * Z :=
  let '(a, b, c, d, e, f, g, h) := s in
  let '(a', b', c', d', e', f', g', h') :=
    fold_left round_step (combine K (schedule block)) s in
  (add32 a a', add32 b b', add32 c c', add32 d d',
   add32 e e', add32 f f', add32 g g', add32 h h').

Definition digest (msg : list Z) : list Z :=
  let padded := pad msg in
  let '(a, b, c, d, e, f, g, h) :=
    fold_left compress (blocks (length padded) padded) H0 in
  flat_map (be_bytes 4) [a; b; c; d; e; f; g; h].

End SHA256.

Definition hex_digit (d : Z) : Z := if d <? 10 then 48 + d else 87 + d.

(** [b.toString(16)] for a byte [b]. *)
Definition byte_toString16 (b : Z) : jsstring :=
  if b <? 16 then [hex_digit b] else [hex_digit (b / 16); hex_digit (b mod 16)].

(** [async function hashPassword(password: string): Promise<string>]
<<
  const data = encoder.encode(password);
  const hashBuffer = await crypto.subtle.digest("SHA-256", data);
  const hashArray = Array.from(new Uint8Array(hashBuffer));
  return hashArray.map((b) => b.toString(16).padStart(2, "0")).join("");
>> *)
Definition hashPassword (password : jsstring) : jsstring :=
  let data := TextEncoder.encode password in
  let hashArray := SHA256.digest data in
  concat (map (fun b => padStart0 2 (byte_toString16 b)) hashArray).

(* ===================================================================== *)
(** ** The table store *)
(* ===================================================================== *)

(** The three tables the edge function reads and writes, with the columns
    the code names. Timestamps are milliseconds since the epoch (the code
    sends them as ISO strings of millisecond precision and the store
    compares them as instants); row identifiers are opaque and only ever
    compared for equality. *)
Module user_credentials.
Record row : Type := {
  id : Z;
  mobile_number : jsstring;
  password_hash : jsstring;
  updated_at : Z
}.
End user_credentials.

Module password_reset_otps.
Record row : Type := {
  id : Z;
  mobile_number : jsstring;
  otp_code : jsstring;
  expires_at : Z;
  is_used : bool
}.
End password_reset_otps.

Module user_sessions.
Record row : Type := {
  user_id : Z;
  is_active : bool
}.
End user_sessions.

Record database : Type := {
  credentials : list user_credentials.row;
  otps : list password_reset_otps.row;
  sessions : list user_sessions.row
}.

(** The calls the edge function issues, as they appear in the source. *)
Inductive call : Type :=
| SelectCredential (mobile : jsstring)
| DeleteOtps (mobile : jsstring)
| InsertOtp (mobile code : jsstring) (expires : Z)
| SelectOtp (mobile code : jsstring) (now : Z)
| UpdatePassword (mobile hash : jsstring) (updated : Z)
| MarkOtpUsed (id : Z)
| DeactivateSessions (user : Z).

Definition is_read (c : call) : bool :=
  match c with
  | SelectCredential _ | SelectOtp _ _ _ => true
  | _ => false
  end.

(** What a request meets outside its own body: the configuration,
    whether [createClient(url, key)] returns a client for a given url and
    key ([false] when the library throws, as it does for a url it does not
    accept), the clock, the random source, the identifier the store gives a
    new row, and for each call to the store (numbered from 0 within the
    request) whether it comes back with an error. A call that errors has no
    effect. *)
Record env : Type := {
  getenv : string -> option jsstring;
  createClient : jsstring -> jsstring -> bool;
  now : Z;
  now_update : Z;
  random : Z;
  new_id : Z;
  fault : nat -> bool
}.

(** The store together with the log of the calls made so far in the
    request; the flag of an entry tells whether the call took effect. *)
Record state : Type := {
  db : database;
  log : list (call * bool)
}.

Inductive outcome (A : Type) : Type :=
| Done (a : A)
| Killed.
Arguments Done {A} a.
Arguments Killed {A}.

(** Computations that call the store. The first argument is where the
    worker is killed, if it is: [Some k] stops it when [k] calls have been
    made, before the next one is issued. *)
Definition M (A : Type) : Type := option nat -> state -> outcome A * state.

Definition ret {A} (a : A) : M A := fun _ s => (Done a, s).

Definition bind {A B} (m : M A) (f : A -> M B) : M B :=
  fun kill s =>
    match m kill s with
    | (Done a, s') => f a kill s'
    | (Killed, s') => (Killed, s')
    end.

Notation "x <- m ;; k" := (bind m (fun x => k))
  (at level 61, m at next level, right associativity).

(** One call to the store: [run] is its effect and result when it goes
    through, [failed] its result when it errors. *)
Definition issue {A} (e : env) (c : call) (failed : A)
    (run : database -> A * database) : M A :=
  fun kill s =>
    let k := length (log s) in
    if match kill with Some n => (n <=? k)%nat | None => false end
    then (Killed, s)
    else if fault e k
    then (Done failed, {| db := db s; log := log s ++ [(c, false)] |})
    else let (a, d) := run (db s) in
         (Done a, {| db := d; log := log s ++ [(c, true)] |}).

(** [.maybeSingle()] and [.single()]: the row when exactly one row
    matches; [data] is [null] otherwise (with an [error] that the edge
    function never inspects). *)
Definition single {A} (rows : list A) : option A :=
  match rows with
  | [r] => Some r
  | _ => None
  end.

Definition otp_for (m : jsstring) (r : password_reset_otps.row) : bool :=
  str_eqb (password_reset_otps.mobile_number r) m.

Definition credential_for (m : jsstring) (r : user_credentials.row) : bool :=
  str_eqb (user_credentials.mobile_number r) m.

(** The filter of the OTP lookup:
    [.eq("mobile_number", m).eq("otp_code", c).eq("is_used", false)
     .gte("expires_at", now)]. *)
Definition otp_valid (m c : jsstring) (t : Z) (r : password_reset_otps.row) : bool :=
  str_eqb (password_reset_otps.mobile_number r) m
  && str_eqb (password_reset_otps.otp_code r) c
  && negb (password_reset_otps.is_used r)
  && (t <=? password_reset_otps.expires_at r).

Definition set_password (h : jsstring) (t : Z) (r : user_credentials.row)
  : user_credentials.row :=
  {| user_credentials.id := user_credentials.id r;
     user_credentials.mobile_number := user_credentials.mobile_number r;
     user_credentials.password_hash := h;
     user_credentials.updated_at := t |}.

Definition set_used (r : password_reset_otps.row) : password_reset_otps.row :=
  {| password_reset_otps.id := password_reset_otps.id r;
     password_reset_otps.mobile_number := password_reset_otps.mobile_number r;
     password_reset_otps.otp_code := password_reset_otps.otp_code r;
     password_reset_otps.expires_at := password_reset_otps.expires_at r;
     password_reset_otps.is_used := true |}.

Definition set_inactive (r : user_sessions.row) : user_sessions.row :=
  {| user_sessions.user_id := user_sessions.user_id r;
     user_sessions.is_active := false |}.

(** Modelled from the spec: the declaration of [password_reset_otps] is
    not part of the source. A new row gets its identifier from the store
    and starts unused ("marked used upon successful password reset"). *)
Definition new_otp (e : env) (m c : jsstring) (expires : Z)
  : password_reset_otps.row :=
  {| password_reset_otps.id := new_id e;
     password_reset_otps.mobile_number := m;
     password_reset_otps.otp_code := c;
     password_reset_otps.expires_at := expires;
     password_reset_otps.is_used := false |}.

(** The effect of each call on the store. *)
Definition apply_call (e : env) (c : call) (d : database) : database :=
  match c with
  | SelectCredential _ | SelectOtp _ _ _ => d
  | DeleteOtps m =>
      {| credentials := credentials d;
         otps := filter (fun r => negb (otp_for m r)) (otps d);
         sessions := sessions d |}
  | InsertOtp m c expires =>
      {| credentials := credentials d;
         otps := otps d ++ [new_otp e m c expires];
         sessions := sessions d |}
  | UpdatePassword m h t =>
      {| credentials :=
           map (fun r => if credential_for m r then set_password h t r else r)
               (credentials d);
         otps := otps d;
         sessions := sessions d |}
  | MarkOtpUsed i =>
      {| credentials := credentials d;
         otps := map (fun r => if password_reset_otps.id r =? i
                               then set_used r else r) (otps d);
         sessions := sessions d |}
  | DeactivateSessions u =>
      {| credentials := credentials d;
         otps := otps d;
         sessions := map (fun r => if user_sessions.user_id r =? u
                                   then set_inactive r else r) (sessions d) |}
  end.

(** [from("user_credentials").select("id").eq("mobile_number", m)] with
    [.maybeSingle()] or [.single()]: [data], the row's [id] or [null]. *)
Definition select_credential (e : env) (m : jsstring) : M (option Z) :=
  issue e (SelectCredential m) None
    (fun d => (option_map user_credentials.id
                 (single (filter (credential_for m) (credentials d))), d)).

(** [from("password_reset_otps").delete().eq("mobile_number", m)]. *)
Definition delete_otps (e : env) (m : jsstring) : M unit :=
  issue e (DeleteOtps m) tt (fun d => (tt, apply_call e (DeleteOtps m) d)).

(** [from("password_reset_otps").insert({ mobile_number, otp_code,
    expires_at })]: the result tells whether [error] is set. *)
Definition insert_otp (e : env) (m c : jsstring) (expires : Z) : M bool :=
  issue e (InsertOtp m c expires) true
    (fun d => (false, apply_call e (InsertOtp m c expires) d)).

(** The OTP lookup followed by [.maybeSingle()]: [data]. *)
Definition select_otp (e : env) (m c : jsstring) (t : Z)
  : M (option password_reset_otps.row) :=
  issue e (SelectOtp m c t) None
    (fun d => (single (filter (otp_valid m c t) (otps d)), d)).

(** [from("user_credentials").update({ password_hash, updated_at })
    .eq("mobile_number", m)]: the result tells whether [error] is set. *)
Definition update_password (e : env) (m h : jsstring) (t : Z) : M bool :=
  issue e (UpdatePassword m h t) true
    (fun d => (false, apply_call e (UpdatePassword m h t) d)).

(** [from("password_reset_otps").update({ is_used: true }).eq("id", i)]. *)
Definition mark_otp_used (e : env) (i : Z) : M unit :=
  issue e (MarkOtpUsed i) tt (fun d => (tt, apply_call e (MarkOtpUsed i) d)).

(** [from("user_sessions").update({ is_active: false }).eq("user_id", u)]. *)
Definition deactivate_sessions (e : env) (u : Z) : M unit :=
  issue e (DeactivateSessions u) tt
    (fun d => (tt, apply_call e (DeactivateSessions u) d)).

(* ===================================================================== *)
(** ** The edge function *)
(* ===================================================================== *)

(** The four fields destructured from the JSON body. *)
Record fields : Type := {
  action : jsval;
  mobile_number : jsval;
  otp : jsval;
  new_password : jsval
}.

(** A request: its method and its parsed body. [None] is a body on which
    [await req.json()] or the destructuring throws. *)
Record request : Type := {
  method : string;
  body : option fields
}.

(** A response: the status and the JSON object of the body, as its list
    of keys and values ([None] for the empty body of the preflight). *)
Record response : Type := {
  status : Z;
  payload : option (list (string * jsval))
}.

Definition error_response (st : Z) (msg : string) : response :=
  {| status := st; payload := Some [("error"%string, JStr (lit msg))] |}.

(** The value of a key of the response body. *)
Fixpoint lookup (k : string) (o : list (string * jsval)) : option jsval :=
  match o with
  | [] => None
  | (k', v) :: o' => if String.eqb k k' then Some v else lookup k o'
  end.

Definition field (k : string) (r : response) : option jsval :=
  match payload r with
  | Some o => lookup k o
  | None => None
  end.

(** [new_password.length < 6]: a value that is not a string has no
    [length], and [undefined < 6] is false. *)
Definition length_below (v : jsval) (n : nat) : bool :=
  match v with
  | JStr s => (length s <? n)%nat
  | _ => false
  end.

(** The time values of a [Date]: at most 8.64e15 milliseconds either
    side of the epoch. *)
Definition valid_time (t : Z) : bool :=
  (-8640000000000000 <=? t) && (t <=? 8640000000000000).

(** [new Date(t).toISOString()]: the instant, or [None] for the
    [RangeError] thrown on a time value that is out of range. The instant
    the clock gives is always in range, so that [new Date().toISOString()]
    does not throw. *)
Definition toISOString (t : Z) : option Z :=
  if valid_time t then Some t else None.

(** The branch [action === "request_otp"]. The [RangeError] that
    [toISOString] throws when the expiry is out of range is caught by the
    catch-all of the function passed to [serve], whose answer is given
    here. *)
Definition request_otp (e : env) (mobile_number : jsval) : M response :=
  if negb (ToBoolean mobile_number) || negb (test_10_digits (ToString mobile_number))
  then ret (error_response 400 "Please enter a valid 10-digit mobile number")
  else
    existingUser <- select_credential e (ToString mobile_number) ;;
    match existingUser with
    | None => ret (error_response 404 "No account found with this mobile number")
    | Some _ =>
        _ <- delete_otps e (ToString mobile_number) ;;
        let otpCode := generateOTP (random e) in
        match toISOString (now e + 10 * 60 * 1000) with
        | None => ret (error_response 500 "Internal server error")
        | Some expiresAt =>
            otpError <- insert_otp e (ToString mobile_number) otpCode expiresAt ;;
            if otpError : bool
            then ret (error_response 500 "Failed to generate OTP")
            else ret {| status := 200;
                        payload := Some [("success"%string, JBool true);
                                         ("message"%string,
                                          JStr (lit "OTP sent successfully"));
                                         ("debug_otp"%string, JStr otpCode)] |}
        end
    end.

(** The branch [action === "verify_otp"]. *)
Definition verify_otp (e : env) (mobile_number otp : jsval) : M response :=
  if negb (ToBoolean mobile_number) || negb (ToBoolean otp)
  then ret (error_response 400 "Mobile number and OTP are required")
  else
    otpRecord <- select_otp e (ToString mobile_number) (ToString otp) (now e) ;;
    match otpRecord with
    | None => ret (error_response 400 "Invalid or expired OTP")
    | Some _ =>
        ret {| status := 200;
               payload := Some [("success"%string, JBool true);
                                ("message"%string, JStr (lit "OTP verified successfully"));
                                ("verified"%string, JBool true)] |}
    end.

(** The branch [action === "reset_password"]. *)
Definition reset_password (e : env) (mobile_number otp new_password : jsval)
  : M response :=
  if negb (ToBoolean mobile_number) || negb (ToBoolean otp)
     || negb (ToBoolean new_password)
  then ret (error_response 400 "Mobile number, OTP, and new password are required")
  else if length_below new_password 6
  then ret (error_response 400 "Password must be at least 6 characters")
  else
    otpRecord <- select_otp e (ToString mobile_number) (ToString otp) (now e) ;;
    match otpRecord with
    | None =>
        ret (error_response 400 "Invalid or expired OTP. Please request a new one.")
    | Some otpRecord =>
        let passwordHash := hashPassword (ToString new_password) in
        updateError <- update_password e (ToString mobile_number) passwordHash
                         (now_update e) ;;
        if updateError : bool
        then ret (error_response 500 "Failed to update password")
        else
          _ <- mark_otp_used e (password_reset_otps.id otpRecord) ;;
          credentials <- select_credential e (ToString mobile_number) ;;
          _ <- match credentials with
               | Some id => deactivate_sessions e id
               | None => ret tt
               end ;;
          ret {| status := 200;
                 payload :=
                   Some [("success"%string, JBool true);
                         ("message"%string,
                          JStr (lit "Password reset successfully. Please sign in with your new password."))] |}
    end.

Definition configured (v : option jsstring) : bool :=
  match v with
  | Some (_ :: _) => true
  | _ => false
  end.

(** [createClient(supabaseUrl, supabaseServiceKey)] on the two
    environment variables: whether it returns. *)
Definition client_created (e : env) : bool :=
  match getenv e "SUPABASE_URL", getenv e "SUPABASE_SERVICE_ROLE_KEY" with
  | Some url, Some key => createClient e url key
  | _, _ => false
  end.

(** The function passed to [serve]. The catch-all is reached from
    [createClient], from the parsing of the body, and from the
    [toISOString] of [request_otp] (see there); nothing else in the three
    branches throws. *)
Definition handler (e : env) (req : request) : M response :=
  if String.eqb (method req) "OPTIONS"
  then ret {| status := 200; payload := None |}
  else if negb (configured (getenv e "SUPABASE_URL"))
          || negb (configured (getenv e "SUPABASE_SERVICE_ROLE_KEY"))
  then ret (error_response 500 "Server not configured")
  else if negb (client_created e)
  then ret (error_response 500 "Internal server error")
  else
    match body req with
    | None => ret (error_response 500 "Internal server error")
    | Some f =>
        if strict_eq_lit (action f) "request_otp"
        then request_otp e (mobile_number f)
        else if strict_eq_lit (action f) "verify_otp"
        then verify_otp e (mobile_number f) (otp f)
        else if strict_eq_lit (action f) "reset_password"
        then reset_password e (mobile_number f) (otp f) (new_password f)
        else ret (error_response 400 "Invalid action")
    end.

(** Running a computation on a store, to the end or killed after [k]
    calls. *)
Definition run {A} (m : M A) (d : database) : outcome A * state :=
  m None {| db := d; log := [] |}.

Definition run_killed {A} (k : nat) (m : M A) (d : database) : outcome A * state :=
  m (Some k) {| db := d; log := [] |}.

(** Computations run one after the other, each on the store the previous
    one left; the results come back with the final store. *)
Fixpoint run_each {A} (ms : list (M A)) (d : database)
  : list (outcome A) * database :=
  match ms with
  | [] => ([], d)
  | m :: ms' =>
      let r := run m d in
      let rest := run_each ms' (db (snd r)) in
      (fst r :: fst rest, snd rest)
  end.

(** A sequence of requests, each with its environment, served in order. *)
Definition serve_all (rs : list (env * request)) (d : database)
  : list (outcome response) * database :=
  run_each (map (fun r => handler (fst r) (snd r)) rs) d.

(** The requests the client sends for the three actions. *)
Definition post (a : string) (mobile_number otp new_password : jsval) : request :=
  {| method := "POST";
     body := Some {| action := JStr (lit a);
                     mobile_number := mobile_number;
                     otp := otp;
                     new_password := new_password |} |}.

(** A call that answered 200. *)
Definition answered_200 (r : outcome response * state) : Prop :=
  exists p, fst r = Done {| status := 200; payload := p |}.

(** A call has succeeded when it answered 200 and every call it made to
    the store took effect. *)
Definition succeeded (r : outcome response * state) : Prop :=
  answered_200 r /\ Forall (fun c => snd c = true) (log (snd r)).

Definition calls (s : state) : list call := map fst (log s).

(** Sample data for the concrete runs below: a configured worker, one
    account, and a random value of one half. *)
Definition sample_getenv (k : string) : option jsstring :=
  if String.eqb k "SUPABASE_URL" then Some (lit "https://project.supabase.co")
  else if String.eqb k "SUPABASE_SERVICE_ROLE_KEY" then Some (lit "service-role-key")
  else None.

Definition sample_env : env :=
  {| getenv := sample_getenv;
     createClient := fun _ _ => true;
     now := 1700000000000;
     now_update := 1700000000001;
     random := 2 ^ 1073;
     new_id := 7;
     fault := fun _ => false |}.

Definition sample_account : user_credentials.row :=
  {| user_credentials.id := 1;
     user_credentials.mobile_number := lit "9876543210";
     user_credentials.password_hash := hashPassword (lit "secret1");
     user_credentials.updated_at := 1600000000000 |}.

Definition sample_db : database :=
  {| credentials := [sample_account];
     otps := [];
     sessions := [ {| user_sessions.user_id := 1; user_sessions.is_active := true |} ] |}.

(* ===================================================================== *)
(** ** Vocabulary of the statements *)
(* ===================================================================== *)

(** The store after the [k]-th call of a request: the call's effect when
    it went through, nothing when it errored. *)
Definition effect (e : env) (k : nat) (c : call) (d : database) : database :=
  if fault e k then d else apply_call e c d.

(** A [reset_password] request that has its three fields and a password
    of six characters or more. *)
Definition well_formed_reset (mob code pw : jsval) : Prop :=
  ToBoolean mob = true /\ ToBoolean code = true /\ ToBoolean pw = true
  /\ length_below pw 6 = false.

(** The answer of a completed [reset_password]. *)
Definition reset_done : response :=
  {| status := 200;
     payload :=
       Some [("success"%string, JBool true);
             ("message"%string,
              JStr (lit "Password reset successfully. Please sign in with your new password."))] |}.

(** A request that reaches the dispatch on [action]: not a preflight, on
    a configured worker whose client is created. *)
Definition serving (e : env) (req : request) : Prop :=
  String.eqb (method req) "OPTIONS" = false
  /\ configured (getenv e "SUPABASE_URL") = true
  /\ configured (getenv e "SUPABASE_SERVICE_ROLE_KEY") = true
  /\ client_created e = true.

(** A mobile number that is a string of ten digits. *)
Definition ten_digit_string (v : jsval) : Prop :=
  exists s, v = JStr s /\ decimal_digits 10 s.

(** The same environment with other environment variables. *)
Definition with_getenv (g : string -> option jsstring) (e : env) : env :=
  {| getenv := g;
     createClient := createClient e;
     now := now e;
     now_update := now_update e;
     random := random e;
     new_id := new_id e;
     fault := fault e |}.

(** The effect of a log on the store: the calls that took effect, in
    order. *)
Definition replay (e : env) (l : list (call * bool)) (d : database) : database :=
  fold_left (fun (d : database) (c : call * bool) =>
               if snd c then apply_call e (fst c) d else d) l d.

(** The lifecycle invariant of the OTP table: no two rows for one mobile
    number. *)
Definition one_otp_per_number (d : database) : Prop :=
  NoDup (map password_reset_otps.mobile_number (otps d)).

(** No row of the pair [(m, c)] can authorize anything from time [t] on:
    each is used or expires before [t]. *)
Definition spent (m c : jsstring) (t : Z) (d : database) : Prop :=
  forall r, In r (otps d) ->
    password_reset_otps.mobile_number r = m ->
    password_reset_otps.otp_code r = c ->
    password_reset_otps.is_used r = true \/ password_reset_otps.expires_at r < t.

(** A request that issues the pair [(m, c)] anew: a [request_otp] for [m]
    whose generated code is [c]. *)
Definition reissues (m c : jsstring) (r : env * request) : bool :=
  match body (snd r) with
  | Some f =>
      strict_eq_lit (action f) "request_otp"
      && str_eqb (ToString (mobile_number f)) m
      && str_eqb (generateOTP (random (fst r))) c
  | None => false
  end.

(** A call that does not insert a row of the pair [(m, c)]. *)
Definition keeps_spent (m c : jsstring) (x : call) : bool :=
  match x with
  | InsertOtp m' c' _ => negb (str_eqb m' m && str_eqb c' c)
  | _ => true
  end.

(** No call of the log that took effect inserted a row of the pair
    [(m, c)]. *)
Definition inserts_none (m c : jsstring) (l : list (call * bool)) : Prop :=
  Forall (fun x => snd x = true -> keeps_spent m c (fst x) = true) l.

(** No request of the sequence, served in its turn from the store [d],
    inserts a row of the pair [(m, c)]. *)
Fixpoint no_new_row (m c : jsstring) (rs : list (env * request)) (d : database)
  : Prop :=
  match rs with
  | [] => True
  | r :: rs' =>
      inserts_none m c (log (snd (run (handler (fst r) (snd r)) d)))
      /\ no_new_row m c rs' (db (snd (run (handler (fst r) (snd r)) d)))
  end.

(** The same environment with another value of the random source. *)
Definition with_random (x : Z) (e : env) : env :=
  {| getenv := getenv e;
     createClient := createClient e;
     now := now e;
     now_update := now_update e;
     random := x;
     new_id := new_id e;
     fault := fault e |}.

(** The same environment at another time. *)
Definition at_time (t : Z) (e : env) : env :=
  {| getenv := getenv e;
     createClient := createClient e;
     now := t;
     now_update := t;
     random := random e;
     new_id := new_id e;
     fault := fault e |}.

(** The sample store once an OTP has been requested for the sample
    account at the sample time: the row expires ten minutes later. *)
Definition sample_otp : password_reset_otps.row :=
  new_otp sample_env (lit "9876543210") (lit "550000") 1700000600000.

Definition sample_issued_db : database :=
  {| credentials := credentials sample_db;
     otps := [sample_otp];
     sessions := sessions sample_db |}.

(** The answer of a successful [verify_otp]. *)
Definition verified : response :=
  {| status := 200;
     payload := Some [("success"%string, JBool true);
                      ("message"%string, JStr (lit "OTP verified successfully"));
                      ("verified"%string, JBool true)] |}.

(** A lowercase hexadecimal digit. *)
Definition lower_hex (c : Z) : Prop := 48 <= c <= 57 \/ 97 <= c <= 102.

(** A store with two accounts, each holding a valid code. *)
Definition sample_two_db : database :=
  {| credentials :=
       [sample_account;
        {| user_credentials.id := 2;
           user_credentials.mobile_number := lit "9123456780";
           user_credentials.password_hash := hashPassword (lit "hunter22");
           user_credentials.updated_at := 1600000000000 |}];
     otps :=
       [sample_otp;
        new_otp sample_env (lit "9123456780") (lit "123456") 1700000600000];
     sessions := sessions sample_db |}.


(* ===================================================================== *)
(** ** Jobs: the detail page and the apply dialog *)
(* ===================================================================== *)

Module Jobs.

(** [a && b] and [a || b] on values. *)
Definition js_and (a b : jsval) : jsval := if ToBoolean a then b else a.
Definition js_or (a b : jsval) : jsval := if ToBoolean a then a else b.

(** Modelled from the spec: the declaration of the [Job] type lives in
    the hooks module, which is not part of the source. A job has a
    status, an expiry timestamp or [null], a cap on applications or
    [null] and a running count; timestamps are milliseconds, as
    [new Date(...)] reads them. *)
Record job : Type := {
  id : Z;
  creator_id : Z;
  status : jsstring;
  expires_at : option Z;
  max_applications : option Z;
  application_count : option Z;
  has_applied : bool
}.

(** A nullable number as a value. *)
Definition number (o : option Z) : jsval :=
  match o with
  | Some n => JNum n
  | None => JNull
  end.

(** [x && f(x)] for a nullable timestamp [x]: a timestamp is a
    non-empty string, hence truthy. *)
Definition and_then (o : option Z) (f : Z -> jsval) : jsval :=
  match o with
  | Some t => f t
  | None => JNull
  end.

(** [JobDetail]:
<<
const isExpired = job.status === 'closed' ||
  (job.expires_at && new Date(job.expires_at) < new Date()) ||
  (job.max_applications && job.application_count &&
   job.application_count >= job.max_applications);
>> *)
Definition isExpired (j : job) (now : Z) : jsval :=
  js_or (JBool (str_eqb (status j) (lit "closed")))
    (js_or (and_then (expires_at j) (fun t => JBool (t <? now)))
       (js_and (number (max_applications j))
          (js_and (number (application_count j))
             (match application_count j, max_applications j with
              | Some n, Some mx => JBool (mx <=? n)
              | _, _ => JBool false
              end)))).

(** [const isCreator = user?.id === job.creator_id]. *)
Definition isCreator (user : option Z) (j : job) : bool :=
  match user with
  | Some u => u =? creator_id j
  | None => false
  end.

(** What the apply dialog shows where it is rendered. *)
Inductive apply_button : Type :=
| LoginToApply
| Applied
| ApplyNow.

(** [ApplyJobDialog], the rendering part. *)
Definition ApplyJobDialog (user : option Z) (hasApplied : bool) : apply_button :=
  match user with
  | None => LoginToApply
  | Some _ => if hasApplied then Applied else ApplyNow
  end.

(** The parts of the detail page that depend on [isExpired]. *)
Record detail : Type := {
  badge : string;
  expiry_line : option string;
  apply : option apply_button;
  close_job : bool
}.

Inductive page : Type :=
| Skeleton
| JobNotFound
| Detail (v : detail).

(** [JobDetail], the rendering part. *)
Definition JobDetail (loading : bool) (j : option job) (user : option Z)
    (now : Z) : page :=
  if loading then Skeleton
  else match j with
       | None => JobNotFound
       | Some j =>
           let expired := ToBoolean (isExpired j now) in
           Detail
             {| badge := if expired then "Offer Ended"%string else "Open"%string;
                expiry_line :=
                  match expires_at j with
                  | Some t => Some (if t <? now then "Expired on"%string
                                        else "Expires on"%string)
                  | None => None
                  end;
                apply :=
                  if negb expired && negb (isCreator user j)
                     && match user with Some _ => true | None => false end
                  then Some (ApplyJobDialog user (has_applied j))
                  else None;
                close_job := isCreator user j && negb expired |}
       end.

(** A row of [job_applications]. *)
Record application : Type := {
  job_id : Z;
  applicant_id : Z;
  message : option jsstring
}.

Record store : Type := {
  jobs : list job;
  job_applications : list application
}.

(** The [error] of a call to the store: its [code] and its [message]
    (named [text] here, [message] being a column of the applications). *)
Record pg_error : Type := {
  code : jsstring;
  text : jsstring
}.

(** What [handleApply] meets: the clock, the errors the two calls may
    come back with for reasons of their own, and the wording the store
    uses for its own two errors. *)
Record env : Type := {
  now : Z;
  select_fault : option pg_error;
  insert_fault : option pg_error;
  no_row_text : jsstring;
  conflict_text : jsstring
}.

(** [from('jobs').select(...).eq('id', id).single()]. *)
Definition select_job (e : env) (i : Z) (s : store) : pg_error + job :=
  match select_fault e with
  | Some err => inl err
  | None =>
      match filter (fun j => id j =? i) (jobs s) with
      | [j] => inr j
      | _ => inl {| code := lit "PGRST116"; text := no_row_text e |}
      end
  end.

Definition same_pair (a b : application) : bool :=
  (job_id a =? job_id b) && (applicant_id a =? applicant_id b).

(** Modelled from the spec: the declaration of [job_applications] is not
    part of the source. "Uniqueness (one application per (job, applicant)
    pair) is enforced by the table store's constraint layer, surfaced to
    the application as a distinguishable conflict error": the insertion
    of a second row for a pair fails with code 23505. *)
Definition insert_application (e : env) (a : application) (s : store)
  : option pg_error * store :=
  match insert_fault e with
  | Some err => (Some err, s)
  | None =>
      if existsb (same_pair a) (job_applications s)
      then (Some {| code := lit "23505"; text := conflict_text e |}, s)
      else (None, {| jobs := jobs s;
                     job_applications := job_applications s ++ [a] |})
  end.

(** [String.prototype.trim]: white space and line terminators. *)
Definition is_space (c : Z) : bool :=
  existsb (Z.eqb c)
    [9; 10; 11; 12; 13; 32; 160; 5760; 8232; 8233; 8239; 8287; 12288; 65279]
  || ((8192 <=? c) && (c <=? 8202)).

Fixpoint trim_start (s : jsstring) : jsstring :=
  match s with
  | c :: t => if is_space c then trim_start t else s
  | [] => []
  end.

Definition trim (s : jsstring) : jsstring :=
  rev (trim_start (rev (trim_start s))).

(** The state of the dialog and what [handleApply] does besides. *)
Record dialog : Type := {
  open : bool;
  loading : bool;
  draft : jsstring
}.

Inductive effect : Type :=
| ToastError (msg : jsstring)
| ToastSuccess (msg : jsstring)
| ConsoleError
| OnApplied.

Definition set_loading (b : bool) (u : dialog) : dialog :=
  {| open := open u; loading := b; draft := draft u |}.

Definition close (u : dialog) : dialog :=
  {| open := false; loading := loading u; draft := draft u |}.

(** [catch (error) { console.error(...);
    toast.error(error.message || 'Failed to apply') }]. *)
Definition caught (err : pg_error) : list effect :=
  [ConsoleError;
   ToastError (match text err with [] => lit "Failed to apply" | m => m end)].

(** [handleApply]. The result is the dialog, the effects in order and
    the store. *)
Definition handleApply (e : env) (user : option Z) (j : job) (u : dialog)
    (s : store) : dialog * list effect * store :=
  match user with
  | None => (u, [ToastError (lit "Please login to apply")], s)
  | Some uid =>
      match select_job e (id j) s with
      | inl jobError => (set_loading false u, caught jobError, s)
      | inr jobData =>
          if negb (str_eqb (status jobData) (lit "open"))
          then (set_loading false (close u),
                [ToastError (lit "This job is no longer accepting applications");
                 OnApplied], s)
          else if ToBoolean (and_then (expires_at jobData)
                               (fun t => JBool (t <? now e)))
          then (set_loading false (close u),
                [ToastError (lit "This job has expired"); OnApplied], s)
          else
            let row := {| job_id := id j;
                          applicant_id := uid;
                          message := match trim (draft u) with
                                     | [] => None
                                     | m => Some m
                                     end |} in
            match insert_application e row s with
            | (Some error, s') =>
                if str_eqb (code error) (lit "23505")
                then (set_loading false u,
                      [ToastError (lit "You have already applied to this job")], s')
                else (set_loading false u, caught error, s')
            | (None, s') =>
                ({| open := false; loading := false; draft := [] |},
                 [ToastSuccess (lit "Application submitted successfully!");
                  OnApplied], s')
            end
      end
  end.

(** Sample data: an open job that expires later, created by user 1. *)
Definition sample_job : job :=
  {| id := 10; creator_id := 1; status := lit "open";
     expires_at := Some 1700000600000;
     max_applications := Some 5; application_count := Some 2;
     has_applied := false |}.

Definition sample_store : store :=
  {| jobs := [sample_job]; job_applications := [] |}.

Definition sample_env : env :=
  {| now := 1700000000000;
     select_fault := None;
     insert_fault := None;
     no_row_text := lit "JSON object requested, multiple (or no) rows returned";
     conflict_text := lit "duplicate key value violates unique constraint" |}.

Definition sample_dialog : dialog :=
  {| open := true; loading := false; draft := lit "  I am interested " |}.

End Jobs.

(* ===================================================================== *)
(** ** Vocabulary of the further properties of the edge function *)
(* ===================================================================== *)

(** The accounts of a store: the identifier and the number of each row of
    [user_credentials], in order. *)
Definition accounts (d : database) : list (Z * jsstring) :=
  map (fun r => (user_credentials.id r, user_credentials.mobile_number r))
      (credentials d).

(** A session after some requests: the same user, and active only if it
    was active before. *)
Definition session_kept (s s' : user_sessions.row) : Prop :=
  user_sessions.user_id s' = user_sessions.user_id s
  /\ (user_sessions.is_active s' = true -> user_sessions.is_active s = true).

(** What no request ever does to the accounts and the sessions. *)
Definition accounts_and_sessions_kept (d d' : database) : Prop :=
  accounts d' = accounts d /\ Forall2 session_kept (sessions d) (sessions d').

(** A response that carries an error: a body with the one key [error]. *)
Definition error_body (r : response) : Prop :=
  exists msg, payload r = Some [("error"%string, JStr msg)].

(** The answer of a successful [request_otp] with the code [c]. *)
Definition otp_sent (c : jsstring) : response :=
  {| status := 200;
     payload := Some [("success"%string, JBool true);
                      ("message"%string, JStr (lit "OTP sent successfully"));
                      ("debug_otp"%string, JStr c)] |}.

(** An environment in which the [k]-th call errors and no other does. *)
Definition failing_at (k : nat) (e : env) : env :=
  {| getenv := getenv e;
     createClient := createClient e;
     now := now e;
     now_update := now_update e;
     random := random e;
     new_id := new_id e;
     fault := fun i => Nat.eqb i k |}.

(** A call that answered with the status [st]. *)
Definition answered (st : Z) (r : outcome response * state) : Prop :=
  exists resp, fst r = Done resp /\ status resp = st.

(** The accounts of the number [m] with the password hash [h], updated at
    [t]; the other accounts as they are. *)
Definition with_password (m h : jsstring) (t : Z)
    (l : list user_credentials.row) : list user_credentials.row :=
  map (fun r => if credential_for m r then set_password h t r else r) l.

(** The sessions of the user [u] deactivated; the other sessions as they
    are. *)
Definition signed_out (u : Z) (l : list user_sessions.row) : list user_sessions.row :=
  map (fun r => if user_sessions.user_id r =? u then set_inactive r else r) l.

(* ===================================================================== *)
(** ** Jobs: closing a job from the detail page *)
(* ===================================================================== *)

Module JobPage.

Definition with_status (st : jsstring) (j : Jobs.job) : Jobs.job :=
  {| Jobs.id := Jobs.id j;
     Jobs.creator_id := Jobs.creator_id j;
     Jobs.status := st;
     Jobs.expires_at := Jobs.expires_at j;
     Jobs.max_applications := Jobs.max_applications j;
     Jobs.application_count := Jobs.application_count j;
     Jobs.has_applied := Jobs.has_applied j |}.

(** [from('jobs').update({ status: 'closed' }).eq('id', i)]: every row
    with the identifier gets the status; which rows the caller may write
    is a matter of the store's policies, which are not in the source. *)
Definition close_rows (i : Z) (s : Jobs.store) : Jobs.store :=
  {| Jobs.jobs := map (fun j => if Jobs.id j =? i
                                then with_status (lit "closed") j else j)
                      (Jobs.jobs s);
     Jobs.job_applications := Jobs.job_applications s |}.

(** What [handleCloseJob] does besides the update. *)
Inductive notice : Type :=
| Success (msg : jsstring)
| Failure (msg : jsstring)
| Refetch.

(** [handleCloseJob]: the update, then [toast.success] and [refetch()];
    an [error] of the update is thrown and caught, with [toast.error]. *)
Definition handleCloseJob (update_fault : option Jobs.pg_error) (j : Jobs.job)
    (s : Jobs.store) : list notice * Jobs.store :=
  match update_fault with
  | Some _ => ([Failure (lit "Failed to close job")], s)
  | None =>
      ([Success (lit "Job closed successfully"); Refetch], close_rows (Jobs.id j) s)
  end.

(** The application of the user [uid] to the job [j]. *)
Definition applied (j : Jobs.job) (uid : Z) (b : Jobs.application) : Prop :=
  Jobs.job_id b = Jobs.id j /\ Jobs.applicant_id b = uid.

(** The effects of a submitted application. *)
Definition submitted : list Jobs.effect :=
  [Jobs.ToastSuccess (lit "Application submitted successfully!"); Jobs.OnApplied].

(** A string of white space only. *)
Definition blank (s : jsstring) : Prop := forallb Jobs.is_space s = true.

End JobPage.

(* ===================================================================== *)
(** ** The password-reset wizard ([ForgotPassword]) *)
(* ===================================================================== *)

(** Division of a binary64 value by an integer-valued constant, on the
    numerators of [Float64]: the exact quotient rounded to nearest, ties
    to even, to 53 significant bits. *)
Module Float64Ops.

Definition div_int (x c : Z) : Z :=
  let k := Z.log2 (x / c) - 52 in
  let g := if k <=? 0 then 1 else 2 ^ k in
  let d := c * g in
  let q := x / d in
  let r := x mod d in
  let q' := if 2 * r <? d then q
            else if d <? 2 * r then q + 1
            else if Z.even q then q else q + 1 in
  q' * g.

End Float64Ops.

Module ForgotPassword.

(** The two schemas, by what the component reads of [safeParse]: [None]
    when [success] is true, the message of the first issue otherwise. The
    check of [min] comes before the refinement, so that its issue is the
    first when both fail. *)
Definition phoneSchema (val : jsstring) : option string :=
  if (length val <? 1)%nat then Some "Mobile number is required"%string
  else if negb (test_10_digits val)
  then Some "Please enter a valid 10-digit mobile number"%string
  else None.

Definition passwordSchema (val : jsstring) : option string :=
  if (length val <? 6)%nat then Some "Password must be at least 6 characters"%string
  else None.

(** [s.replace(/\D/g, '')]: every code unit that is not a decimal digit
    is removed. *)
Definition replace_non_digits (s : jsstring) : jsstring := filter is_digit s.

(** [/[lo-hi]/.test(s)] and the test of the class of special characters. *)
Definition in_range (lo hi : Z) (c : Z) : bool := (lo <=? c) && (c <=? hi).

Definition special_characters : jsstring :=
  lit "!@#$%^&*(),.?" ++ [34] ++ lit ":{}|<>".

Definition is_special (c : Z) : bool := existsb (Z.eqb c) special_characters.

Record checks_of : Type := {
  minLength : bool;
  hasUppercase : bool;
  hasLowercase : bool;
  hasNumber : bool;
  hasSpecial : bool
}.

(** [Object.values(checks)], in the order of the keys. *)
Definition values (c : checks_of) : list bool :=
  [minLength c; hasUppercase c; hasLowercase c; hasNumber c; hasSpecial c].

Inductive level : Type := weak | fair | good | strong.

Record password_strength : Type := {
  checks : checks_of;
  passedChecks : Z;
  strength : level;
  color : string;
  percentage : Z
}.

(** [getPasswordStrength]. The percentage is a binary64 value, given by
    its numerator as in [Float64]. *)
Definition getPasswordStrength (pwd : jsstring) : password_strength :=
  let checks :=
    {| minLength := (6 <=? length pwd)%nat;
       hasUppercase := existsb (in_range 65 90) pwd;
       hasLowercase := existsb (in_range 97 122) pwd;
       hasNumber := existsb (in_range 48 57) pwd;
       hasSpecial := existsb is_special pwd |} in
  let passedChecks := Z.of_nat (length (filter (fun b : bool => b) (values checks))) in
  let sc :=
    if 5 <=? passedChecks then (strong, "bg-emerald-500"%string)
    else if 4 <=? passedChecks then (good, "bg-emerald-400"%string)
    else if 3 <=? passedChecks then (fair, "bg-yellow-500"%string)
    else (weak, "bg-destructive"%string) in
  {| checks := checks;
     passedChecks := passedChecks;
     strength := fst sc;
     color := snd sc;
     percentage :=
       Float64.mul_int (Float64Ops.div_int (Float64.of_int passedChecks) 5) 100 |}.

Inductive Step : Type := StepMobile | StepOtp | StepPassword | StepSuccess.

(** The state of the component, with the number of intervals that
    [startResendCooldown] has set and that have not been cleared. The two
    flags that show or hide the passwords are left out. *)
Record wizard : Type := {
  step : Step;
  mobileNumber : jsstring;
  otp : jsstring;
  newPassword : jsstring;
  confirmPassword : jsstring;
  loading : bool;
  errors : list (string * string);
  resendCooldown : Z;
  intervals : nat
}.

Definition initial : wizard :=
  {| step := StepMobile; mobileNumber := []; otp := []; newPassword := [];
     confirmPassword := []; loading := false; errors := [];
     resendCooldown := 0; intervals := 0 |}.

(** What [supabase.functions.invoke] resolves to: [data] with no
    [error], or an [error] with its [message]. *)
Inductive invoke_result : Type :=
| Returned (data : list (string * jsval))
| Failed (message : jsstring).

(** What a handler does besides changing the state. *)
Inductive event : Type :=
| Invoke (req : request)
| Toast (title description : jsstring) (destructive : bool) (duration : option Z).

(** [if (error) throw error; if (data.error) throw new Error(data.error)]:
    the message of what is thrown, if anything is. *)
Definition thrown (reply : invoke_result) : option jsstring :=
  match reply with
  | Failed message => Some message
  | Returned data =>
      match lookup "error" data with
      | Some v => if ToBoolean v then Some (ToString v) else None
      | None => None
      end
  end.

(** [error.message || fallback]. *)
Definition or_else (message : jsstring) (fallback : string) : jsstring :=
  match message with
  | [] => lit fallback
  | _ => message
  end.

Definition setErrors (l : list (string * string)) (w : wizard) : wizard :=
  {| step := step w; mobileNumber := mobileNumber w; otp := otp w;
     newPassword := newPassword w; confirmPassword := confirmPassword w;
     loading := loading w; errors := l;
     resendCooldown := resendCooldown w; intervals := intervals w |}.

Definition setLoading (b : bool) (w : wizard) : wizard :=
  {| step := step w; mobileNumber := mobileNumber w; otp := otp w;
     newPassword := newPassword w; confirmPassword := confirmPassword w;
     loading := b; errors := errors w;
     resendCooldown := resendCooldown w; intervals := intervals w |}.

Definition setStep (s : Step) (w : wizard) : wizard :=
  {| step := s; mobileNumber := mobileNumber w; otp := otp w;
     newPassword := newPassword w; confirmPassword := confirmPassword w;
     loading := loading w; errors := errors w;
     resendCooldown := resendCooldown w; intervals := intervals w |}.

Definition setOtp (s : jsstring) (w : wizard) : wizard :=
  {| step := step w; mobileNumber := mobileNumber w; otp := s;
     newPassword := newPassword w; confirmPassword := confirmPassword w;
     loading := loading w; errors := errors w;
     resendCooldown := resendCooldown w; intervals := intervals w |}.

Definition setMobileNumber (s : jsstring) (w : wizard) : wizard :=
  {| step := step w; mobileNumber := s; otp := otp w;
     newPassword := newPassword w; confirmPassword := confirmPassword w;
     loading := loading w; errors := errors w;
     resendCooldown := resendCooldown w; intervals := intervals w |}.

Definition setResendCooldown (c : Z) (n : nat) (w : wizard) : wizard :=
  {| step := step w; mobileNumber := mobileNumber w; otp := otp w;
     newPassword := newPassword w; confirmPassword := confirmPassword w;
     loading := loading w; errors := errors w;
     resendCooldown := c; intervals := n |}.

(** [startResendCooldown]: the countdown is set to 60 and one more
    interval runs. *)
Definition startResendCooldown (w : wizard) : wizard :=
  setResendCooldown 60 (S (intervals w)) w.

(** One firing of one of the running intervals: the updater passed to
    [setResendCooldown], with the [clearInterval] of the interval that
    fired. *)
Definition tick (w : wizard) : wizard :=
  match intervals w with
  | O => w
  | S n =>
      if resendCooldown w <=? 1 then setResendCooldown 0 n w
      else setResendCooldown (resendCooldown w - 1) (S n) w
  end.

Fixpoint ticks (n : nat) (w : wizard) : wizard :=
  match n with
  | O => w
  | S n' => ticks n' (tick w)
  end.

(** The [onChange] of the mobile number input. *)
Definition typeMobileNumber (value : jsstring) (w : wizard) : wizard :=
  setMobileNumber (replace_non_digits value) w.

(** The button "Change Mobile Number". *)
Definition changeMobileNumber (w : wizard) : wizard :=
  setOtp [] (setStep StepMobile w).

(** [handleRequestOTP], with what the call resolves to. *)
Definition handleRequestOTP (reply : invoke_result) (w : wizard)
  : wizard * list event :=
  match phoneSchema (mobileNumber w) with
  | Some msg => (setErrors [("mobileNumber"%string, msg)] w, [])
  | None =>
      let call := Invoke (post "request_otp" (JStr (mobileNumber w))
                            JUndefined JUndefined) in
      match thrown reply with
      | Some message =>
          (setLoading false (setErrors [] w),
           [call; Toast (lit "Error") (or_else message "Failed to send OTP") true None])
      | None =>
          let debug :=
            match reply with
            | Returned data =>
                match lookup "debug_otp" data with
                | Some v =>
                    if ToBoolean v
                    then [Toast (lit "Debug OTP (Testing Only)")
                            (lit "Your OTP is: " ++ ToString v) false (Some 30000)]
                    else []
                | None => []
                end
            | Failed _ => []
            end in
          (setLoading false (setStep StepOtp (startResendCooldown (setErrors [] w))),
           [call;
            Toast (lit "OTP Sent")
              (lit "Please check your mobile for the verification code.") false None]
           ++ debug)
      end
  end.

(** [handleVerifyOTP]. *)
Definition handleVerifyOTP (reply : invoke_result) (w : wizard)
  : wizard * list event :=
  if negb (length (otp w) =? 6)%nat
  then (setErrors [("otp"%string, "Please enter a valid 6-digit OTP"%string)] w, [])
  else
    let call := Invoke (post "verify_otp" (JStr (mobileNumber w)) (JStr (otp w))
                          JUndefined) in
    match thrown reply with
    | Some message =>
        (setLoading false (setErrors [] w),
         [call; Toast (lit "Verification Failed")
                  (or_else message "Invalid or expired OTP") true None])
    | None =>
        (setLoading false (setStep StepPassword (setErrors [] w)),
         [call; Toast (lit "OTP Verified") (lit "Please set your new password.")
                  false None])
    end.

(** [handleResetPassword]. *)
Definition handleResetPassword (reply : invoke_result) (w : wizard)
  : wizard * list event :=
  let newErrors :=
    match passwordSchema (newPassword w) with
    | Some msg => [("password"%string, msg)]
    | None => []
    end
    ++ (if negb (str_eqb (newPassword w) (confirmPassword w))
        then [("confirmPassword"%string, "Passwords do not match"%string)]
        else []) in
  if (0 <? length newErrors)%nat
  then (setErrors newErrors w, [])
  else
    let call := Invoke (post "reset_password" (JStr (mobileNumber w)) (JStr (otp w))
                          (JStr (newPassword w))) in
    match thrown reply with
    | Some message =>
        (setLoading false (setErrors [] w),
         [call; Toast (lit "Reset Failed")
                  (or_else message "Failed to reset password") true None])
    | None =>
        (setLoading false (setStep StepSuccess (setErrors [] w)),
         [call; Toast (lit "Password Reset Successful")
                  (lit "You can now sign in with your new password.") false None])
    end.

(** The request a handler sends, if it sends one. *)
Definition sent (r : wizard * list event) : option request :=
  match snd r with
  | Invoke req :: _ => Some req
  | _ => None
  end.

(** The rank of a level of strength. *)
Definition rank (l : level) : Z :=
  match l with
  | weak => 0
  | fair => 1
  | good => 2
  | strong => 3
  end.

(** The level as a function of the number of checks passed. *)
Definition level_of (n : Z) : level :=
  if 5 <=? n then strong else if 4 <=? n then good
  else if 3 <=? n then fair else weak.

End ForgotPassword.

(* ===================================================================== *)
(** ** The wizard and the edge function together *)
(* ===================================================================== *)

(** What is assumed of the way a response of the edge function reaches
    the wizard: when the call resolves to [data], it is the body of the
    response. Whether a response that is not 2xx comes back as [data] or as
    an [error] is left open. *)
Definition faithful (transport : response -> ForgotPassword.invoke_result) : Prop :=
  forall resp data,
    transport resp = ForgotPassword.Returned data -> payload resp = Some data.

(** A sample: the body as [data] for a 200, an [error] otherwise. *)
Definition sample_transport (resp : response) : ForgotPassword.invoke_result :=
  match payload resp with
  | Some data =>
      if status resp =? 200 then ForgotPassword.Returned data
      else ForgotPassword.Failed (lit "Edge Function returned a non-2xx status code")
  | None => ForgotPassword.Failed []
  end.

(** The edge function went on to call the store: it did not turn the
    request away on its fields. *)
Definition passes_validation (e : env) (req : request) (d : database) : Prop :=
  log (snd (run (handler e req) d)) <> [].

(** The wizard with the sample number, the sample code and a password
    typed twice, at a given step. *)
Definition sample_wizard (s : ForgotPassword.Step) : ForgotPassword.wizard :=
  {| ForgotPassword.step := s;
     ForgotPassword.mobileNumber := lit "9876543210";
     ForgotPassword.otp := lit "550000";
     ForgotPassword.newPassword := lit "new-secret";
     ForgotPassword.confirmPassword := lit "new-secret";
     ForgotPassword.loading := false;
     ForgotPassword.errors := [];
     ForgotPassword.resendCooldown := 0;
     ForgotPassword.intervals := 0 |}.

(* ===================================================================== *)
(** * Properties *)
(* ===================================================================== *)

(** ** Strings and scalar values *)

Example lit_digits : lit "0129" = [48; 49; 50; 57].
Proof. reflexivity. Qed.

Example Number_toString_10 : Number_toString 1234567890 = lit "1234567890".
Proof. reflexivity. Qed.

Example Number_toString_neg : Number_toString (-42) = lit "-42".
Proof. reflexivity. Qed.

Example Number_toString_0 : Number_toString 0 = lit "0".
Proof. reflexivity. Qed.

Lemma str_eqb_eq (a b : jsstring) : str_eqb a b = true <-> a = b.
Proof.
  revert b; induction a as [|x a IH]; intros [|y b]; simpl;
    try (split; [discriminate | intros E; discriminate E]); try tauto.
  rewrite andb_true_iff, Z.eqb_eq, IH.
  split; [intros [-> ->]; reflexivity | intros E; injection E; auto].
Qed.

Lemma str_eqb_refl (a : jsstring) : str_eqb a a = true.
Proof. apply str_eqb_eq; reflexivity. Qed.

Lemma str_eqb_neq (a b : jsstring) : str_eqb a b = false <-> a <> b.
Proof.
  rewrite <- str_eqb_eq. destruct (str_eqb a b); split; congruence.
Qed.

Lemma str_eqb_sym (a b : jsstring) : str_eqb a b = str_eqb b a.
Proof.
  destruct (str_eqb a b) eqn:E.
  - apply str_eqb_eq in E; subst; symmetry; apply str_eqb_refl.
  - symmetry; apply str_eqb_neq; apply str_eqb_neq in E; congruence.
Qed.

Lemma is_digit_spec (c : Z) : is_digit c = true <-> 48 <= c <= 57.
Proof. unfold is_digit; rewrite andb_true_iff, !Z.leb_le; tauto. Qed.

(** The regular expression accepts exactly the strings of ten digits. *)
Lemma test_10_digits_spec (s : jsstring) :
  test_10_digits s = true <-> decimal_digits 10 s.
Proof.
  unfold test_10_digits, decimal_digits.
  rewrite andb_true_iff, Nat.eqb_eq, forallb_forall, Forall_forall.
  split; intros [L D]; split; auto; intros c Hc; apply is_digit_spec; auto.
Qed.

Lemma test_10_digits_false (s : jsstring) :
  test_10_digits s = false <-> ~ decimal_digits 10 s.
Proof.
  rewrite <- test_10_digits_spec. destruct (test_10_digits s); split; congruence.
Qed.

(** A value whose string form is ten digits is truthy: the two tests of
    the validation never disagree. *)
Lemma ten_digits_truthy (v : jsval) :
  decimal_digits 10 (ToString v) -> ToBoolean v = true.
Proof.
  intros [L D]. destruct v as [| |[|]|z|s]; simpl.
  - vm_compute in L; discriminate L.
  - vm_compute in L; discriminate L.
  - reflexivity.
  - vm_compute in L; discriminate L.
  - destruct (Z.eqb_spec z 0) as [->|]; [| reflexivity].
    vm_compute in L; discriminate L.
  - destruct s; [discriminate L | reflexivity].
Qed.

(** The fuel of [decimal] never runs out: the digits printed denote the
    number. *)
Lemma digits_fuel_value (fuel : nat) :
  forall (n : Z) (acc : jsstring),
    0 <= n < 2 ^ Z.of_nat fuel ->
    digits_value (digits_fuel fuel n acc) =
      n * 10 ^ Z.of_nat (length acc) + digits_value acc.
Proof.
  induction fuel as [|f IH]; intros n acc H.
  - change (2 ^ Z.of_nat 0) with 1 in H. replace n with 0 by lia. reflexivity.
  - rewrite Nat2Z.inj_succ, Z.pow_succ_r in H by lia.
    cbn [digits_fuel]. destruct (Z.ltb_spec n 10).
    + cbn [digits_value]. rewrite Z.mod_small by lia. lia.
    + rewrite IH.
      * cbn [digits_value length]. rewrite Nat2Z.inj_succ, Z.pow_succ_r by lia.
        pose proof (Z.div_mod n 10 ltac:(lia)). nia.
      * split; [apply Z.div_pos; lia|apply Z.div_lt_upper_bound; lia].
Qed.

Lemma decimal_value (n : Z) : 0 <= n -> digits_value (decimal n) = n.
Proof.
  intros H. unfold decimal. rewrite digits_fuel_value; [cbn; lia|].
  split; [assumption|].
  rewrite Nat2Z.inj_succ, Z2Nat.id by apply Z.log2_nonneg.
  destruct (Z.eq_dec n 0) as [->|N]; [reflexivity|].
  apply Z.log2_spec. lia.
Qed.

(* ===================================================================== *)
(** ** Binary64 rounding and the digits of the OTP *)
(* ===================================================================== *)

Module Float64Facts.
Import Float64.

Lemma log2_pos_arg (n : Z) : 0 < Z.log2 n -> 0 < n.
Proof.
  intros H. destruct (Z.lt_trichotomy n 0) as [N|[N|N]]; [| |assumption].
  - rewrite (Z.log2_nonpos n) in H by lia. lia.
  - subst n. cbn in H. lia.
Qed.

(** In a binade with exponent [k > 0] the rounding picks one of the two
    neighbours of [n] on the grid of step [2^k]. *)
Lemma round_cases (n k : Z) :
  k = Z.log2 n - 52 -> 0 < k ->
  exists q',
    round n = q' * 2 ^ k
    /\ (q' = n / 2 ^ k \/ (q' = n / 2 ^ k + 1 /\ 2 ^ (k - 1) <= n mod 2 ^ k)).
Proof.
  intros -> Hk. unfold round. set (k := Z.log2 n - 52) in *.
  destruct (Z.leb_spec k 0) as [?|_]; [lia|].
  destruct (Z.ltb_spec (n mod 2 ^ k) (2 ^ (k - 1))).
  - eexists; split; [reflexivity|left; reflexivity].
  - destruct (Z.ltb_spec (2 ^ (k - 1)) (n mod 2 ^ k)).
    + eexists; split; [reflexivity|right; split; [reflexivity|lia]].
    + destruct (Z.even (n / 2 ^ k)).
      * eexists; split; [reflexivity|left; reflexivity].
      * eexists; split; [reflexivity|right; split; [reflexivity|lia]].
Qed.

(** The bounds of a binade, in terms of the grid step. *)
Lemma binade (n k : Z) :
  k = Z.log2 n - 52 -> 0 < k -> 2 ^ 52 * 2 ^ k <= n < 2 ^ 53 * 2 ^ k.
Proof.
  intros E Hk.
  assert (Hn : 0 < n) by (apply log2_pos_arg; lia).
  destruct (Z.log2_spec n Hn) as [Lo Hi].
  replace (Z.log2 n) with (52 + k) in Lo by lia.
  replace (Z.succ (Z.log2 n)) with (53 + k) in Hi by lia.
  rewrite Z.pow_add_r in Lo, Hi by lia. lia.
Qed.

(** The quotient by the grid step is a 53-bit significand. *)
Lemma significand_range (n k : Z) :
  k = Z.log2 n - 52 -> 0 < k -> 2 ^ 52 <= n / 2 ^ k < 2 ^ 53.
Proof.
  intros E Hk. destruct (binade n k E Hk) as [Lo Hi].
  assert (P : 0 < 2 ^ k) by (apply Z.pow_pos_nonneg; lia).
  split.
  - apply Z.div_le_lower_bound; lia.
  - apply Z.div_lt_upper_bound; lia.
Qed.

Lemma round_small (n : Z) : Z.log2 n <= 52 -> round n = n.
Proof.
  intros H. unfold round.
  destruct (Z.leb_spec (Z.log2 n - 52) 0); [reflexivity|lia].
Qed.

(** Rounding never crosses a representable value: upwards ... *)
Lemma round_le (n b : Z) :
  0 <= n <= b -> representable b -> round n <= b.
Proof.
  intros [N0 NB] [_ Rb].
  destruct (Z.le_gt_cases (Z.log2 n) 52) as [S|L].
  { rewrite round_small; assumption. }
  set (k := Z.log2 n - 52). assert (Hk : 0 < k) by (unfold k; lia).
  destruct (round_cases n k eq_refl Hk) as (q' & -> & Hq').
  destruct (binade n k eq_refl Hk) as [Lo Hi].
  destruct (significand_range n k eq_refl Hk) as [_ Q].
  assert (P : 0 < 2 ^ k) by (apply Z.pow_pos_nonneg; lia).
  assert (H1 : 0 < 2 ^ (k - 1)) by (apply Z.pow_pos_nonneg; lia).
  pose proof (Z.div_mod n (2 ^ k) ltac:(lia)) as DM.
  pose proof (Z.mod_pos_bound n (2 ^ k) P) as MB.
  pose proof (Z.log2_le_mono n b NB) as Mono.
  destruct (Z.eq_dec (Z.log2 b) (Z.log2 n)) as [Eb|Nb].
  - (* same binade: [b] is on the grid *)
    assert (Kb : k = Z.log2 b - 52) by (unfold k; lia).
    destruct (round_cases b k Kb Hk) as (qb & Eqb & _).
    rewrite Rb in Eqb.
    destruct Hq' as [->|[-> Hr]]; [lia|].
    assert (n / 2 ^ k < qb) by nia.
    rewrite Eqb. apply Z.mul_le_mono_nonneg_r; lia.
  - (* a higher binade starts at a power of two *)
    assert (Hb : 0 < b) by lia.
    destruct (Z.log2_spec b Hb) as [Lb _].
    assert (Z.log2 n + 1 <= Z.log2 b) by lia.
    assert (2 ^ (Z.log2 n + 1) <= 2 ^ Z.log2 b)
      by (apply Z.pow_le_mono_r; lia).
    replace (Z.log2 n + 1) with (53 + k) in * by (unfold k; lia).
    rewrite Z.pow_add_r in * by lia.
    assert ((n / 2 ^ k + 1) * 2 ^ k <= 2 ^ 53 * 2 ^ k)
      by (apply Z.mul_le_mono_nonneg_r; lia).
    destruct Hq' as [->|[-> Hr]]; lia.
Qed.

(** ... and downwards. *)
Lemma round_ge (n b : Z) :
  0 <= b <= n -> representable b -> b <= round n.
Proof.
  intros [B0 BN] [_ Rb].
  destruct (Z.le_gt_cases (Z.log2 n) 52) as [S|L].
  { rewrite round_small; assumption. }
  set (k := Z.log2 n - 52). assert (Hk : 0 < k) by (unfold k; lia).
  destruct (round_cases n k eq_refl Hk) as (q' & -> & Hq').
  destruct (binade n k eq_refl Hk) as [Lo Hi].
  destruct (significand_range n k eq_refl Hk) as [Q _].
  assert (P : 0 < 2 ^ k) by (apply Z.pow_pos_nonneg; lia).
  pose proof (Z.div_mod n (2 ^ k) ltac:(lia)) as DM.
  pose proof (Z.mod_pos_bound n (2 ^ k) P) as MB.
  pose proof (Z.log2_le_mono b n BN) as Mono.
  destruct (Z.eq_dec (Z.log2 b) (Z.log2 n)) as [Eb|Nb].
  - assert (Kb : k = Z.log2 b - 52) by (unfold k; lia).
    destruct (round_cases b k Kb Hk) as (qb & Eqb & _).
    rewrite Rb in Eqb.
    assert (qb <= n / 2 ^ k) by (apply Z.div_le_lower_bound; lia).
    assert (qb * 2 ^ k <= n / 2 ^ k * 2 ^ k)
      by (apply Z.mul_le_mono_nonneg_r; lia).
    destruct Hq' as [->|[-> Hr]]; lia.
  - assert (b < 2 ^ 52 * 2 ^ k).
    { destruct (Z.eq_dec b 0) as [->|]; [lia|].
      destruct (Z.log2_spec b ltac:(lia)) as [_ Ub].
      assert (2 ^ Z.succ (Z.log2 b) <= 2 ^ Z.log2 n)
        by (apply Z.pow_le_mono_r; lia).
      replace (Z.log2 n) with (52 + k) in * by (unfold k; lia).
      rewrite Z.pow_add_r in * by lia. lia. }
    assert (2 ^ 52 * 2 ^ k <= n / 2 ^ k * 2 ^ k)
      by (apply Z.mul_le_mono_nonneg_r; lia).
    destruct Hq' as [->|[-> Hr]]; lia.
Qed.

(** Below the midpoint under a grid point [Q * 2^k] the rounding stays
    under that grid point. *)
Lemma round_below_midpoint (n k Q : Z) :
  k = Z.log2 n - 52 -> 0 < k ->
  n < Q * 2 ^ k - 2 ^ (k - 1) ->
  round n <= (Q - 1) * 2 ^ k.
Proof.
  intros E Hk H.
  destruct (round_cases n k E Hk) as (q' & -> & Hq').
  assert (P : 0 < 2 ^ k) by (apply Z.pow_pos_nonneg; lia).
  assert (D : 2 ^ k = 2 * 2 ^ (k - 1)).
  { replace k with (1 + (k - 1)) at 1 by lia.
    rewrite Z.pow_add_r by lia. reflexivity. }
  pose proof (Z.div_mod n (2 ^ k) ltac:(lia)) as DM.
  pose proof (Z.mod_pos_bound n (2 ^ k) P) as MB.
  apply Z.mul_le_mono_nonneg_r; [lia|].
  destruct Hq' as [->|[-> Hr]]; nia.
Qed.

Lemma representable_0 : representable 0.
Proof. split; [lia|reflexivity]. Qed.

Lemma round_nonneg (n : Z) : 0 <= n -> 0 <= round n.
Proof. intros H. apply round_ge; [lia|apply representable_0]. Qed.

(** The largest binary64 value below 1 is [1 - 2^-53]. *)
Lemma unit_interval_max (r : Z) :
  unit_interval r -> 0 <= r <= one - 2 ^ 1021.
Proof.
  intros [[R0 Rr] R1]. split; [assumption|].
  assert (E1 : one = 2 ^ 53 * 2 ^ 1021) by (vm_compute; reflexivity).
  destruct (Z.le_gt_cases (Z.log2 r) 1072) as [S|L].
  - destruct (Z.eq_dec r 0) as [->|N]; [vm_compute; discriminate|].
    destruct (Z.log2_spec r ltac:(lia)) as [_ U].
    assert (2 ^ Z.succ (Z.log2 r) <= 2 ^ 1073)
      by (apply Z.pow_le_mono_r; lia).
    assert (2 ^ 1073 <= one - 2 ^ 1021) by (vm_compute; discriminate).
    lia.
  - assert (Z.log2 r < 1074).
    { apply Z.log2_lt_pow2; [apply log2_pos_arg; lia|exact R1]. }
    assert (K : 1021 = Z.log2 r - 52) by lia.
    destruct (round_cases r 1021 K ltac:(lia)) as (q & Eq & _).
    rewrite Rr in Eq. rewrite E1 in *.
    assert (0 < 2 ^ 1021) by (apply Z.pow_pos_nonneg; lia).
    assert (q < 2 ^ 53) by nia.
    nia.
Qed.

(** The number whose digits [generateOTP] prints lies between 100000
    and 999999, whatever value of [0, 1) the random source returns. *)
Lemma otp_number_range (r : Z) :
  unit_interval r ->
  100000 <= floor (add (of_int 100000) (mul_int r 900000)) <= 999999.
Proof.
  intros U. destruct (unit_interval_max r U) as [R0 R1].
  unfold add, mul_int, of_int, floor.
  set (p := r * 900000).
  assert (P0 : 0 <= p) by (unfold p; lia).
  assert (P1 : p <= 900000 * (one - 2 ^ 1021)) by (unfold p; lia).
  assert (B1 : round p <= 900000 * one - 2 ^ 1041).
  { destruct (Z.le_gt_cases (Z.log2 p) 1092) as [S|L].
    - assert (p <= 2 ^ 1093).
      { destruct (Z.eq_dec p 0) as [->|N]; [vm_compute; discriminate|].
        destruct (Z.log2_spec p ltac:(lia)) as [_ Up].
        assert (2 ^ Z.succ (Z.log2 p) <= 2 ^ 1093)
          by (apply Z.pow_le_mono_r; lia).
        lia. }
      assert (round p <= 2 ^ 1093).
      { apply round_le; [lia|]. split; vm_compute; [discriminate|reflexivity]. }
      assert (2 ^ 1093 <= 900000 * one - 2 ^ 1041) by (vm_compute; discriminate).
      lia.
    - assert (Z.log2 p < 1094).
      { apply Z.log2_lt_pow2; [apply log2_pos_arg; lia|].
        assert (900000 * (one - 2 ^ 1021) < 2 ^ 1094) by (vm_compute; reflexivity).
        lia. }
      assert (K : 1041 = Z.log2 p - 52) by lia.
      assert (E : 900000 * one - 2 ^ 1041 = (900000 * 2 ^ 33 - 1) * 2 ^ 1041)
        by (vm_compute; reflexivity).
      rewrite E. apply round_below_midpoint; [exact K|lia|].
      assert (900000 * (one - 2 ^ 1021)
              < 900000 * 2 ^ 33 * 2 ^ 1041 - 2 ^ (1041 - 1))
        by (vm_compute; reflexivity).
      lia. }
  pose proof (round_nonneg p P0) as B0.
  set (s := 100000 * one + round p).
  assert (S0 : 100000 * one <= s) by (unfold s; lia).
  assert (S1 : s <= 1000000 * one - 2 ^ 1041) by (unfold s; lia).
  assert (L : 100000 * one <= round s).
  { apply round_ge; [lia|]. split; vm_compute; [discriminate|reflexivity]. }
  assert (H : round s <= 1000000 * one - 2 ^ 1041).
  { apply round_le; [unfold s; lia|].
    split; vm_compute; [discriminate|reflexivity]. }
  assert (O : 0 < one) by (vm_compute; reflexivity).
  split.
  - apply Z.div_le_lower_bound; lia.
  - assert (round s / one < 1000000); [|lia].
    apply Z.div_lt_upper_bound; [exact O|].
    assert (0 < 2 ^ 1041) by (vm_compute; reflexivity). lia.
Qed.
End Float64Facts.

Lemma digits_fuel_digits (fuel : nat) :
  forall (n : Z) (acc : jsstring),
    0 <= n ->
    Forall (fun c => 48 <= c <= 57) acc ->
    Forall (fun c => 48 <= c <= 57) (digits_fuel fuel n acc).
Proof.
  induction fuel as [|f IH]; intros n acc Hn Hacc; simpl; [assumption|].
  assert (D : Forall (fun c => 48 <= c <= 57) ((48 + n mod 10) :: acc)).
  { constructor; [|assumption].
    pose proof (Z.mod_pos_bound n 10 ltac:(lia)). lia. }
  destruct (n <? 10); [assumption|].
  apply IH; [|assumption]. apply Z.div_pos; lia.
Qed.

(** With enough fuel a number of [j + 1] digits is printed with [j + 1]
    characters. *)
Lemma digits_fuel_length (j : nat) :
  forall (fuel : nat) (n : Z) (acc : jsstring),
    (j < fuel)%nat ->
    0 <= n < 10 ^ (Z.of_nat j + 1) ->
    (j = 0%nat \/ 10 ^ Z.of_nat j <= n) ->
    length (digits_fuel fuel n acc) = (S j + length acc)%nat.
Proof.
  induction j as [|j IH]; intros fuel n acc Hf Hn Hlo;
    (destruct fuel as [|f]; [lia|]); simpl digits_fuel.
  - change (10 ^ (Z.of_nat 0 + 1)) with 10 in Hn.
    destruct (Z.ltb_spec n 10); [reflexivity|lia].
  - destruct Hlo as [Hj|Hlo]; [discriminate Hj|].
    rewrite Nat2Z.inj_succ in Hn, Hlo.
    rewrite Z.pow_succ_r in Hlo by lia.
    replace (Z.succ (Z.of_nat j) + 1) with (Z.succ (Z.of_nat j + 1)) in Hn by lia.
    rewrite Z.pow_succ_r in Hn by lia.
    assert (P : 0 < 10 ^ Z.of_nat j) by (apply Z.pow_pos_nonneg; lia).
    destruct (Z.ltb_spec n 10); [lia|].
    rewrite IH; [simpl; lia|lia| |].
    + split; [apply Z.div_pos; lia|].
      apply Z.div_lt_upper_bound; lia.
    + right. apply Z.div_le_lower_bound; lia.
Qed.

Lemma six_digits (n : Z) :
  100000 <= n <= 999999 -> decimal_digits 6 (Number_toString n).
Proof.
  intros H. unfold Number_toString, decimal.
  destruct (Z.ltb_spec n 0); [lia|].
  pose proof (Z.log2_le_mono 100000 n ltac:(lia)) as L.
  change (Z.log2 100000) with 16 in L.
  split.
  - rewrite (digits_fuel_length 5); [reflexivity|lia| |right].
    + change (10 ^ (Z.of_nat 5 + 1)) with 1000000. lia.
    + change (10 ^ Z.of_nat 5) with 100000. lia.
  - apply digits_fuel_digits; [lia|constructor].
Qed.

(** The code is six decimal digits for every value the random source can
    return, the binary64 roundings of the product and of the sum taken
    into account. *)
Lemma generateOTP_six_digits (r : Z) :
  Float64.unit_interval r -> decimal_digits 6 (generateOTP r).
Proof.
  intros U. unfold generateOTP. apply six_digits.
  apply Float64Facts.otp_number_range; assumption.
Qed.

Example generateOTP_lowest : generateOTP 0 = lit "100000".
Proof. vm_compute. reflexivity. Qed.

Example generateOTP_half : generateOTP (2 ^ 1073) = lit "550000".
Proof. vm_compute. reflexivity. Qed.

(** The largest value below 1, [1 - 2^-53]. *)
Example generateOTP_highest : generateOTP (2 ^ 1074 - 2 ^ 1021) = lit "999999".
Proof. vm_compute. reflexivity. Qed.

Lemma unit_interval_half : Float64.unit_interval (2 ^ 1073).
Proof. repeat split; vm_compute; congruence. Defined.

(* ===================================================================== *)
(** ** Running the edge function *)
(* ===================================================================== *)

Arguments lit : simpl never.
Arguments generateOTP : simpl never.
Arguments hashPassword : simpl never.
Arguments ToString : simpl never.
Arguments error_response : simpl never.

(** One call followed by the rest of the computation, in a run that is
    not killed. *)
Lemma bind_issue {A B} (e : env) (c : call) (failed : A)
    (f : database -> A * database) (k : A -> M B) (s : state) :
  bind (issue e c failed f) k None s =
    if fault e (length (log s))
    then k failed None {| db := db s; log := log s ++ [(c, false)] |}
    else k (fst (f (db s))) None
           {| db := snd (f (db s)); log := log s ++ [(c, true)] |}.
Proof.
  unfold bind, issue. destruct (fault e (length (log s))); [reflexivity|].
  destruct (f (db s)); reflexivity.
Qed.

Lemma bind_ret {A B} (a : A) (k : A -> M B) (kill : option nat) (s : state) :
  bind (ret a) k kill s = k a kill s.
Proof. reflexivity. Qed.

(** [request_otp] on a number that passes the validation, call by call. *)
Lemma request_otp_run (e : env) (v : jsval) (d : database) :
  decimal_digits 10 (ToString v) ->
  let m := ToString v in
  let code := generateOTP (random e) in
  let c0 := SelectCredential m in
  let c1 := DeleteOtps m in
  let c2 := InsertOtp m code (now e + 600000) in
  run (request_otp e v) d =
    if fault e 0
    then (Done (error_response 404 "No account found with this mobile number"),
          {| db := d; log := [(c0, false)] |})
    else match single (filter (credential_for m) (credentials d)) with
         | None =>
             (Done (error_response 404 "No account found with this mobile number"),
              {| db := d; log := [(c0, true)] |})
         | Some _ =>
             let d1 := effect e 1 c1 d in
             if valid_time (now e + 600000)
             then
               let l := [(c0, true); (c1, negb (fault e 1)); (c2, negb (fault e 2))] in
               if fault e 2
               then (Done (error_response 500 "Failed to generate OTP"),
                     {| db := d1; log := l |})
               else (Done {| status := 200;
                             payload := Some [("success"%string, JBool true);
                                              ("message"%string,
                                               JStr (lit "OTP sent successfully"));
                                              ("debug_otp"%string, JStr code)] |},
                     {| db := apply_call e c2 d1; log := l |})
             else (Done (error_response 500 "Internal server error"),
                   {| db := d1; log := [(c0, true); (c1, negb (fault e 1))] |})
         end.
Proof.
  intros H. pose proof (ten_digits_truthy _ H) as T.
  apply test_10_digits_spec in H.
  unfold run, request_otp, effect, toISOString. rewrite H, T. cbn [negb orb].
  unfold select_credential. rewrite bind_issue. cbn [log length db fst snd app].
  destruct (fault e 0); [reflexivity|].
  destruct (single _) as [r|]; cbn [option_map]; [|reflexivity].
  unfold delete_otps. rewrite bind_issue. cbn [log length db fst snd app].
  unfold insert_otp.
  change (now e + 10 * 60 * 1000) with (now e + 600000).
  destruct (fault e 1); destruct (valid_time (now e + 600000));
    try reflexivity;
    rewrite bind_issue; cbn [log length db fst snd app];
    destruct (fault e 2); reflexivity.
Qed.

Lemma request_otp_rejects (e : env) (v : jsval) (d : database) :
  ~ decimal_digits 10 (ToString v) ->
  run (request_otp e v) d =
    (Done (error_response 400 "Please enter a valid 10-digit mobile number"),
     {| db := d; log := [] |}).
Proof.
  intros H. apply test_10_digits_false in H.
  unfold run, request_otp. rewrite H, orb_true_r. reflexivity.
Qed.

(** The two lookups of an OTP, call by call. [present] tells that the
    fields are there (truthy). *)
Lemma verify_otp_run (e : env) (mob code : jsval) (d : database) :
  ToBoolean mob = true -> ToBoolean code = true ->
  let c0 := SelectOtp (ToString mob) (ToString code) (now e) in
  run (verify_otp e mob code) d =
    match (if fault e 0 then None
           else single (filter (otp_valid (ToString mob) (ToString code) (now e))
                          (otps d))) with
    | None => (Done (error_response 400 "Invalid or expired OTP"),
               {| db := d; log := [(c0, negb (fault e 0))] |})
    | Some _ =>
        (Done {| status := 200;
                 payload := Some [("success"%string, JBool true);
                                  ("message"%string,
                                   JStr (lit "OTP verified successfully"));
                                  ("verified"%string, JBool true)] |},
         {| db := d; log := [(c0, true)] |})
    end.
Proof.
  intros Tm Tc. unfold run, verify_otp. rewrite Tm, Tc. cbn [negb orb].
  unfold select_otp. rewrite bind_issue. cbn [log length db fst snd app].
  destruct (fault e 0); [reflexivity|].
  destruct (single _); reflexivity.
Qed.

Lemma verify_otp_missing (e : env) (mob code : jsval) (d : database) :
  ToBoolean mob = false \/ ToBoolean code = false ->
  run (verify_otp e mob code) d =
    (Done (error_response 400 "Mobile number and OTP are required"),
     {| db := d; log := [] |}).
Proof.
  intros H. unfold run, verify_otp.
  destruct H as [-> | ->]; rewrite ?orb_true_r; reflexivity.
Qed.

(** [reset_password] on a well-formed request, call by call. *)
Lemma reset_password_run (e : env) (mob code pw : jsval) (d : database) :
  well_formed_reset mob code pw ->
  let m := ToString mob in
  let c0 := SelectOtp m (ToString code) (now e) in
  let c1 := UpdatePassword m (hashPassword (ToString pw)) (now_update e) in
  let c3 := SelectCredential m in
  run (reset_password e mob code pw) d =
    match (if fault e 0 then None
           else single (filter (otp_valid m (ToString code) (now e)) (otps d))) with
    | None =>
        (Done (error_response 400 "Invalid or expired OTP. Please request a new one."),
         {| db := d; log := [(c0, negb (fault e 0))] |})
    | Some r =>
        if fault e 1
        then (Done (error_response 500 "Failed to update password"),
              {| db := d; log := [(c0, true); (c1, false)] |})
        else
          let c2 := MarkOtpUsed (password_reset_otps.id r) in
          let d2 := effect e 2 c2 (apply_call e c1 d) in
          let l := [(c0, true); (c1, true); (c2, negb (fault e 2));
                    (c3, negb (fault e 3))] in
          match (if fault e 3 then None
                 else single (filter (credential_for m) (credentials d2))) with
          | None => (Done reset_done, {| db := d2; log := l |})
          | Some cr =>
              let c4 := DeactivateSessions (user_credentials.id cr) in
              (Done reset_done,
               {| db := effect e 4 c4 d2; log := l ++ [(c4, negb (fault e 4))] |})
          end
    end.
Proof.
  intros (Tm & Tc & Tp & Lp).
  unfold run, reset_password, effect. rewrite Tm, Tc, Tp, Lp. cbn [negb orb].
  unfold select_otp. rewrite bind_issue. cbn [log length db fst snd app].
  destruct (fault e 0); [reflexivity|].
  destruct (single _) as [r|]; [|reflexivity].
  unfold update_password. rewrite bind_issue. cbn [log length db fst snd app].
  destruct (fault e 1); [reflexivity|].
  unfold mark_otp_used. rewrite bind_issue. cbn [log length db fst snd app].
  unfold select_credential.
  destruct (fault e 2); rewrite bind_issue; cbn [log length db fst snd app];
    (destruct (fault e 3); [reflexivity|]);
    (destruct (single _) as [cr|]; cbn [option_map]; [|reflexivity]);
    unfold deactivate_sessions; rewrite bind_issue;
    cbn [log length db fst snd app]; destruct (fault e 4); reflexivity.
Qed.

(** A [reset_password] request that lacks a field or has a short password
    is turned away before any call to the store. *)
Lemma reset_password_malformed (e : env) (mob code pw : jsval) (d : database) :
  ~ well_formed_reset mob code pw ->
  exists msg,
    run (reset_password e mob code pw) d =
      (Done (error_response 400 msg), {| db := d; log := [] |}).
Proof.
  intros H. unfold run, reset_password.
  destruct (ToBoolean mob) eqn:Tm; [|eexists; reflexivity].
  destruct (ToBoolean code) eqn:Tc; [|eexists; reflexivity].
  destruct (ToBoolean pw) eqn:Tp; [|eexists; reflexivity].
  destruct (length_below pw 6) eqn:Lp; [eexists; reflexivity|].
  exfalso. apply H. repeat split; assumption.
Qed.

Lemma well_formed_reset_dec (mob code pw : jsval) :
  {well_formed_reset mob code pw} + {~ well_formed_reset mob code pw}.
Proof.
  unfold well_formed_reset.
  destruct (ToBoolean mob), (ToBoolean code), (ToBoolean pw),
    (length_below pw 6); (left; tauto) || (right; intuition discriminate).
Qed.

(** How the function dispatches on [action]. *)
Lemma handler_post (e : env) (a : string) (mob code pw : jsval) :
  serving e (post a mob code pw) ->
  handler e (post a mob code pw) =
    if str_eqb (lit a) (lit "request_otp") then request_otp e mob
    else if str_eqb (lit a) (lit "verify_otp") then verify_otp e mob code
    else if str_eqb (lit a) (lit "reset_password") then reset_password e mob code pw
    else ret (error_response 400 "Invalid action").
Proof.
  intros (Hm & Hu & Hk & Hc). unfold handler. rewrite Hm, Hu, Hk, Hc. reflexivity.
Qed.

(* ===================================================================== *)
(** ** The store under the calls of a request *)
(* ===================================================================== *)

Lemma filter_none {A} (f : A -> bool) (l : list A) :
  filter f (filter (fun x => negb (f x)) l) = [].
Proof.
  induction l as [|x l IH]; [reflexivity|]. simpl.
  destruct (f x) eqn:E; simpl; [assumption|]. rewrite E. assumption.
Qed.

Lemma filter_twice {A} (f : A -> bool) (l : list A) :
  filter f (filter f l) = filter f l.
Proof.
  induction l as [|x l IH]; [reflexivity|]. simpl.
  destruct (f x) eqn:E; simpl; rewrite ?E, IH; reflexivity.
Qed.

Lemma single_some {A} (l : list A) (x : A) : single l = Some x -> l = [x].
Proof. destruct l as [|y [|z l]]; simpl; congruence. Qed.

Lemma no_failed_call (l : list (call * bool)) (c : call) :
  Forall (fun x => snd x = true) l -> In (c, false) l -> False.
Proof.
  intros F H. rewrite Forall_forall in F. specialize (F _ H). discriminate F.
Qed.

Lemma filter_nil_iff {A} (f : A -> bool) (l : list A) :
  filter f l = [] <-> forall x, In x l -> f x = false.
Proof.
  induction l as [|a l IH]; simpl; [tauto|].
  destruct (f a) eqn:E; split.
  - discriminate.
  - intros H. specialize (H a (or_introl eq_refl)). congruence.
  - intros H x [<-|Hx]; [assumption|]. apply IH; assumption.
  - intros H. apply IH. intros x Hx. apply H. right. assumption.
Qed.

(** Removing rows keeps the keys distinct. *)
Lemma distinct_keys_filter {V K} (key : V -> K) (keep : V -> bool)
    (rows : list V) (H : NoDup (map key rows)) :
  NoDup (map key (filter keep rows)).
Proof.
  induction rows as [|v rows IH]; simpl in *; [constructor|].
  apply NoDup_cons_iff in H as [Hn Hd].
  destruct (keep v); [|apply IH; exact Hd].
  simpl. apply NoDup_cons; [|apply IH; exact Hd].
  intros Hin. apply Hn. apply in_map_iff in Hin as (x & Ex & Hx).
  apply filter_In in Hx as [Hx _]. apply in_map_iff. exists x. tauto.
Qed.

(** Under [NoDup] of the keys, two rows with the same key are the same. *)
Lemma same_key_same_row {V K} (key : V -> K) (rows : list V) (H : NoDup (map key rows))
    (v w : V) (Hv : In v rows) (Hw : In w rows) (E : key v = key w) : v = w.
Proof.
  induction rows as [|a rows IH]; simpl in *; [contradiction|].
  apply NoDup_cons_iff in H as [Hn Hd].
  destruct Hv as [->|Hv], Hw as [->|Hw]; auto.
  - exfalso. apply Hn. rewrite E. apply in_map. assumption.
  - exfalso. apply Hn. rewrite <- E. apply in_map. assumption.
Qed.

Lemma filter_andb {A} (f g : A -> bool) (l : list A) :
  filter (fun x => f x && g x) l = filter g (filter f l).
Proof.
  induction l as [|a l IH]; [reflexivity|]. simpl.
  destruct (f a); simpl; [destruct (g a)|]; rewrite IH; reflexivity.
Qed.

(** From [t] on, the rows that are valid at a later time [t'] are those
    among the valid ones at [t] that have not expired at [t']. *)
Lemma otp_valid_later (m c : jsstring) (t t' : Z)
    (l : list password_reset_otps.row) :
  t <= t' ->
  filter (otp_valid m c t') l =
    filter (fun r => t' <=? password_reset_otps.expires_at r)
      (filter (otp_valid m c t) l).
Proof.
  intros Ht. rewrite <- filter_andb. apply filter_ext. intros r.
  unfold otp_valid.
  destruct (Z.leb_spec t' (password_reset_otps.expires_at r));
    destruct (Z.leb_spec t (password_reset_otps.expires_at r));
    rewrite ?andb_true_r, ?andb_false_r; try reflexivity; lia.
Qed.

(** A row that authorizes at [t] still does, alone, until it expires. *)
Lemma single_valid_later (m c : jsstring) (t t' : Z)
    (l : list password_reset_otps.row) (r : password_reset_otps.row) :
  single (filter (otp_valid m c t) l) = Some r ->
  t <= t' <= password_reset_otps.expires_at r ->
  single (filter (otp_valid m c t') l) = Some r.
Proof.
  intros S [H1 H2]. apply single_some in S.
  rewrite (otp_valid_later m c t t' l H1), S. simpl.
  destruct (Z.leb_spec t' (password_reset_otps.expires_at r)); [reflexivity|lia].
Qed.

Lemma otp_valid_spec (m c : jsstring) (t : Z) (r : password_reset_otps.row) :
  otp_valid m c t r = true <->
    password_reset_otps.mobile_number r = m
    /\ password_reset_otps.otp_code r = c
    /\ password_reset_otps.is_used r = false
    /\ t <= password_reset_otps.expires_at r.
Proof.
  unfold otp_valid.
  rewrite !andb_true_iff, !str_eqb_eq, negb_true_iff, Z.leb_le. tauto.
Qed.

(** When the pair is spent at [t], no lookup from [t] on finds a row. *)
Lemma spent_no_match (m c : jsstring) (t t' : Z) (d : database) :
  spent m c t d -> t <= t' -> filter (otp_valid m c t') (otps d) = [].
Proof.
  intros S Ht. apply filter_nil_iff. intros r Hr.
  destruct (otp_valid m c t' r) eqn:V; [|reflexivity].
  apply otp_valid_spec in V as (Em & Ec & Eu & Ee).
  destruct (S r Hr Em Ec) as [U|X]; [congruence|lia].
Qed.

(** An expired row of a table with one row per number: the lookup of its
    pair finds nothing. *)
Lemma expired_no_match (t : Z) (d : database) (row : password_reset_otps.row) :
  one_otp_per_number d ->
  In row (otps d) ->
  password_reset_otps.expires_at row < t ->
  filter (otp_valid (password_reset_otps.mobile_number row)
            (password_reset_otps.otp_code row) t) (otps d) = [].
Proof.
  intros U Hr Hx. apply filter_nil_iff. intros r Hin.
  destruct (otp_valid _ _ t r) eqn:V; [|reflexivity].
  apply otp_valid_spec in V as (Em & _ & _ & Ee).
  assert (r = row) by (eapply same_key_same_row; eauto).
  subst r. lia.
Qed.

(** A call that does not insert a row of the pair keeps the pair spent. *)
Lemma apply_call_spent (e : env) (m c : jsstring) (t : Z) (x : call)
    (d : database) :
  keeps_spent m c x = true -> spent m c t d -> spent m c t (apply_call e x d).
Proof.
  intros K S. destruct x as [m'|m'|m' c' t'|m' c' t'|m' h u|i|u];
    try exact S; unfold spent; cbn [apply_call otps]; intros r Hr Em Ec.
  - apply filter_In in Hr as [Hr _]. exact (S r Hr Em Ec).
  - apply in_app_or in Hr as [Hr|[<-|[]]]; [exact (S r Hr Em Ec)|].
    cbn in Em, Ec. subst m' c'. cbn in K.
    rewrite !str_eqb_refl in K. discriminate K.
  - apply in_map_iff in Hr as (r0 & <- & Hr0).
    destruct (password_reset_otps.id r0 =? i).
    + left. reflexivity.
    + exact (S r0 Hr0 Em Ec).
Qed.

Lemma effect_spent (e : env) (k : nat) (m c : jsstring) (t : Z) (x : call)
    (d : database) :
  keeps_spent m c x = true -> spent m c t d -> spent m c t (effect e k x d).
Proof.
  intros K S. unfold effect. destruct (fault e k); [exact S|].
  apply apply_call_spent; assumption.
Qed.

(** Marking a row used spends its pair, when the row was the only one
    that the lookup found at [t]. *)
Lemma mark_used_spent (e : env) (m c : jsstring) (t : Z) (d : database)
    (row : password_reset_otps.row) :
  single (filter (otp_valid m c t) (otps d)) = Some row ->
  spent m c t (apply_call e (MarkOtpUsed (password_reset_otps.id row)) d).
Proof.
  intros S r Hr Em Ec. apply single_some in S.
  cbn [apply_call otps] in Hr. apply in_map_iff in Hr as (r0 & <- & Hr0).
  destruct (Z.eqb_spec (password_reset_otps.id r0) (password_reset_otps.id row))
    as [Ei|Ni]; [left; reflexivity|].
  destruct (password_reset_otps.is_used r0) eqn:U; [left; reflexivity|].
  right. destruct (Z.lt_ge_cases (password_reset_otps.expires_at r0) t) as [L|G];
    [assumption|].
  exfalso. apply Ni.
  assert (V : In r0 (filter (otp_valid m c t) (otps d))).
  { apply filter_In. split; [assumption|]. apply otp_valid_spec. tauto. }
  rewrite S in V. destruct V as [<-|[]]. reflexivity.
Qed.

(* ===================================================================== *)
(** ** Every request, whatever it is *)
(* ===================================================================== *)

(** The function either answers at once or runs one of its branches. *)
Lemma handler_cases (e : env) (req : request) :
  (exists r, handler e req = ret r)
  \/ (exists f, body req = Some f
        /\ strict_eq_lit (action f) "request_otp" = true
        /\ handler e req = request_otp e (mobile_number f))
  \/ (exists f, handler e req = verify_otp e (mobile_number f) (otp f))
  \/ (exists f, handler e req =
                  reset_password e (mobile_number f) (otp f) (new_password f)).
Proof.
  unfold handler.
  destruct (String.eqb (method req) "OPTIONS"); [left; eexists; reflexivity|].
  destruct (negb _ || negb _); [left; eexists; reflexivity|].
  destruct (negb (client_created e)); [left; eexists; reflexivity|].
  destruct (body req) as [f|]; [|left; eexists; reflexivity].
  destruct (strict_eq_lit (action f) "request_otp") eqn:A1.
  { right; left. exists f. auto. }
  destruct (strict_eq_lit (action f) "verify_otp").
  { right; right; left. exists f. reflexivity. }
  destruct (strict_eq_lit (action f) "reset_password").
  { right; right; right. exists f. reflexivity. }
  left; eexists; reflexivity.
Qed.

(** [verify_otp] never changes the store and only ever reads. *)
Lemma verify_otp_reads (e : env) (mob code : jsval) (d : database) :
  exists o l,
    run (verify_otp e mob code) d = (o, {| db := d; log := l |})
    /\ Forall (fun c => is_read (fst c) = true) l.
Proof.
  destruct (ToBoolean mob) eqn:Tm.
  - destruct (ToBoolean code) eqn:Tc.
    + rewrite verify_otp_run by assumption. cbv zeta.
      destruct (if fault e 0 then None else _);
        eexists _, _; (split; [reflexivity|repeat constructor]).
    + rewrite verify_otp_missing by auto.
      eexists _, _; split; [reflexivity|constructor].
  - rewrite verify_otp_missing by auto.
    eexists _, _; split; [reflexivity|constructor].
Qed.

(** A request that does not issue the pair anew keeps it spent. *)
Lemma request_otp_spent (e : env) (v : jsval) (m c : jsstring) (t : Z)
    (d : database) :
  str_eqb (ToString v) m && str_eqb (generateOTP (random e)) c = false ->
  spent m c t d ->
  spent m c t (db (snd (run (request_otp e v) d))).
Proof.
  intros N S. destruct (test_10_digits (ToString v)) eqn:T.
  - apply test_10_digits_spec in T. rewrite request_otp_run by assumption.
    cbv zeta. destruct (fault e 0); [exact S|].
    destruct (single _); [|exact S].
    assert (S1 : spent m c t (effect e 1 (DeleteOtps (ToString v)) d))
      by (apply effect_spent; [reflexivity|exact S]).
    destruct (valid_time _); [|exact S1].
    destruct (fault e 2); [exact S1|].
    cbn [snd db]. apply apply_call_spent; [|exact S1].
    cbn [keeps_spent]. rewrite N. reflexivity.
  - apply test_10_digits_false in T. rewrite request_otp_rejects by assumption.
    exact S.
Qed.

Lemma reset_password_spent (e : env) (mob code pw : jsval) (m c : jsstring)
    (t : Z) (d : database) :
  spent m c t d ->
  spent m c t (db (snd (run (reset_password e mob code pw) d))).
Proof.
  intros S. destruct (well_formed_reset_dec mob code pw) as [W|W].
  - rewrite reset_password_run by assumption. cbv zeta.
    destruct (if fault e 0 then None else _) as [r|]; [|exact S].
    destruct (fault e 1); [exact S|].
    assert (S2 : spent m c t
                   (effect e 2 (MarkOtpUsed (password_reset_otps.id r))
                      (apply_call e (UpdatePassword (ToString mob)
                                       (hashPassword (ToString pw))
                                       (now_update e)) d))).
    { apply effect_spent; [reflexivity|].
      apply apply_call_spent; [reflexivity|exact S]. }
    destruct (if fault e 3 then None else _) as [cr|]; [|exact S2].
    cbn [snd db]. apply effect_spent; [reflexivity|exact S2].
  - destruct (reset_password_malformed e mob code pw d W) as (msg & ->).
    exact S.
Qed.

Lemma handler_spent (e : env) (req : request) (m c : jsstring) (t : Z)
    (d : database) :
  reissues m c (e, req) = false ->
  spent m c t d ->
  spent m c t (db (snd (run (handler e req) d))).
Proof.
  intros N S.
  destruct (handler_cases e req)
    as [(r & ->)|[(f & B & A & ->)|[(f & ->)|(f & ->)]]].
  - exact S.
  - apply request_otp_spent; [|exact S].
    unfold reissues in N. cbn [fst snd] in N. rewrite B, A in N.
    rewrite <- andb_assoc in N. exact N.
  - destruct (verify_otp_reads e (mobile_number f) (otp f) d) as (o & l & -> & _).
    exact S.
  - apply reset_password_spent. exact S.
Qed.

(** A sequence of requests none of which issues the pair anew. *)
Lemma serve_all_spent (rs : list (env * request)) (m c : jsstring) (t : Z) :
  forall d : database,
    Forall (fun r => reissues m c r = false) rs ->
    spent m c t d ->
    spent m c t (snd (serve_all rs d)).
Proof.
  unfold serve_all.
  induction rs as [|[e req] rs IH]; intros d F S; [exact S|].
  inversion F as [|? ? N F']; subst. cbn [map run_each fst snd].
  apply IH; [exact F'|]. apply handler_spent; assumption.
Qed.


(** What a [reset_password] that answered 200 has done: the lookup found
    the one row of the pair and the password update took effect; the later
    calls were issued, their results not looked at. *)
Lemma reset_password_answered (e : env) (mob code pw : jsval) (d : database) :
  answered_200 (run (reset_password e mob code pw) d) ->
  let m := ToString mob in
  let d' := db (snd (run (reset_password e mob code pw) d)) in
  let c1 := UpdatePassword m (hashPassword (ToString pw)) (now_update e) in
  well_formed_reset mob code pw
  /\ fault e 0 = false /\ fault e 1 = false
  /\ fst (run (reset_password e mob code pw) d) = Done reset_done
  /\ exists row,
       single (filter (otp_valid m (ToString code) (now e)) (otps d)) = Some row
       /\ otps d' = otps (effect e 2 (MarkOtpUsed (password_reset_otps.id row)) d)
       /\ credentials d' = credentials (apply_call e c1 d)
       /\ exists rest,
            log (snd (run (reset_password e mob code pw) d)) =
              (SelectOtp m (ToString code) (now e), true)
              :: (c1, true)
              :: (MarkOtpUsed (password_reset_otps.id row), negb (fault e 2))
              :: (SelectCredential m, negb (fault e 3)) :: rest
            /\ Forall (fun x => exists u, fst x = DeactivateSessions u
                                         /\ snd x = negb (fault e 4)) rest.
Proof.
  intros (p & Hp). cbv zeta.
  destruct (well_formed_reset_dec mob code pw) as [W|W].
  2:{ destruct (reset_password_malformed e mob code pw d W) as (msg & E).
      rewrite E in Hp. discriminate Hp. }
  split; [exact W|].
  rewrite (reset_password_run e mob code pw d W) in *. cbv zeta in *.
  unfold effect in *.
  destruct (fault e 0); [discriminate Hp|].
  destruct (single (filter (otp_valid _ _ _) _)) as [row|]; [|discriminate Hp].
  destruct (fault e 1); [discriminate Hp|].
  split; [reflexivity|]. split; [reflexivity|].
  destruct (if fault e 3 then None else _) as [cr|].
  - split; [reflexivity|]. exists row. split; [reflexivity|].
    split; [destruct (fault e 2), (fault e 4); reflexivity|].
    split; [destruct (fault e 2), (fault e 4); reflexivity|].
    eexists. split; [reflexivity|].
    apply Forall_cons; [eexists; split; reflexivity|apply Forall_nil].
  - split; [reflexivity|]. exists row. split; [reflexivity|].
    split; [destruct (fault e 2); reflexivity|].
    split; [destruct (fault e 2); reflexivity|].
    exists []. split; [reflexivity|apply Forall_nil].
Qed.

(** What a successful [reset_password] has done: the row is marked. *)
Lemma reset_password_succeeded (e : env) (mob code pw : jsval) (d : database) :
  succeeded (run (reset_password e mob code pw) d) ->
  let m := ToString mob in
  let d' := db (snd (run (reset_password e mob code pw) d)) in
  exists row,
    single (filter (otp_valid m (ToString code) (now e)) (otps d)) = Some row
    /\ otps d' = otps (apply_call e (MarkOtpUsed (password_reset_otps.id row)) d).
Proof.
  intros [A Hl]. cbv zeta.
  destruct (reset_password_answered e mob code pw d A)
    as (_ & _ & _ & _ & row & Hrow & Ho & _ & rest & El & _).
  exists row. split; [exact Hrow|]. rewrite Ho. unfold effect.
  destruct (fault e 2); [|reflexivity].
  exfalso. eapply no_failed_call; [exact Hl|]. rewrite El. cbn. eauto 10.
Qed.

(** *** One row per number is an invariant *)

Lemma mark_keeps_numbers (i : Z) (l : list password_reset_otps.row) :
  map password_reset_otps.mobile_number
    (map (fun r => if password_reset_otps.id r =? i then set_used r else r) l)
  = map password_reset_otps.mobile_number l.
Proof.
  rewrite map_map. apply map_ext. intros r.
  destruct (password_reset_otps.id r =? i); reflexivity.
Qed.

Lemma delete_then_insert_one_otp (e : env) (m c : jsstring) (t : Z)
    (d : database) :
  one_otp_per_number d ->
  one_otp_per_number (apply_call e (InsertOtp m c t) (apply_call e (DeleteOtps m) d)).
Proof.
  unfold one_otp_per_number. cbn [apply_call otps]. intros U.
  rewrite map_app. apply NoDup_app.
  - apply distinct_keys_filter. exact U.
  - cbn. apply NoDup_cons; [intros []|constructor].
  - intros a Ha [<-|[]]. apply in_map_iff in Ha as (r & Er & Hr).
    apply filter_In in Hr as [_ Hr]. unfold otp_for in Hr.
    cbn in Er. rewrite Er, str_eqb_refl in Hr. discriminate Hr.
Qed.

(** Every request whose second call to the store does not error (the
    deletion of [request_otp] is a second call) keeps one row per number. *)
Lemma handler_one_otp (e : env) (req : request) (d : database) :
  fault e 1 = false ->
  one_otp_per_number d ->
  one_otp_per_number (db (snd (run (handler e req) d))).
Proof.
  intros F1 U.
  destruct (handler_cases e req)
    as [(r & ->)|[(f & _ & _ & ->)|[(f & ->)|(f & ->)]]].
  - exact U.
  - destruct (test_10_digits (ToString (mobile_number f))) eqn:T.
    + apply test_10_digits_spec in T. rewrite request_otp_run by assumption.
      cbv zeta. unfold effect. rewrite F1.
      destruct (fault e 0); [exact U|].
      destruct (single _); [|exact U].
      destruct (valid_time _); [destruct (fault e 2)|].
      * unfold one_otp_per_number. cbn [snd db apply_call otps].
        apply distinct_keys_filter. exact U.
      * apply delete_then_insert_one_otp. exact U.
      * unfold one_otp_per_number. cbn [snd db apply_call otps].
        apply distinct_keys_filter. exact U.
    + apply test_10_digits_false in T.
      rewrite request_otp_rejects by assumption. exact U.
  - destruct (verify_otp_reads e (mobile_number f) (otp f) d) as (o & l & -> & _).
    exact U.
  - destruct (well_formed_reset_dec (mobile_number f) (otp f) (new_password f))
      as [W|W].
    + rewrite reset_password_run by assumption. cbv zeta. unfold effect.
      rewrite F1.
      destruct (if fault e 0 then None else _) as [r|]; [|exact U].
      unfold one_otp_per_number in *.
      destruct (if fault e 3 then None else _);
        destruct (fault e 2); try destruct (fault e 4);
        cbn [snd db apply_call otps]; rewrite ?mark_keeps_numbers; exact U.
    + destruct (reset_password_malformed e _ _ _ d W) as (msg & ->). exact U.
Qed.

Lemma serve_all_one_otp (rs : list (env * request)) :
  forall d : database,
    Forall (fun r => fault (fst r) 1 = false) rs ->
    one_otp_per_number d ->
    one_otp_per_number (snd (serve_all rs d)).
Proof.
  unfold serve_all.
  induction rs as [|[e req] rs IH]; intros d F U; [exact U|].
  inversion F as [|? ? F1 F']; subst. cbn [map run_each fst snd].
  apply IH; [exact F'|]. apply handler_one_otp; assumption.
Qed.

(** A failed deletion breaks it: the old row stays and the new one is
    added, while the answer is still 200. *)
Example failed_delete_leaves_two_rows :
  let e := {| getenv := sample_getenv; createClient := fun _ _ => true;
              now := 1700000100000;
              now_update := 1700000100000; random := 0; new_id := 8;
              fault := fun k => Nat.eqb k 1 |} in
  let r := run (request_otp e (JStr (lit "9876543210"))) sample_issued_db in
  (exists p, fst r = Done {| status := 200; payload := p |})
  /\ map password_reset_otps.otp_code (otps (db (snd r)))
     = [lit "550000"; lit "100000"].
Proof. split; [eexists|]; vm_compute; reflexivity. Qed.

(** *** The log accounts for every change *)

Lemma request_otp_replay (e : env) (v : jsval) (d : database) :
  db (snd (run (request_otp e v) d))
  = replay e (log (snd (run (request_otp e v) d))) d.
Proof.
  destruct (test_10_digits (ToString v)) eqn:T.
  - apply test_10_digits_spec in T. rewrite request_otp_run by assumption.
    cbv zeta. unfold effect, replay.
    destruct (fault e 0); [reflexivity|].
    destruct (single _); [|reflexivity].
    destruct (valid_time _), (fault e 1); try destruct (fault e 2); reflexivity.
  - apply test_10_digits_false in T. rewrite request_otp_rejects by assumption.
    reflexivity.
Qed.

Lemma reset_password_replay (e : env) (mob code pw : jsval) (d : database) :
  db (snd (run (reset_password e mob code pw) d))
  = replay e (log (snd (run (reset_password e mob code pw) d))) d.
Proof.
  destruct (well_formed_reset_dec mob code pw) as [W|W].
  - rewrite reset_password_run by assumption. cbv zeta. unfold effect, replay.
    destruct (fault e 0); [reflexivity|].
    destruct (single (filter (otp_valid _ _ _) _)); [|reflexivity].
    destruct (fault e 1); [reflexivity|].
    destruct (fault e 2), (fault e 3); try reflexivity;
      (destruct (single _); [destruct (fault e 4)|]; reflexivity).
  - destruct (reset_password_malformed e mob code pw d W) as (msg & ->).
    reflexivity.
Qed.

(** After any request the store is the one before with the logged calls
    that took effect applied in order: nothing changes the store but a
    logged call. *)
Lemma handler_replay (e : env) (req : request) (d : database) :
  db (snd (run (handler e req) d))
  = replay e (log (snd (run (handler e req) d))) d.
Proof.
  destruct (handler_cases e req)
    as [(r & ->)|[(f & _ & _ & ->)|[(f & ->)|(f & ->)]]].
  - reflexivity.
  - apply request_otp_replay.
  - destruct (verify_otp_reads e (mobile_number f) (otp f) d) as (o & l & -> & R).
    cbn [snd db log]. unfold replay.
    induction R as [|[c b] l Hc _ IH]; [reflexivity|].
    cbn [fold_left fst snd] in *.
    destruct c; try discriminate Hc; destruct b; exact IH.
  - apply reset_password_replay.
Qed.

(** *** Every request is answered *)

(** A run that is not killed ends with a response. *)
Lemma handler_answers (e : env) (req : request) (d : database) :
  exists resp, fst (run (handler e req) d) = Done resp.
Proof.
  destruct (handler_cases e req)
    as [(r & ->)|[(f & _ & _ & ->)|[(f & ->)|(f & ->)]]].
  - eexists. reflexivity.
  - destruct (test_10_digits (ToString (mobile_number f))) eqn:T.
    + apply test_10_digits_spec in T. rewrite request_otp_run by assumption.
      cbv zeta. destruct (fault e 0); [eexists; reflexivity|].
      destruct (single _); [|eexists; reflexivity].
      destruct (valid_time _); [|eexists; reflexivity].
      destruct (fault e 2); eexists; reflexivity.
    + apply test_10_digits_false in T.
      rewrite request_otp_rejects by assumption. eexists. reflexivity.
  - destruct (ToBoolean (mobile_number f)) eqn:Tm;
      [destruct (ToBoolean (otp f)) eqn:Tc|];
      try (rewrite verify_otp_missing by auto; eexists; reflexivity).
    rewrite verify_otp_run by assumption. cbv zeta.
    destruct (if fault e 0 then None else _); eexists; reflexivity.
  - destruct (well_formed_reset_dec (mobile_number f) (otp f) (new_password f))
      as [W|W].
    + rewrite reset_password_run by assumption. cbv zeta.
      destruct (if fault e 0 then None else _); [|eexists; reflexivity].
      destruct (fault e 1); [eexists; reflexivity|].
      destruct (if fault e 3 then None else _); eexists; reflexivity.
    + destruct (reset_password_malformed e _ _ _ d W) as (msg & ->).
      eexists. reflexivity.
Qed.

(** The three actions, as the client posts them to a configured worker. *)
Lemma handler_request_otp (e : env) (mob code pw : jsval) :
  serving e (post "request_otp" mob code pw) ->
  handler e (post "request_otp" mob code pw) = request_otp e mob.
Proof. intros H. rewrite handler_post by exact H. reflexivity. Qed.

Lemma handler_verify_otp (e : env) (mob code pw : jsval) :
  serving e (post "verify_otp" mob code pw) ->
  handler e (post "verify_otp" mob code pw) = verify_otp e mob code.
Proof. intros H. rewrite handler_post by exact H. reflexivity. Qed.

Lemma handler_reset_password (e : env) (mob code pw : jsval) :
  serving e (post "reset_password" mob code pw) ->
  handler e (post "reset_password" mob code pw) = reset_password e mob code pw.
Proof. intros H. rewrite handler_post by exact H. reflexivity. Qed.

(* ===================================================================== *)
(** ** The function on sample requests *)
(* ===================================================================== *)

Example preflight :
  run (handler sample_env {| method := "OPTIONS"; body := None |}) sample_db =
    (Done {| status := 200; payload := None |}, {| db := sample_db; log := [] |}).
Proof. reflexivity. Qed.

Example not_configured :
  fst (run (handler (with_getenv (fun _ => None) sample_env)
              (post "request_otp" (JStr (lit "9876543210")) JUndefined JUndefined))
         sample_db)
  = Done (error_response 500 "Server not configured").
Proof. reflexivity. Qed.

Example unparsable_body :
  fst (run (handler sample_env {| method := "POST"; body := None |}) sample_db)
  = Done (error_response 500 "Internal server error").
Proof. reflexivity. Qed.

Example unknown_action :
  fst (run (handler sample_env
              (post "delete_account" (JStr (lit "9876543210")) JUndefined JUndefined))
         sample_db)
  = Done (error_response 400 "Invalid action").
Proof. vm_compute. reflexivity. Qed.

(** The whole flow: a code is requested, verified, used for a reset, and
    then no longer verifies. *)
Example whole_flow :
  let mob := JStr (lit "9876543210") in
  let code := JStr (lit "550000") in
  map (fun o => match o with Done r => status r | Killed => 0 end)
    (fst (serve_all
            [(sample_env, post "request_otp" mob JUndefined JUndefined);
             (at_time 1700000100000 sample_env, post "verify_otp" mob code JUndefined);
             (at_time 1700000200000 sample_env,
              post "reset_password" mob code (JStr (lit "secret2")));
             (at_time 1700000300000 sample_env, post "verify_otp" mob code JUndefined);
             (at_time 1700000400000 sample_env,
              post "reset_password" mob code (JStr (lit "secret3")))]
            sample_db))
  = [200; 200; 200; 400; 400].
Proof. vm_compute. reflexivity. Qed.

(** A password given as a JSON number has no [length]: the check on its
    length lets it through, and its digits are hashed. *)
Example numeric_password :
  let r := run (reset_password (at_time 1700000100000 sample_env)
                  (JStr (lit "9876543210")) (JStr (lit "550000")) (JNum 123))
             sample_issued_db in
  fst r = Done reset_done
  /\ map user_credentials.password_hash (credentials (db (snd r)))
     = [hashPassword (lit "123")].
Proof. split; vm_compute; reflexivity. Qed.

(** A worker whose [createClient] throws (a [SUPABASE_URL] that the
    library does not accept): the catch-all answers and the store is not
    called. *)
Example client_not_created :
  run (handler {| getenv := sample_getenv;
                  createClient := fun _ _ => false;
                  now := now sample_env;
                  now_update := now_update sample_env;
                  random := random sample_env;
                  new_id := new_id sample_env;
                  fault := fault sample_env |}
         (post "request_otp" (JStr (lit "9876543210")) JUndefined JUndefined))
    sample_db
  = (Done (error_response 500 "Internal server error"),
     {| db := sample_db; log := [] |}).
Proof. reflexivity. Qed.

(** A clock in the last ten minutes of the range of a [Date]: the
    expiry is out of range, [toISOString] throws after the deletion, and
    the catch-all answers with the rows of the number gone. *)
Example expiry_out_of_range :
  run (request_otp (at_time 8639999999999999 sample_env) (JStr (lit "9876543210")))
    sample_issued_db
  = (Done (error_response 500 "Internal server error"),
     {| db := sample_db;
        log := [(SelectCredential (lit "9876543210"), true);
                (DeleteOtps (lit "9876543210"), true)] |}).
Proof. vm_compute. reflexivity. Qed.

(* ===================================================================== *)
(** ** The edge function: validation of the mobile number *)
(* ===================================================================== *)

Example request_otp_sample :
  run (request_otp sample_env (JStr (lit "9876543210"))) sample_db =
    (Done {| status := 200;
             payload := Some [("success"%string, JBool true);
                              ("message"%string, JStr (lit "OTP sent successfully"));
                              ("debug_otp"%string, JStr (lit "550000"))] |},
     {| db := {| credentials := [sample_account];
                 otps := [new_otp sample_env (lit "9876543210") (lit "550000")
                            1700000600000];
                 sessions := sessions sample_db |};
        log := [(SelectCredential (lit "9876543210"), true);
                (DeleteOtps (lit "9876543210"), true);
                (InsertOtp (lit "9876543210") (lit "550000") 1700000600000, true)] |}).
Proof. vm_compute. reflexivity. Qed.

Example request_otp_unknown_number :
  run (request_otp sample_env (JStr (lit "1111111111"))) sample_db =
    (Done (error_response 404 "No account found with this mobile number"),
     {| db := sample_db; log := [(SelectCredential (lit "1111111111"), true)] |}).
Proof. vm_compute. reflexivity. Qed.

(** The JSON number 9876543210 is not a string, and the call is not
    rejected: the pattern is tested on the value's string form, the request
    goes on to the store and an OTP is issued. *)
Lemma request_otp_accepts_number :
  ~ ten_digit_string (JNum 9876543210)
  /\ run (request_otp sample_env (JNum 9876543210)) sample_db =
       run (request_otp sample_env (JStr (lit "9876543210"))) sample_db
  /\ (exists p st,
        run (request_otp sample_env (JNum 9876543210)) sample_db =
          (Done {| status := 200; payload := p |}, st)
        /\ calls st = [SelectCredential (lit "9876543210");
                       DeleteOtps (lit "9876543210");
                       InsertOtp (lit "9876543210") (lit "550000") 1700000600000]).
Proof.
  split; [|split].
  - intros (s & E & _). discriminate E.
  - vm_compute. reflexivity.
  - eexists _, _. split; vm_compute; reflexivity.
Qed.

(** C1 (amended). [request_otp] judges the mobile number by its string
    form (the string itself, ["undefined"] for an absent field, the decimal
    digits of a number): when that is not exactly ten decimal digits the
    call answers 400 with the validation message and makes no call to the
    store, neither read nor write; when it is, as for every string of ten
    digits, the validation passes and the first thing the call does is
    the credential lookup for that number. *)
Theorem request_otp_validation (e : env) (v : jsval) (d : database) :
  (~ decimal_digits 10 (ToString v) ->
     run (request_otp e v) d =
       (Done (error_response 400 "Please enter a valid 10-digit mobile number"),
        {| db := d; log := [] |}))
  /\ (decimal_digits 10 (ToString v) ->
      exists o st ok rest,
        run (request_otp e v) d = (o, st)
        /\ log st = (SelectCredential (ToString v), ok) :: rest).
Proof.
  split; intros H.
  - apply request_otp_rejects; assumption.
  - rewrite (request_otp_run e v d H). cbv zeta.
    destruct (fault e 0); [eexists _, _, _, _; split; reflexivity|].
    destruct (single _); [|eexists _, _, _, _; split; reflexivity].
    destruct (valid_time _); [|eexists _, _, _, _; split; reflexivity].
    destruct (fault e 2); eexists _, _, _, _; split; reflexivity.
Qed.

Lemma request_otp_validation_witness :
  run (request_otp sample_env (JStr (lit "98765"))) sample_db =
    (Done (error_response 400 "Please enter a valid 10-digit mobile number"),
     {| db := sample_db; log := [] |})
  /\ (exists o st ok rest,
        run (request_otp sample_env (JStr (lit "9876543210"))) sample_db = (o, st)
        /\ log st = (SelectCredential (lit "9876543210"), ok) :: rest).
Proof.
  split.
  - apply (proj1 (request_otp_validation sample_env (JStr (lit "98765")) sample_db)).
    intros [L _]. vm_compute in L. discriminate L.
  - apply (proj2 (request_otp_validation sample_env
                    (JStr (lit "9876543210")) sample_db)).
    apply test_10_digits_spec. vm_compute. reflexivity.
Defined.

(* ===================================================================== *)
(** ** The edge function: one OTP row per number *)
(* ===================================================================== *)

(** What a [request_otp] that answered 200 has done: the number passed
    the validation, an account was found and the insertion took effect;
    the deletion was issued in between, its result not looked at. *)
Lemma request_otp_answered (e : env) (v : jsval) (d : database) :
  answered_200 (run (request_otp e v) d) ->
  let m := ToString v in
  let code := generateOTP (random e) in
  decimal_digits 10 m
  /\ run (request_otp e v) d =
       (Done {| status := 200;
                payload := Some [("success"%string, JBool true);
                                 ("message"%string, JStr (lit "OTP sent successfully"));
                                 ("debug_otp"%string, JStr code)] |},
        {| db := apply_call e (InsertOtp m code (now e + 600000))
                   (effect e 1 (DeleteOtps m) d);
           log := [(SelectCredential m, true);
                   (DeleteOtps m, negb (fault e 1));
                   (InsertOtp m code (now e + 600000), true)] |}).
Proof.
  intros (p & Hp). cbv zeta.
  destruct (test_10_digits (ToString v)) eqn:T.
  - apply test_10_digits_spec in T. split; [assumption|].
    rewrite (request_otp_run e v d T) in *. cbv zeta in *.
    destruct (fault e 0); [discriminate Hp|].
    destruct (single _); [|discriminate Hp].
    destruct (valid_time _); [|discriminate Hp].
    destruct (fault e 2); [discriminate Hp|]. reflexivity.
  - apply test_10_digits_false in T.
    rewrite (request_otp_rejects e v d T) in Hp. discriminate Hp.
Qed.

(** What a successful [request_otp] has done: the deletion took effect
    as well. *)
Lemma request_otp_succeeded (e : env) (v : jsval) (d : database) :
  succeeded (run (request_otp e v) d) ->
  let m := ToString v in
  let code := generateOTP (random e) in
  decimal_digits 10 m
  /\ run (request_otp e v) d =
       (Done {| status := 200;
                payload := Some [("success"%string, JBool true);
                                 ("message"%string, JStr (lit "OTP sent successfully"));
                                 ("debug_otp"%string, JStr code)] |},
        {| db := apply_call e (InsertOtp m code (now e + 600000))
                   (apply_call e (DeleteOtps m) d);
           log := [(SelectCredential m, true); (DeleteOtps m, true);
                   (InsertOtp m code (now e + 600000), true)] |}).
Proof.
  intros [A Hl]. cbv zeta.
  destruct (request_otp_answered e v d A) as [T E]. split; [exact T|].
  rewrite E in *. unfold effect.
  destruct (fault e 1); [|reflexivity].
  exfalso. eapply no_failed_call; [exact Hl|]. cbn. eauto 10.
Qed.

(** After a successful [request_otp] the rows of the number are gone and
    the new row is the last of the table; the other tables are as before. *)
Lemma request_otp_rows (e : env) (v : jsval) (d : database) :
  succeeded (run (request_otp e v) d) ->
  let m := ToString v in
  let d' := db (snd (run (request_otp e v) d)) in
  let r := new_otp e m (generateOTP (random e)) (now e + 10 * 60 * 1000) in
  otps d' = filter (fun x => negb (otp_for m x)) (otps d) ++ [r]
  /\ filter (otp_for m) (otps d') = [r]
  /\ credentials d' = credentials d
  /\ sessions d' = sessions d.
Proof.
  intros S. destruct (request_otp_succeeded e v d S) as [_ E].
  cbv zeta. rewrite E. cbn [snd db apply_call otps credentials sessions].
  repeat split.
  rewrite filter_app, filter_none. cbn [filter app].
  unfold otp_for at 1. cbn [new_otp password_reset_otps.mobile_number].
  rewrite str_eqb_refl. reflexivity.
Qed.




Lemma sample_request_succeeded :
  succeeded (run (request_otp sample_env (JStr (lit "9876543210"))) sample_db).
Proof.
  split.
  - eexists. vm_compute. reflexivity.
  - vm_compute. repeat constructor.
Defined.


(* ===================================================================== *)
(** ** The edge function: the code returned by [request_otp] *)
(* ===================================================================== *)

(** The branch never consults the environment variables. *)
Lemma request_otp_ignores_getenv (g : string -> option jsstring) (e : env)
    (v : jsval) :
  request_otp (with_getenv g e) v = request_otp e v.
Proof. reflexivity. Qed.

(** C6. Every [request_otp] call that answers 200 answers with
    [success: true] and with a [debug_otp] that is the [otp_code] of the
    row it has just inserted for the number. Nothing gates this: the call
    behaves the same whatever the environment variables are. The code is
    six decimal digits for every value in [0, 1) that [Math.random()] can
    return. *)
Theorem request_otp_debug_otp (e : env) (v : jsval) (d : database) :
  answered_200 (run (request_otp e v) d) ->
  Float64.unit_interval (random e) ->
  let d' := db (snd (run (request_otp e v) d)) in
  exists resp row,
    fst (run (request_otp e v) d) = Done resp
    /\ field "success" resp = Some (JBool true)
    /\ field "debug_otp" resp = Some (JStr (password_reset_otps.otp_code row))
    /\ otps d' = otps (effect e 1 (DeleteOtps (ToString v)) d) ++ [row]
    /\ password_reset_otps.mobile_number row = ToString v
    /\ decimal_digits 6 (password_reset_otps.otp_code row)
    /\ forall g, run (request_otp (with_getenv g e) v) d = run (request_otp e v) d.
Proof.
  intros A U. cbv zeta.
  destruct (request_otp_answered e v d A) as [_ E].
  eexists _, (new_otp e (ToString v) (generateOTP (random e)) (now e + 600000)).
  rewrite E. cbn [fst snd db].
  split; [reflexivity|]. split; [reflexivity|]. split; [reflexivity|].
  split; [reflexivity|]. split; [reflexivity|]. split.
  - cbn [new_otp password_reset_otps.otp_code].
    apply generateOTP_six_digits; assumption.
  - intros g. rewrite request_otp_ignores_getenv. exact E.
Qed.

Lemma request_otp_debug_otp_witness :
  exists resp row,
    fst (run (request_otp sample_env (JStr (lit "9876543210"))) sample_db) = Done resp
    /\ field "success" resp = Some (JBool true)
    /\ field "debug_otp" resp = Some (JStr (password_reset_otps.otp_code row))
    /\ otps (db (snd (run (request_otp sample_env (JStr (lit "9876543210")))
                        sample_db)))
       = otps (effect sample_env 1 (DeleteOtps (lit "9876543210")) sample_db)
           ++ [row]
    /\ password_reset_otps.mobile_number row = lit "9876543210"
    /\ decimal_digits 6 (password_reset_otps.otp_code row)
    /\ forall g,
         run (request_otp (with_getenv g sample_env) (JStr (lit "9876543210")))
           sample_db
         = run (request_otp sample_env (JStr (lit "9876543210"))) sample_db.
Proof.
  exact (request_otp_debug_otp sample_env (JStr (lit "9876543210")) sample_db
           (proj1 sample_request_succeeded) unit_interval_half).
Defined.

(* ===================================================================== *)
(** ** The edge function: expired codes *)
(* ===================================================================== *)

Lemma verify_otp_no_match (e : env) (mob code : jsval) (d : database) :
  ToBoolean mob = true -> ToBoolean code = true ->
  single (filter (otp_valid (ToString mob) (ToString code) (now e)) (otps d)) = None ->
  run (verify_otp e mob code) d =
    (Done (error_response 400 "Invalid or expired OTP"),
     {| db := d;
        log := [(SelectOtp (ToString mob) (ToString code) (now e),
                 negb (fault e 0))] |}).
Proof.
  intros Tm Tc N. rewrite verify_otp_run by assumption. cbv zeta.
  rewrite N. destruct (fault e 0); reflexivity.
Qed.

Lemma reset_password_no_match (e : env) (mob code pw : jsval) (d : database) :
  single (filter (otp_valid (ToString mob) (ToString code) (now e)) (otps d)) = None ->
  exists msg l,
    run (reset_password e mob code pw) d =
      (Done (error_response 400 msg), {| db := d; log := l |})
    /\ Forall (fun c => is_read (fst c) = true) l
    /\ (well_formed_reset mob code pw ->
        msg = "Invalid or expired OTP. Please request a new one."%string).
Proof.
  intros N. destruct (well_formed_reset_dec mob code pw) as [W|W].
  - rewrite reset_password_run by assumption. cbv zeta. rewrite N.
    destruct (fault e 0); eexists _, _;
      (split; [reflexivity|]); (split; [repeat constructor|reflexivity]).
  - destruct (reset_password_malformed e mob code pw d W) as (msg & E).
    exists msg, []. split; [exact E|]. split; [constructor|contradiction].
Qed.

(** Whatever the table holds, the row that a lookup finds has not
    expired: an expired row is never the one that authorizes. *)
Lemma expired_row_never_found (m c : jsstring) (t : Z) (d : database)
    (row : password_reset_otps.row) :
  password_reset_otps.expires_at row < t ->
  single (filter (otp_valid m c t) (otps d)) <> Some row.
Proof.
  intros X S. apply single_some in S.
  assert (H : In row (filter (otp_valid m c t) (otps d)))
    by (rewrite S; left; reflexivity).
  apply filter_In in H as [_ V]. apply otp_valid_spec in V. lia.
Qed.

Example verify_expired_sample :
  run (verify_otp (at_time 1700000600001 sample_env)
         (JStr (lit "9876543210")) (JStr (lit "550000"))) sample_issued_db
  = (Done (error_response 400 "Invalid or expired OTP"),
     {| db := sample_issued_db;
        log := [(SelectOtp (lit "9876543210") (lit "550000") 1700000600001, true)] |}).
Proof. vm_compute. reflexivity. Qed.

(** At the very instant of expiry the code is still accepted. *)
Example verify_at_expiry_sample :
  fst (run (verify_otp (at_time 1700000600000 sample_env)
              (JStr (lit "9876543210")) (JStr (lit "550000"))) sample_issued_db)
  = Done {| status := 200;
            payload := Some [("success"%string, JBool true);
                             ("message"%string, JStr (lit "OTP verified successfully"));
                             ("verified"%string, JBool true)] |}.
Proof. vm_compute. reflexivity. Qed.

(** The store after two requests for the sample number, the second one
    ten minutes and more after the first, with a deletion that errors and
    the same six digits dealt again: an expired row and a live row of the
    same number and code. A request that presents the pair of the expired
    row is accepted, on the strength of the other row. *)
Lemma expired_code_accepted_beside_live_row :
  let mob := JStr (lit "9876543210") in
  let code := JStr (lit "550000") in
  let d := snd (serve_all
                  [(sample_env, post "request_otp" mob JUndefined JUndefined);
                   (failing_at 1 (at_time 1700000700000 sample_env),
                    post "request_otp" mob JUndefined JUndefined)]
                  sample_db) in
  let e := at_time 1700000800000 sample_env in
  map (fun r => (password_reset_otps.mobile_number r,
                 password_reset_otps.otp_code r,
                 password_reset_otps.expires_at r <? now e)) (otps d)
  = [(lit "9876543210", lit "550000", true);
     (lit "9876543210", lit "550000", false)]
  /\ fst (run (verify_otp e mob code) d) = Done verified
  /\ fst (run (reset_password e mob code (JStr (lit "secret2"))) d) = Done reset_done
  /\ map user_credentials.password_hash
       (credentials (db (snd (run (reset_password e mob code (JStr (lit "secret2")))
                               d))))
     = [hashPassword (lit "secret2")].
Proof. cbv zeta. repeat split; vm_compute; reflexivity. Qed.

(** C3 (amended). Take any row of the OTP table whose expiry is
    strictly earlier than the current time, and a request that presents
    the row's mobile number and code. The lookup of [verify_otp] and of
    [reset_password] never matches that row. When it matches no single
    row, [verify_otp] answers 400 "Invalid or expired OTP" and changes
    nothing, and [reset_password] answers 400 and leaves the three tables
    as they were, its message being "Invalid or expired OTP. Please
    request a new one." when the request is otherwise well formed; this is
    so whenever every row of that number and code has expired or is used,
    and whenever the table has one row per number. The request is accepted
    only when the table holds exactly one other row of the same number
    and code that is unused and has not expired, and then on the strength
    of that row. *)
Theorem expired_otp_rejected (e : env) (d : database)
    (row : password_reset_otps.row) (mob code pw : jsval) :
  In row (otps d) ->
  password_reset_otps.expires_at row < now e ->
  ToString mob = password_reset_otps.mobile_number row ->
  ToString code = password_reset_otps.otp_code row ->
  ToBoolean mob = true ->
  ToBoolean code = true ->
  let live := filter (otp_valid (ToString mob) (ToString code) (now e)) (otps d) in
  ~ In row live
  /\ (one_otp_per_number d -> live = [])
  /\ ((forall r, In r (otps d) ->
          password_reset_otps.mobile_number r = password_reset_otps.mobile_number row ->
          password_reset_otps.otp_code r = password_reset_otps.otp_code row ->
          password_reset_otps.is_used r = true
          \/ password_reset_otps.expires_at r < now e) ->
      live = [])
  /\ (single live = None ->
      run (verify_otp e mob code) d =
        (Done (error_response 400 "Invalid or expired OTP"),
         {| db := d;
            log := [(SelectOtp (ToString mob) (ToString code) (now e),
                     negb (fault e 0))] |})
      /\ exists msg l,
           run (reset_password e mob code pw) d =
             (Done (error_response 400 msg), {| db := d; log := l |})
           /\ Forall (fun c => is_read (fst c) = true) l
           /\ (well_formed_reset mob code pw ->
               msg = "Invalid or expired OTP. Please request a new one."%string))
  /\ (answered_200 (run (verify_otp e mob code) d)
      \/ answered_200 (run (reset_password e mob code pw) d) ->
      exists other,
        live = [other] /\ other <> row /\ In other (otps d)
        /\ password_reset_otps.is_used other = false
        /\ now e <= password_reset_otps.expires_at other).
Proof.
  intros Hr Hx Em Ec Tm Tc. cbv zeta.
  assert (V : forall r,
             In r (filter (otp_valid (ToString mob) (ToString code) (now e)) (otps d)) ->
             In r (otps d)
             /\ password_reset_otps.mobile_number r = ToString mob
             /\ password_reset_otps.otp_code r = ToString code
             /\ password_reset_otps.is_used r = false
             /\ now e <= password_reset_otps.expires_at r).
  { intros r H. apply filter_In in H as [I H]. apply otp_valid_spec in H. tauto. }
  assert (N : ~ In row (filter (otp_valid (ToString mob) (ToString code) (now e))
                          (otps d))).
  { intros H. apply V in H. lia. }
  split; [exact N|]. split; [|split; [|split]].
  - intros U. rewrite Em, Ec. apply (expired_no_match (now e) d row U Hr Hx).
  - intros A. apply filter_nil_iff. intros r I.
    destruct (otp_valid (ToString mob) (ToString code) (now e) r) eqn:O;
      [|reflexivity].
    apply otp_valid_spec in O as (Om & Oc & Ou & Oe).
    destruct (A r I) as [X|X]; [congruence|congruence|congruence|lia].
  - intros S. split.
    + apply verify_otp_no_match; assumption.
    + apply reset_password_no_match; assumption.
  - intros A.
    assert (S : exists other,
               single (filter (otp_valid (ToString mob) (ToString code) (now e))
                         (otps d)) = Some other).
    { destruct (single (filter (otp_valid (ToString mob) (ToString code) (now e))
                          (otps d))) as [o|] eqn:S; [eauto|].
      exfalso. destruct A as [(p & Hp)|(p & Hp)].
      - rewrite (verify_otp_no_match e mob code d Tm Tc S) in Hp. discriminate Hp.
      - destruct (reset_password_no_match e mob code pw d S) as (msg & l & E & _).
        rewrite E in Hp. discriminate Hp. }
    destruct S as (other & S). apply single_some in S.
    exists other. split; [exact S|].
    assert (I : In other (filter (otp_valid (ToString mob) (ToString code) (now e))
                            (otps d))) by (rewrite S; left; reflexivity).
    split; [intros ->; exact (N I)|].
    apply V in I. tauto.
Qed.

Lemma expired_otp_rejected_witness :
  run (verify_otp (at_time 1700000600001 sample_env)
         (JStr (lit "9876543210")) (JStr (lit "550000"))) sample_issued_db
  = (Done (error_response 400 "Invalid or expired OTP"),
     {| db := sample_issued_db;
        log := [(SelectOtp (lit "9876543210") (lit "550000") 1700000600001, true)] |})
  /\ exists msg l,
       run (reset_password (at_time 1700000600001 sample_env)
              (JStr (lit "9876543210")) (JStr (lit "550000")) (JStr (lit "secret2")))
         sample_issued_db
       = (Done (error_response 400 msg), {| db := sample_issued_db; log := l |})
       /\ Forall (fun c => is_read (fst c) = true) l
       /\ (well_formed_reset (JStr (lit "9876543210")) (JStr (lit "550000"))
             (JStr (lit "secret2")) ->
           msg = "Invalid or expired OTP. Please request a new one."%string).
Proof.
  refine (proj1 (proj2 (proj2 (proj2
            (expired_otp_rejected (at_time 1700000600001 sample_env) sample_issued_db
               sample_otp (JStr (lit "9876543210")) (JStr (lit "550000"))
               (JStr (lit "secret2")) _ _ _ _ _ _)))) _).
  - simpl. left. reflexivity.
  - vm_compute. reflexivity.
  - reflexivity.
  - reflexivity.
  - reflexivity.
  - reflexivity.
  - reflexivity.
Defined.

(* ===================================================================== *)
(** ** The edge function: a used code *)
(* ===================================================================== *)

Lemma spent_same_otps (m c : jsstring) (t : Z) (d d' : database) :
  otps d' = otps d -> spent m c t d -> spent m c t d'.
Proof. intros E S r Hr. rewrite E in Hr. exact (S r Hr). Qed.

(** Once a reset has gone through, its pair is spent from the time of
    the reset on. *)
Lemma reset_spends (e : env) (mob code pw : jsval) (d : database) :
  succeeded (run (reset_password e mob code pw) d) ->
  spent (ToString mob) (ToString code) (now e)
    (db (snd (run (reset_password e mob code pw) d))).
Proof.
  intros S.
  destruct (reset_password_succeeded e mob code pw d S) as (row & Hrow & Ho).
  eapply spent_same_otps; [exact Ho|].
  apply mark_used_spent. exact Hrow.
Qed.

(** The sample account asks for a code, resets its password with it, asks
    for a code again and is dealt the same six digits: the pair that has
    already served authorizes a second reset, through the new row. *)
Lemma reissued_code_resets_again :
  let mob := JStr (lit "9876543210") in
  let code := JStr (lit "550000") in
  let first := run (reset_password (at_time 1700000100000 sample_env)
                      mob code (JStr (lit "secret2"))) sample_issued_db in
  let between := [(at_time 1700000200000 sample_env,
                   post "request_otp" mob JUndefined JUndefined)] in
  let d2 := snd (serve_all between (db (snd first))) in
  let second := run (reset_password (at_time 1700000300000 sample_env)
                       mob code (JStr (lit "secret3"))) d2 in
  succeeded first
  /\ map password_reset_otps.is_used (otps (db (snd first))) = [true]
  /\ fst second = Done reset_done
  /\ map user_credentials.password_hash (credentials d2)
       = [hashPassword (lit "secret2")]
  /\ map user_credentials.password_hash (credentials (db (snd second)))
       = [hashPassword (lit "secret3")].
Proof.
  cbv zeta. split; [split|].
  - eexists. vm_compute. reflexivity.
  - vm_compute. repeat constructor.
  - repeat split; vm_compute; reflexivity.
Qed.

(** A reset that answered 200 and whose mark-used update took effect
    leaves its pair spent from the time of the reset on, whatever became
    of its later calls. *)
Lemma reset_marks_spent (e : env) (mob code pw : jsval) (d : database) :
  answered_200 (run (reset_password e mob code pw) d) ->
  fault e 2 = false ->
  spent (ToString mob) (ToString code) (now e)
    (db (snd (run (reset_password e mob code pw) d))).
Proof.
  intros A F2.
  destruct (reset_password_answered e mob code pw d A)
    as (_ & _ & _ & _ & row & Hrow & Ho & _).
  eapply spent_same_otps; [exact Ho|].
  unfold effect. rewrite F2. apply mark_used_spent. exact Hrow.
Qed.

(** The calls that keep a pair spent, replayed. *)
Lemma replay_spent (e : env) (m c : jsstring) (t : Z) (l : list (call * bool)) :
  forall d, inserts_none m c l -> spent m c t d -> spent m c t (replay e l d).
Proof.
  unfold replay, inserts_none.
  induction l as [|[x b] l IH]; intros d I S; cbn [fold_left]; [exact S|].
  inversion I as [|? ? Hx Hl]; subst. apply IH; [exact Hl|].
  cbn [fst snd] in *. destruct b; [|exact S].
  apply apply_call_spent; [apply Hx; reflexivity|exact S].
Qed.

(** A sequence of requests none of which inserts a row of the pair keeps
    it spent. *)
Lemma no_new_row_spent (m c : jsstring) (t : Z) (rs : list (env * request)) :
  forall d, no_new_row m c rs d -> spent m c t d ->
            spent m c t (snd (serve_all rs d)).
Proof.
  unfold serve_all.
  induction rs as [|[e req] rs IH]; intros d N S; [exact S|].
  destruct N as [N1 N]. cbn [fst snd] in N1, N.
  cbn [map run_each fst snd]. apply IH; [exact N|].
  rewrite handler_replay. apply replay_spent; assumption.
Qed.

(** C4 (amended). Once a [reset_password] call has answered 200 using
    an OTP row and its mark-used update has taken effect (whatever became
    of the calls it made afterwards), that row is marked used; and after
    any sequence of requests none of which has inserted a row with the
    same code for the same number (a [request_otp] that inserts no row, or
    a row with another code, is no obstacle), every later [reset_password]
    call (its clock not behind the first one's) that presents the same
    mobile number and code is answered 400 and changes nothing in the
    store: what it does to the store is at most the one lookup. *)
Theorem used_otp_not_reusable (e1 : env) (mob code pw : jsval) (d : database)
    (rs : list (env * request)) (e2 : env) (mob2 code2 pw2 : jsval) :
  answered_200 (run (reset_password e1 mob code pw) d) ->
  fault e1 2 = false ->
  let d1 := db (snd (run (reset_password e1 mob code pw) d)) in
  no_new_row (ToString mob) (ToString code) rs d1 ->
  now e1 <= now e2 ->
  ToString mob2 = ToString mob ->
  ToString code2 = ToString code ->
  let d2 := snd (serve_all rs d1) in
  (exists row,
      single (filter (otp_valid (ToString mob) (ToString code) (now e1)) (otps d))
        = Some row
      /\ In (set_used row) (otps d1)
      /\ forall r, In r (otps d1) ->
           password_reset_otps.id r = password_reset_otps.id row ->
           password_reset_otps.is_used r = true)
  /\ exists msg l,
       run (reset_password e2 mob2 code2 pw2) d2 =
         (Done (error_response 400 msg), {| db := d2; log := l |})
       /\ Forall (fun c => is_read (fst c) = true) l.
Proof.
  intros A F2. cbv zeta. intros N T Em Ec. split.
  - destruct (reset_password_answered e1 mob code pw d A)
      as (_ & _ & _ & _ & row & Hrow & Ho & _).
    exists row. split; [exact Hrow|]. rewrite Ho. unfold effect. rewrite F2.
    cbn [apply_call otps]. split.
    + apply in_map_iff. exists row. rewrite Z.eqb_refl. split; [reflexivity|].
      apply single_some in Hrow.
      assert (H : In row (filter (otp_valid (ToString mob) (ToString code) (now e1))
                            (otps d))) by (rewrite Hrow; left; reflexivity).
      apply filter_In in H. tauto.
    + intros r Hr Ei. apply in_map_iff in Hr as (r0 & <- & _).
      destruct (Z.eqb_spec (password_reset_otps.id r0) (password_reset_otps.id row))
        as [_|X]; [reflexivity|].
      exfalso. apply X. exact Ei.
  - pose proof (reset_marks_spent e1 mob code pw d A F2) as S1.
    pose proof (no_new_row_spent _ _ _ rs _ N S1) as S2.
    pose proof (spent_no_match _ _ _ _ _ S2 T) as Z0.
    destruct (reset_password_no_match e2 mob2 code2 pw2
                (snd (serve_all rs (db (snd (run (reset_password e1 mob code pw) d))))))
      as (msg & l & E & R & _).
    { rewrite Em, Ec, Z0. reflexivity. }
    exists msg, l. split; assumption.
Qed.

Lemma sample_reset_succeeded :
  succeeded (run (reset_password (at_time 1700000100000 sample_env)
                    (JStr (lit "9876543210")) (JStr (lit "550000"))
                    (JStr (lit "secret2"))) sample_issued_db).
Proof.
  split.
  - eexists. vm_compute. reflexivity.
  - vm_compute. repeat constructor.
Defined.

(** A reset whose last call (the deactivation of the sessions) errors:
    it answers 200 and its mark-used update took effect. *)
Lemma sample_reset_answered :
  answered_200 (run (reset_password (failing_at 4 (at_time 1700000100000 sample_env))
                       (JStr (lit "9876543210")) (JStr (lit "550000"))
                       (JStr (lit "secret2"))) sample_issued_db).
Proof. eexists. vm_compute. reflexivity. Defined.

Lemma used_otp_not_reusable_witness :
  let mob := JStr (lit "9876543210") in
  let d1 := db (snd (run (reset_password
                            (failing_at 4 (at_time 1700000100000 sample_env))
                            mob (JStr (lit "550000")) (JStr (lit "secret2")))
                       sample_issued_db)) in
  let rs := [(at_time 1700000150000 sample_env,
              post "verify_otp" mob (JStr (lit "550000")) JUndefined);
             (at_time 1700000160000 sample_env,
              post "request_otp" (JStr (lit "1111111111")) JUndefined JUndefined);
             (with_random 0 (at_time 1700000170000 sample_env),
              post "request_otp" mob JUndefined JUndefined)] in
  exists msg l,
    run (reset_password (at_time 1700000200000 sample_env)
           mob (JNum 550000) (JStr (lit "secret3")))
      (snd (serve_all rs d1))
    = (Done (error_response 400 msg), {| db := snd (serve_all rs d1); log := l |})
    /\ Forall (fun c => is_read (fst c) = true) l.
Proof.
  cbv zeta.
  refine (proj2 (used_otp_not_reusable
                   (failing_at 4 (at_time 1700000100000 sample_env))
                   (JStr (lit "9876543210")) (JStr (lit "550000"))
                   (JStr (lit "secret2")) sample_issued_db _
                   (at_time 1700000200000 sample_env)
                   (JStr (lit "9876543210")) (JNum 550000) (JStr (lit "secret3"))
                   sample_reset_answered eq_refl _ _ _ _)).
  - cbn [no_new_row fst snd]. unfold inserts_none.
    repeat split; vm_compute;
      repeat (first [apply Forall_nil
                    |apply Forall_cons; [intros _; reflexivity|]]).
  - simpl. lia.
  - reflexivity.
  - reflexivity.
Defined.

(* ===================================================================== *)
(** ** The edge function: verifying is only a read *)
(* ===================================================================== *)

Lemma verify_otp_succeeded (e : env) (mob code : jsval) (d : database) :
  succeeded (run (verify_otp e mob code) d) ->
  ToBoolean mob = true /\ ToBoolean code = true /\ fault e 0 = false
  /\ exists row,
       single (filter (otp_valid (ToString mob) (ToString code) (now e)) (otps d))
         = Some row.
Proof.
  intros [(p & Hp) _].
  destruct (ToBoolean mob) eqn:Tm.
  2:{ rewrite verify_otp_missing in Hp by auto. discriminate Hp. }
  destruct (ToBoolean code) eqn:Tc.
  2:{ rewrite verify_otp_missing in Hp by auto. discriminate Hp. }
  rewrite verify_otp_run in Hp by assumption. cbv zeta in Hp.
  destruct (fault e 0); [discriminate Hp|].
  destruct (single _) as [row|]; [|discriminate Hp].
  repeat split. exists row. reflexivity.
Qed.

Lemma verify_otp_match (e : env) (mob code : jsval) (d : database)
    (row : password_reset_otps.row) :
  ToBoolean mob = true -> ToBoolean code = true -> fault e 0 = false ->
  single (filter (otp_valid (ToString mob) (ToString code) (now e)) (otps d))
    = Some row ->
  run (verify_otp e mob code) d =
    (Done verified,
     {| db := d;
        log := [(SelectOtp (ToString mob) (ToString code) (now e), true)] |}).
Proof.
  intros Tm Tc F S. rewrite verify_otp_run by assumption. cbv zeta.
  rewrite F, S. reflexivity.
Qed.

Example verify_twice_sample :
  run_each [verify_otp (at_time 1700000100000 sample_env)
              (JStr (lit "9876543210")) (JStr (lit "550000"));
            verify_otp (at_time 1700000200000 sample_env)
              (JStr (lit "9876543210")) (JStr (lit "550000"))] sample_issued_db
  = ([Done verified; Done verified], sample_issued_db).
Proof. vm_compute. reflexivity. Qed.

(** C5. A [verify_otp] call, whether it succeeds or fails, leaves the
    store exactly as it was: all it ever does is the one lookup, and no
    row gets its [is_used] flag set. So once a code has been verified, it
    is verified again, with success each time, by any number of further
    calls made before the row expires; and it stops being so once a
    [reset_password] has consumed it. *)
Theorem verify_otp_read_only (e : env) (mob code : jsval) (d : database) :
  (exists o l,
      run (verify_otp e mob code) d = (o, {| db := d; log := l |})
      /\ Forall (fun c => is_read (fst c) = true) l)
  /\ (succeeded (run (verify_otp e mob code) d) ->
      exists row,
        single (filter (otp_valid (ToString mob) (ToString code) (now e)) (otps d))
          = Some row
        /\ password_reset_otps.is_used row = false
        /\ (forall es : list env,
               Forall (fun e' => now e <= now e' <= password_reset_otps.expires_at row
                                 /\ fault e' 0 = false) es ->
               run_each (map (fun e' => verify_otp e' mob code) es) d
               = (map (fun _ => Done verified) es, d))
        /\ (forall (er e' : env) (pw : jsval),
               succeeded (run (reset_password er mob code pw) d) ->
               now er <= now e' ->
               fst (run (verify_otp e' mob code)
                      (db (snd (run (reset_password er mob code pw) d))))
               = Done (error_response 400 "Invalid or expired OTP"))).
Proof.
  split; [apply verify_otp_reads|].
  intros S. destruct (verify_otp_succeeded e mob code d S) as (Tm & Tc & F0 & row & Hrow).
  exists row. split; [exact Hrow|]. split; [|split].
  - apply single_some in Hrow.
    assert (H : In row (filter (otp_valid (ToString mob) (ToString code) (now e))
                          (otps d))) by (rewrite Hrow; left; reflexivity).
    apply filter_In in H as [_ V]. apply otp_valid_spec in V. tauto.
  - induction es as [|e' es IH]; intros H; [reflexivity|].
    inversion H as [|? ? [T F'] H']; subst. cbn [map run_each].
    rewrite (verify_otp_match e' mob code d row Tm Tc F')
      by (eapply single_valid_later; eauto).
    cbn [fst snd db]. rewrite (IH H'). reflexivity.
  - intros er e' pw Sr T.
    pose proof (reset_spends er mob code pw d Sr) as Sp.
    pose proof (spent_no_match _ _ _ _ _ Sp T) as N.
    rewrite verify_otp_no_match; [reflexivity|assumption|assumption|].
    rewrite N. reflexivity.
Qed.

Lemma sample_verify_succeeded :
  succeeded (run (verify_otp (at_time 1700000100000 sample_env)
                    (JStr (lit "9876543210")) (JStr (lit "550000")))
               sample_issued_db).
Proof.
  split.
  - eexists. vm_compute. reflexivity.
  - vm_compute. repeat constructor.
Defined.

Lemma verify_otp_read_only_witness :
  exists row,
    single (filter (otp_valid (lit "9876543210") (lit "550000") 1700000100000)
              (otps sample_issued_db)) = Some row
    /\ password_reset_otps.is_used row = false
    /\ (forall es : list env,
           Forall (fun e' => 1700000100000 <= now e'
                               <= password_reset_otps.expires_at row
                             /\ fault e' 0 = false) es ->
           run_each (map (fun e' => verify_otp e' (JStr (lit "9876543210"))
                                      (JStr (lit "550000"))) es) sample_issued_db
           = (map (fun _ => Done verified) es, sample_issued_db))
    /\ (forall (er e' : env) (pw : jsval),
           succeeded (run (reset_password er (JStr (lit "9876543210"))
                             (JStr (lit "550000")) pw) sample_issued_db) ->
           now er <= now e' ->
           fst (run (verify_otp e' (JStr (lit "9876543210")) (JStr (lit "550000")))
                  (db (snd (run (reset_password er (JStr (lit "9876543210"))
                                   (JStr (lit "550000")) pw) sample_issued_db))))
           = Done (error_response 400 "Invalid or expired OTP")).
Proof.
  exact (proj2 (verify_otp_read_only (at_time 1700000100000 sample_env)
                  (JStr (lit "9876543210")) (JStr (lit "550000")) sample_issued_db)
           sample_verify_succeeded).
Defined.

(* ===================================================================== *)
(** ** The edge function: the two updates of [reset_password] *)
(* ===================================================================== *)

(** One call followed by the rest of the computation, in a run that is
    killed after [n] calls. *)
Lemma bind_issue_killed {A B} (n : nat) (e : env) (c : call) (failed : A)
    (f : database -> A * database) (k : A -> M B) (s : state) :
  bind (issue e c failed f) k (Some n) s =
    if (n <=? length (log s))%nat then (Killed, s)
    else if fault e (length (log s))
    then k failed (Some n) {| db := db s; log := log s ++ [(c, false)] |}
    else k (fst (f (db s))) (Some n)
           {| db := snd (f (db s)); log := log s ++ [(c, true)] |}.
Proof.
  unfold bind, issue. destruct (n <=? length (log s))%nat; [reflexivity|].
  destruct (fault e (length (log s))); [reflexivity|].
  destruct (f (db s)); reflexivity.
Qed.

(** The worker killed when the lookup and the password update have been
    made: the password is updated and nothing else has happened. *)
Lemma reset_password_killed (e : env) (mob code pw : jsval) (d : database)
    (row : password_reset_otps.row) :
  well_formed_reset mob code pw ->
  fault e 0 = false -> fault e 1 = false ->
  single (filter (otp_valid (ToString mob) (ToString code) (now e)) (otps d))
    = Some row ->
  let c0 := SelectOtp (ToString mob) (ToString code) (now e) in
  let c1 := UpdatePassword (ToString mob) (hashPassword (ToString pw))
              (now_update e) in
  run_killed 2 (reset_password e mob code pw) d =
    (Killed, {| db := apply_call e c1 d; log := [(c0, true); (c1, true)] |}).
Proof.
  intros (Tm & Tc & Tp & Lp) F0 F1 S.
  unfold run_killed, reset_password. rewrite Tm, Tc, Tp, Lp. cbn [negb orb].
  unfold select_otp. rewrite bind_issue_killed.
  cbn [log length db fst snd app Nat.leb]. rewrite F0, S.
  unfold update_password. rewrite bind_issue_killed.
  cbn [log length db fst snd app Nat.leb]. rewrite F1.
  unfold mark_otp_used. rewrite bind_issue_killed. reflexivity.
Qed.

(** A reset goes through on any store whose OTP table has, for the pair,
    exactly one row that is valid, when no call errors. *)
Lemma reset_password_goes_through (e : env) (mob code pw : jsval) (d : database)
    (row : password_reset_otps.row) :
  well_formed_reset mob code pw ->
  fault e 0 = false -> fault e 1 = false ->
  single (filter (otp_valid (ToString mob) (ToString code) (now e)) (otps d))
    = Some row ->
  fst (run (reset_password e mob code pw) d) = Done reset_done
  /\ credentials (db (snd (run (reset_password e mob code pw) d)))
     = map (fun r => if credential_for (ToString mob) r
                     then set_password (hashPassword (ToString pw)) (now_update e) r
                     else r) (credentials d).
Proof.
  intros W F0 F1 S. rewrite reset_password_run by assumption. cbv zeta.
  rewrite F0, S, F1. unfold effect.
  destruct (if fault e 3 then None else _);
    destruct (fault e 2); try destruct (fault e 4); split; reflexivity.
Qed.

(** The mark-used call may error as well; its result is not looked at,
    the answer is still 200 and the row stays unused. *)
Lemma mark_error_unnoticed (e : env) (mob code pw : jsval) (d : database)
    (row : password_reset_otps.row) :
  well_formed_reset mob code pw ->
  fault e 0 = false -> fault e 1 = false -> fault e 2 = true ->
  single (filter (otp_valid (ToString mob) (ToString code) (now e)) (otps d))
    = Some row ->
  fst (run (reset_password e mob code pw) d) = Done reset_done
  /\ otps (db (snd (run (reset_password e mob code pw) d))) = otps d.
Proof.
  intros W F0 F1 F2 S. rewrite reset_password_run by assumption. cbv zeta.
  rewrite F0, S, F1. unfold effect. rewrite F2.
  destruct (if fault e 3 then None else _); try destruct (fault e 4);
    split; reflexivity.
Qed.

(** C9. In [reset_password] the password update and the mark-used update
    are two separate calls, issued in that order, with nothing that ties
    them together. When the first errors the answer is 500 and the store
    is untouched; when the worker is killed between the two, the password
    is updated and the OTP table is untouched. Either way the row's
    [is_used] flag is still false, and until the row expires a further
    [reset_password] with the same code goes through and sets the
    password again. *)
Theorem reset_password_not_atomic (e : env) (mob code pw : jsval) (d : database)
    (row : password_reset_otps.row) :
  well_formed_reset mob code pw ->
  fault e 0 = false ->
  single (filter (otp_valid (ToString mob) (ToString code) (now e)) (otps d))
    = Some row ->
  let c0 := SelectOtp (ToString mob) (ToString code) (now e) in
  let c1 := UpdatePassword (ToString mob) (hashPassword (ToString pw))
              (now_update e) in
  let c2 := MarkOtpUsed (password_reset_otps.id row) in
  (fault e 1 = false ->
     exists rest,
       log (snd (run (reset_password e mob code pw) d))
       = (c0, true) :: (c1, true) :: (c2, negb (fault e 2)) :: rest)
  /\ (fault e 1 = true ->
      run (reset_password e mob code pw) d =
        (Done (error_response 500 "Failed to update password"),
         {| db := d; log := [(c0, true); (c1, false)] |}))
  /\ (fault e 1 = false ->
      run_killed 2 (reset_password e mob code pw) d =
        (Killed, {| db := apply_call e c1 d; log := [(c0, true); (c1, true)] |}))
  /\ (forall d' : database,
         d' = d \/ d' = apply_call e c1 d ->
         otps d' = otps d
         /\ In row (otps d')
         /\ password_reset_otps.is_used row = false
         /\ forall (e2 : env) (pw2 : jsval),
              well_formed_reset mob code pw2 ->
              now e <= now e2 <= password_reset_otps.expires_at row ->
              fault e2 0 = false -> fault e2 1 = false ->
              fst (run (reset_password e2 mob code pw2) d') = Done reset_done
              /\ credentials (db (snd (run (reset_password e2 mob code pw2) d')))
                 = map (fun r => if credential_for (ToString mob) r
                                 then set_password (hashPassword (ToString pw2))
                                        (now_update e2) r
                                 else r) (credentials d')).
Proof.
  intros W F0 S. cbv zeta. split; [|split; [|split]].
  - intros F1. rewrite reset_password_run by assumption. cbv zeta.
    rewrite F0, S, F1.
    destruct (if fault e 3 then None else _); eexists; reflexivity.
  - intros F1. rewrite reset_password_run by assumption. cbv zeta.
    rewrite F0, S, F1. reflexivity.
  - intros F1. apply (reset_password_killed e mob code pw d row); assumption.
  - intros d' Hd'.
    assert (Eo : otps d' = otps d) by (destruct Hd' as [->| ->]; reflexivity).
    pose proof (single_some _ _ S) as L.
    assert (V : In row (filter (otp_valid (ToString mob) (ToString code) (now e))
                          (otps d))) by (rewrite L; left; reflexivity).
    apply filter_In in V as [Hin V]. apply otp_valid_spec in V.
    split; [exact Eo|]. split; [rewrite Eo; exact Hin|]. split; [tauto|].
    intros e2 pw2 W2 T G0 G1.
    apply (reset_password_goes_through e2 mob code pw2 d' row W2 G0 G1).
    rewrite Eo. eapply single_valid_later; eauto.
Qed.

Lemma reset_password_not_atomic_witness :
  let e := at_time 1700000100000 sample_env in
  let mob := JStr (lit "9876543210") in
  let code := JStr (lit "550000") in
  let c1 := UpdatePassword (lit "9876543210") (hashPassword (lit "secret2"))
              1700000100000 in
  run_killed 2 (reset_password e mob code (JStr (lit "secret2"))) sample_issued_db
  = (Killed,
     {| db := apply_call e c1 sample_issued_db;
        log := [(SelectOtp (lit "9876543210") (lit "550000") 1700000100000, true);
                (c1, true)] |})
  /\ fst (run (reset_password (at_time 1700000200000 sample_env) mob code
                 (JStr (lit "secret3"))) (apply_call e c1 sample_issued_db))
     = Done reset_done.
Proof.
  cbv zeta.
  pose proof (reset_password_not_atomic (at_time 1700000100000 sample_env)
                (JStr (lit "9876543210")) (JStr (lit "550000"))
                (JStr (lit "secret2")) sample_issued_db sample_otp) as H.
  cbv zeta in H.
  destruct H as (_ & _ & K & R).
  - repeat split.
  - reflexivity.
  - reflexivity.
  - split.
    + apply K. reflexivity.
    + destruct (R _ (or_intror eq_refl)) as (_ & _ & _ & G).
      apply (G (at_time 1700000200000 sample_env) (JStr (lit "secret3"))).
      * repeat split.
      * simpl. lia.
      * reflexivity.
      * reflexivity.
Defined.

(* ===================================================================== *)
(** ** [hashPassword] *)
(* ===================================================================== *)

(** The digest agrees with the test vectors of the standard. *)
Example hashPassword_abc :
  hashPassword (lit "abc") =
    lit "ba7816bf8f01cfea414140de5dae2223b00361a396177a9cb410ff61f20015ad".
Proof. vm_compute. reflexivity. Qed.

Example hashPassword_empty :
  hashPassword [] =
    lit "e3b0c44298fc1c149afbf4c8996fb92427ae41e4649b934ca495991b7852b855".
Proof. vm_compute. reflexivity. Qed.

(** A message of two blocks. *)
Example hashPassword_two_blocks :
  hashPassword (lit "abcdbcdecdefdefgefghfghighijhijkijkljklmklmnlmnomnopnopq") =
    lit "248d6a61d20638b8e5c026930c3e6039a33ce45964ff2167f6ecedd419db06c1".
Proof. vm_compute. reflexivity. Qed.

Example round_constants :
  hd 0 SHA256.K = 0x428a2f98 /\ last SHA256.K 0 = 0xc67178f2
  /\ length SHA256.K = 64%nat
  /\ SHA256.H0 = (0x6a09e667, 0xbb67ae85, 0x3c6ef372, 0xa54ff53a,
                  0x510e527f, 0x9b05688c, 0x1f83d9ab, 0x5be0cd19).
Proof. repeat split. Qed.

(** U+00E9, U+20AC, U+1F600 as a surrogate pair, and a lone surrogate. *)
Example encode_sample :
  TextEncoder.encode [0xE9; 0x20AC; 0xD83D; 0xDE00; 0xD800] =
    [0xC3; 0xA9; 0xE2; 0x82; 0xAC; 0xF0; 0x9F; 0x98; 0x80; 0xEF; 0xBF; 0xBD].
Proof. reflexivity. Qed.

Module SHA256Facts.
Import SHA256.

Lemma be_bytes_length (count : nat) (x : Z) : length (be_bytes count x) = count.
Proof. unfold be_bytes. rewrite length_map, length_rev, length_seq. reflexivity. Qed.

Lemma be_bytes_range (count : nat) (x : Z) :
  Forall (fun b => 0 <= b < 256) (be_bytes count x).
Proof.
  unfold be_bytes. apply Forall_forall. intros b Hb.
  apply in_map_iff in Hb as (i & <- & _). apply Z.mod_pos_bound. lia.
Qed.

(** A digest is thirty-two bytes. *)
Lemma digest_length (msg : list Z) : length (digest msg) = 32%nat.
Proof.
  unfold digest.
  destruct (fold_left compress _ H0) as [[[[[[[a b] c] d] e] f] g] h].
  cbn [flat_map]. rewrite !length_app, !be_bytes_length. reflexivity.
Qed.

Lemma digest_range (msg : list Z) : Forall (fun b => 0 <= b < 256) (digest msg).
Proof.
  unfold digest.
  destruct (fold_left compress _ H0) as [[[[[[[a b] c] d] e] f] g] h].
  cbn [flat_map]. repeat (apply Forall_app; split); try apply be_bytes_range.
  constructor.
Qed.
End SHA256Facts.

Lemma hex_digit_lower (d : Z) : 0 <= d < 16 -> lower_hex (hex_digit d).
Proof.
  intros H. unfold hex_digit, lower_hex. destruct (Z.ltb_spec d 10); lia.
Qed.

(** A byte is written with two lowercase hexadecimal digits. *)
Lemma byte_hex (b : Z) :
  0 <= b < 256 ->
  length (padStart0 2 (byte_toString16 b)) = 2%nat
  /\ Forall lower_hex (padStart0 2 (byte_toString16 b)).
Proof.
  intros H. unfold padStart0, byte_toString16.
  destruct (Z.ltb_spec b 16); cbn [length Nat.sub repeat app].
  - split; [reflexivity|].
    apply Forall_cons; [left; lia|].
    apply Forall_cons; [apply hex_digit_lower; lia|apply Forall_nil].
  - split; [reflexivity|].
    apply Forall_cons; [|apply Forall_cons; [|apply Forall_nil]];
      apply hex_digit_lower.
    + split; [apply Z.div_pos; lia|apply Z.div_lt_upper_bound; lia].
    + apply Z.mod_pos_bound. lia.
Qed.

Lemma hex_length (bs : list Z) :
  Forall (fun b => 0 <= b < 256) bs ->
  length (concat (map (fun b => padStart0 2 (byte_toString16 b)) bs))
    = (2 * length bs)%nat
  /\ Forall lower_hex (concat (map (fun b => padStart0 2 (byte_toString16 b)) bs)).
Proof.
  induction 1 as [|b bs Hb _ [IHl IHf]]; [split; [reflexivity|constructor]|].
  destruct (byte_hex b Hb) as [L F]. cbn [map concat length].
  rewrite length_app, L, IHl. split; [lia|].
  apply Forall_app. split; assumption.
Qed.

(** After a reset that answered 200 every account of the number carries
    the hash of the new password. *)
Lemma reset_stores_hash (e : env) (mob code pw : jsval) (d : database)
    (c : user_credentials.row) :
  answered_200 (run (reset_password e mob code pw) d) ->
  In c (credentials (db (snd (run (reset_password e mob code pw) d)))) ->
  user_credentials.mobile_number c = ToString mob ->
  user_credentials.password_hash c = hashPassword (ToString pw).
Proof.
  intros S Hc Em.
  destruct (reset_password_answered e mob code pw d S)
    as (_ & _ & _ & _ & row & _ & _ & Ec & _).
  rewrite Ec in Hc. cbn [apply_call credentials] in Hc.
  apply in_map_iff in Hc as (c0 & E0 & _).
  destruct (credential_for (ToString mob) c0) eqn:C; subst c.
  - reflexivity.
  - unfold credential_for in C. rewrite Em, str_eqb_refl in C. discriminate C.
Qed.

(** C10. [hashPassword] is a function of the password alone: the SHA-256
    digest of its UTF-8 encoding, each byte written as two lowercase
    hexadecimal digits, sixty-four characters in all. No salt or user
    enters: two [reset_password] calls that answer 200 with the same new
    password, for whatever users and at whatever times, leave the same
    [password_hash] in the rows they update. *)
Theorem hashPassword_unsalted (pw : jsval) :
  hashPassword (ToString pw) =
    concat (map (fun b => padStart0 2 (byte_toString16 b))
              (SHA256.digest (TextEncoder.encode (ToString pw))))
  /\ length (hashPassword (ToString pw)) = 64%nat
  /\ Forall lower_hex (hashPassword (ToString pw))
  /\ forall (e1 e2 : env) (mob1 code1 mob2 code2 : jsval) (d1 d2 : database)
            (c1 c2 : user_credentials.row),
       answered_200 (run (reset_password e1 mob1 code1 pw) d1) ->
       answered_200 (run (reset_password e2 mob2 code2 pw) d2) ->
       In c1 (credentials (db (snd (run (reset_password e1 mob1 code1 pw) d1)))) ->
       user_credentials.mobile_number c1 = ToString mob1 ->
       In c2 (credentials (db (snd (run (reset_password e2 mob2 code2 pw) d2)))) ->
       user_credentials.mobile_number c2 = ToString mob2 ->
       user_credentials.password_hash c1 = user_credentials.password_hash c2
       /\ user_credentials.password_hash c1 = hashPassword (ToString pw).
Proof.
  destruct (hex_length _ (SHA256Facts.digest_range
                            (TextEncoder.encode (ToString pw)))) as [L F].
  rewrite SHA256Facts.digest_length in L.
  split; [reflexivity|]. split; [exact L|]. split; [exact F|].
  intros e1 e2 mob1 code1 mob2 code2 d1 d2 c1 c2 S1 S2 H1 M1 H2 M2.
  rewrite (reset_stores_hash e1 mob1 code1 pw d1 c1 S1 H1 M1).
  rewrite (reset_stores_hash e2 mob2 code2 pw d2 c2 S2 H2 M2).
  split; reflexivity.
Qed.

Lemma sample_two_resets :
  succeeded (run (reset_password (at_time 1700000100000 sample_env)
                    (JStr (lit "9876543210")) (JStr (lit "550000"))
                    (JStr (lit "secret2"))) sample_two_db)
  /\ succeeded (run (reset_password (at_time 1700000200000 sample_env)
                       (JStr (lit "9123456780")) (JStr (lit "123456"))
                       (JStr (lit "secret2"))) sample_two_db).
Proof.
  split; (split; [eexists; vm_compute; reflexivity|vm_compute; repeat constructor]).
Defined.

Lemma hashPassword_unsalted_witness :
  let c1 := set_password (hashPassword (lit "secret2")) 1700000100000 sample_account in
  let c2 := {| user_credentials.id := 2;
               user_credentials.mobile_number := lit "9123456780";
               user_credentials.password_hash := hashPassword (lit "secret2");
               user_credentials.updated_at := 1700000200000 |} in
  user_credentials.password_hash c1 = user_credentials.password_hash c2
  /\ user_credentials.password_hash c1 = hashPassword (lit "secret2").
Proof.
  cbv zeta.
  refine (proj2 (proj2 (proj2 (hashPassword_unsalted (JStr (lit "secret2")))))
            (at_time 1700000100000 sample_env) (at_time 1700000200000 sample_env)
            (JStr (lit "9876543210")) (JStr (lit "550000"))
            (JStr (lit "9123456780")) (JStr (lit "123456"))
            sample_two_db sample_two_db _ _
            (proj1 (proj1 sample_two_resets)) (proj1 (proj2 sample_two_resets))
            _ _ _ _).
  - vm_compute. left. reflexivity.
  - reflexivity.
  - vm_compute. right. left. reflexivity.
  - reflexivity.
Defined.

(* ===================================================================== *)
(** ** Jobs *)
(* ===================================================================== *)

Module JobsFacts.
Import Jobs.

Example open_job_sample :
  JobDetail false (Some sample_job) (Some 2) 1700000000000 =
    Detail {| badge := "Open"; expiry_line := Some "Expires on"%string;
              apply := Some ApplyNow; close_job := false |}.
Proof. reflexivity. Qed.

(** The same job, its status still [open], looked at after its expiry. *)
Example expired_job_sample :
  JobDetail false (Some sample_job) (Some 2) 1700000600001 =
    Detail {| badge := "Offer Ended"; expiry_line := Some "Expired on"%string;
              apply := None; close_job := false |}.
Proof. reflexivity. Qed.

(** C8. For every job whose [expires_at] is strictly earlier than the
    current time, [isExpired] is [true] and the detail page shows the
    job as closed: the badge reads "Offer Ended" and neither the apply
    dialog nor the close button is rendered, whatever the stored status
    is, also when it is still "open". *)
Theorem expired_job_rendered_closed (j : job) (user : option Z) (now t : Z) :
  expires_at j = Some t ->
  t < now ->
  isExpired j now = JBool true
  /\ JobDetail false (Some j) user now =
       Detail {| badge := "Offer Ended";
                 expiry_line := Some "Expired on"%string;
                 apply := None;
                 close_job := false |}.
Proof.
  intros E H.
  assert (X : isExpired j now = JBool true).
  { unfold isExpired. rewrite E. cbn [and_then].
    destruct (Z.ltb_spec t now); [|lia].
    destruct (str_eqb (status j) (lit "closed")); reflexivity. }
  split; [exact X|].
  unfold JobDetail. rewrite X, E. cbn [ToBoolean negb andb].
  destruct (Z.ltb_spec t now); [|lia].
  rewrite andb_false_r. reflexivity.
Qed.

Lemma expired_job_rendered_closed_witness :
  isExpired sample_job 1700000600001 = JBool true
  /\ JobDetail false (Some sample_job) (Some 2) 1700000600001 =
       Detail {| badge := "Offer Ended";
                 expiry_line := Some "Expired on"%string;
                 apply := None;
                 close_job := false |}.
Proof.
  apply (expired_job_rendered_closed sample_job (Some 2) 1700000600001
           1700000600000).
  - reflexivity.
  - lia.
Defined.

Example apply_sample :
  handleApply sample_env (Some 2) sample_job sample_dialog sample_store =
    ({| open := false; loading := false; draft := [] |},
     [ToastSuccess (lit "Application submitted successfully!"); OnApplied],
     {| jobs := [sample_job];
        job_applications :=
          [{| job_id := 10; applicant_id := 2;
              message := Some (lit "I am interested") |}] |}).
Proof. vm_compute. reflexivity. Qed.

Lemma same_pair_found (a : application) (l : list application) :
  existsb (same_pair a) l = true <->
  exists b, In b l /\ job_id b = job_id a /\ applicant_id b = applicant_id a.
Proof.
  rewrite existsb_exists. unfold same_pair.
  split; intros (b & Hb & H); exists b; (split; [assumption|]).
  - apply andb_true_iff in H. rewrite !Z.eqb_eq in H. intuition congruence.
  - apply andb_true_iff. rewrite !Z.eqb_eq. intuition congruence.
Qed.

(** [handleApply] up to the insertion, for a logged-in user and a job
    that passes the two checks made before it. *)
Lemma handleApply_insert (e : env) (uid : Z) (j jobData : job) (u : dialog)
    (s : store) :
  select_job e (id j) s = inr jobData ->
  status jobData = lit "open" ->
  (forall t, expires_at jobData = Some t -> now e <= t) ->
  let row := {| job_id := id j;
                applicant_id := uid;
                message := match trim (draft u) with
                           | [] => None
                           | m => Some m
                           end |} in
  handleApply e (Some uid) j u s =
    match insert_application e row s with
    | (Some error, s') =>
        (set_loading false u,
         if str_eqb (code error) (lit "23505")
         then [ToastError (lit "You have already applied to this job")]
         else caught error, s')
    | (None, s') =>
        ({| open := false; loading := false; draft := [] |},
         [ToastSuccess (lit "Application submitted successfully!"); OnApplied],
         s')
    end.
Proof.
  intros Sj St Ex. cbv zeta. unfold handleApply. rewrite Sj, St.
  rewrite str_eqb_refl. cbn [negb].
  replace (ToBoolean (and_then (expires_at jobData)
                        (fun t => JBool (t <? now e)))) with false.
  2:{ destruct (expires_at jobData) as [t|] eqn:Et; [|reflexivity].
      cbn. specialize (Ex t eq_refl). destruct (Z.ltb_spec t (now e)); [lia|].
      reflexivity. }
  destruct (insert_application e _ s) as [[err|] s']; [|reflexivity].
  destruct (str_eqb (code err) (lit "23505")); reflexivity.
Qed.

(** An insertion that fails for a reason of the store's own, with a code
    other than 23505: the toast shows the text of that error, not a
    generic message. *)
Lemma other_error_shows_its_text :
  let err := {| code := lit "42501";
                text := lit "new row violates row-level security policy" |} in
  let e := {| now := now sample_env;
              select_fault := None;
              insert_fault := Some err;
              no_row_text := no_row_text sample_env;
              conflict_text := conflict_text sample_env |} in
  handleApply e (Some 2) sample_job sample_dialog sample_store
  = (set_loading false sample_dialog,
     [ConsoleError; ToastError (lit "new row violates row-level security policy")],
     sample_store)
  /\ lit "new row violates row-level security policy" <> lit "Failed to apply".
Proof. cbv zeta. split; [vm_compute; reflexivity|vm_compute; discriminate]. Qed.

(** C7 (amended). For a logged-in user and a job that is still open and
    not expired when the dialog checks it: when the user has already
    applied to the job, the insertion fails with the store's conflict code
    23505 and the dialog shows "You have already applied to this job"; for
    every error of the insertion, that message is shown when the code is
    23505 and only then; every other error is thrown to the catch-all,
    which logs it to the console and shows in a toast the error's own
    message, or "Failed to apply" when the error has no message; and when
    the pair has no application yet and the store raises no other error,
    the application is inserted with the success message, after which
    applying once more is the duplicate case. *)
Theorem apply_twice (e : env) (uid : Z) (j jobData : job) (u : dialog)
    (s : store) :
  select_job e (id j) s = inr jobData ->
  status jobData = lit "open" ->
  (forall t, expires_at jobData = Some t -> now e <= t) ->
  let duplicate := [ToastError (lit "You have already applied to this job")] in
  let other err :=
    [ConsoleError;
     ToastError (match text err with [] => lit "Failed to apply" | m => m end)] in
  let applied b := job_id b = id j /\ applicant_id b = uid in
  (insert_fault e = None ->
   (exists b, In b (job_applications s) /\ applied b) ->
   (exists row, applied row
      /\ insert_application e row s =
           (Some {| code := lit "23505"; text := conflict_text e |}, s))
   /\ handleApply e (Some uid) j u s = (set_loading false u, duplicate, s))
  /\ (forall err, insert_fault e = Some err ->
      handleApply e (Some uid) j u s =
        (set_loading false u,
         if str_eqb (code err) (lit "23505") then duplicate else other err,
         s)
      /\ (snd (fst (handleApply e (Some uid) j u s)) = duplicate
          <-> code err = lit "23505"))
  /\ (insert_fault e = None ->
      (forall b, In b (job_applications s) -> ~ applied b) ->
      exists row,
        applied row
        /\ handleApply e (Some uid) j u s =
             ({| open := false; loading := false; draft := [] |},
              [ToastSuccess (lit "Application submitted successfully!");
               OnApplied],
              {| jobs := jobs s; job_applications := job_applications s ++ [row] |})
        /\ forall u2 : dialog,
             handleApply e (Some uid) j u2
               {| jobs := jobs s; job_applications := job_applications s ++ [row] |}
             = (set_loading false u2, duplicate,
                {| jobs := jobs s;
                   job_applications := job_applications s ++ [row] |})).
Proof.
  intros Sj St Ex. cbv zeta.
  pose proof (handleApply_insert e uid j jobData u s Sj St Ex) as H.
  cbv zeta in H. split; [|split].
  - intros F (b & Hb & Bj & Bu).
    assert (I : forall row, job_id row = id j -> applicant_id row = uid ->
                  insert_application e row s =
                    (Some {| code := lit "23505"; text := conflict_text e |}, s)).
    { intros row Rj Ru. unfold insert_application. rewrite F.
      replace (existsb (same_pair row) (job_applications s)) with true;
        [reflexivity|].
      symmetry. apply same_pair_found. exists b. intuition congruence. }
    split.
    + eexists {| job_id := id j; applicant_id := uid; message := None |}.
      split; [split; reflexivity|]. apply I; reflexivity.
    + rewrite H, I by reflexivity. reflexivity.
  - intros err F. rewrite H. unfold insert_application. rewrite F.
    split; [reflexivity|]. cbn [fst snd]. rewrite <- str_eqb_eq.
    destruct (str_eqb (code err) (lit "23505")); [tauto|].
    split; [intros X; discriminate X|intros X; discriminate X].
  - intros F N.
    eexists. split; [|split].
    2:{ rewrite H. unfold insert_application. rewrite F.
        match goal with |- context [existsb ?p ?l] =>
          replace (existsb p l) with false end; [reflexivity|].
        symmetry. apply not_true_is_false. intros X.
        apply same_pair_found in X as (b & Hb & Bj & Bu).
        apply (N b Hb). split; assumption. }
    + split; reflexivity.
    + intros u2.
      rewrite (handleApply_insert e uid j jobData u2 _) by assumption.
      cbv zeta. unfold insert_application at 1. rewrite F.
      cbn [job_applications].
      match goal with |- context [existsb ?p ?l] =>
        replace (existsb p l) with true end; [reflexivity|].
      symmetry. apply same_pair_found. eexists. split.
      * apply in_or_app. right. left. reflexivity.
      * split; reflexivity.
Qed.

Lemma apply_twice_witness :
  exists row,
    (job_id row = 10 /\ applicant_id row = 2)
    /\ handleApply sample_env (Some 2) sample_job sample_dialog sample_store =
         ({| open := false; loading := false; draft := [] |},
          [ToastSuccess (lit "Application submitted successfully!"); OnApplied],
          {| jobs := [sample_job]; job_applications := [] ++ [row] |})
    /\ forall u2 : dialog,
         handleApply sample_env (Some 2) sample_job u2
           {| jobs := [sample_job]; job_applications := [] ++ [row] |}
         = (set_loading false u2,
            [ToastError (lit "You have already applied to this job")],
            {| jobs := [sample_job]; job_applications := [] ++ [row] |}).
Proof.
  refine (proj2 (proj2 (apply_twice sample_env 2 sample_job sample_job
                          sample_dialog sample_store _ _ _)) _ _).
  - reflexivity.
  - reflexivity.
  - intros t E. injection E as <-. vm_compute. discriminate.
  - reflexivity.
  - intros b [].
Defined.
End JobsFacts.

(* ===================================================================== *)
(** * Further properties *)
(* ===================================================================== *)

(** ** The edge function: what the three branches have in common *)

(** The branch a request is served by, with the action that selects it. *)
Lemma handler_branches (e : env) (req : request) :
  (exists r, handler e req = ret r
             /\ (status r = 200 /\ payload r = None
                 \/ (status r = 400 \/ status r = 500) /\ error_body r))
  \/ (exists f, body req = Some f
        /\ strict_eq_lit (action f) "request_otp" = true
        /\ handler e req = request_otp e (mobile_number f))
  \/ (exists f, body req = Some f
        /\ strict_eq_lit (action f) "verify_otp" = true
        /\ handler e req = verify_otp e (mobile_number f) (otp f))
  \/ (exists f, body req = Some f
        /\ strict_eq_lit (action f) "reset_password" = true
        /\ handler e req =
             reset_password e (mobile_number f) (otp f) (new_password f)).
Proof.
  unfold handler.
  destruct (String.eqb (method req) "OPTIONS").
  { left. eexists. split; [reflexivity|]. left. split; reflexivity. }
  destruct (negb _ || negb _).
  { left. eexists. split; [reflexivity|]. right.
    split; [right; reflexivity|eexists; reflexivity]. }
  destruct (negb (client_created e)).
  { left. eexists. split; [reflexivity|]. right.
    split; [right; reflexivity|eexists; reflexivity]. }
  destruct (body req) as [f|].
  2:{ left. eexists. split; [reflexivity|]. right.
      split; [right; reflexivity|eexists; reflexivity]. }
  destruct (strict_eq_lit (action f) "request_otp") eqn:A1.
  { right; left. exists f. auto. }
  destruct (strict_eq_lit (action f) "verify_otp") eqn:A2.
  { right; right; left. exists f. auto. }
  destruct (strict_eq_lit (action f) "reset_password") eqn:A3.
  { right; right; right. exists f. auto. }
  left. eexists. split; [reflexivity|]. right.
  split; [left; reflexivity|eexists; reflexivity].
Qed.

(** The store a [request_otp] leaves, in every case. *)
Lemma request_otp_store (e : env) (v : jsval) (d : database) :
  let d' := db (snd (run (request_otp e v) d)) in
  credentials d' = credentials d /\ sessions d' = sessions d.
Proof.
  cbv zeta. destruct (test_10_digits (ToString v)) eqn:T.
  - apply test_10_digits_spec in T. rewrite request_otp_run by assumption.
    cbv zeta. unfold effect.
    destruct (fault e 0); [split; reflexivity|].
    destruct (single _); [|split; reflexivity].
    destruct (valid_time _), (fault e 1); try destruct (fault e 2);
      split; reflexivity.
  - apply test_10_digits_false in T. rewrite request_otp_rejects by assumption.
    split; reflexivity.
Qed.

(** The store a [reset_password] leaves, in every case: the password of
    the number's accounts may be set, rows of the OTP table may be marked
    used, sessions may be deactivated; nothing else. *)
Lemma reset_password_store (e : env) (mob code pw : jsval) (d : database) :
  let d' := db (snd (run (reset_password e mob code pw) d)) in
  let h := hashPassword (ToString pw) in
  (credentials d' = credentials d
   \/ credentials d' =
        map (fun r => if credential_for (ToString mob) r
                      then set_password h (now_update e) r else r)
            (credentials d))
  /\ (otps d' = otps d
      \/ exists i, otps d' =
           map (fun r => if password_reset_otps.id r =? i then set_used r else r)
               (otps d))
  /\ (sessions d' = sessions d
      \/ exists u, sessions d' =
           map (fun r => if user_sessions.user_id r =? u then set_inactive r else r)
               (sessions d)).
Proof.
  cbv zeta. destruct (well_formed_reset_dec mob code pw) as [W|W].
  - rewrite reset_password_run by assumption. cbv zeta. unfold effect.
    destruct (if fault e 0 then None else _) as [r|]; [|auto].
    destruct (fault e 1); [auto|].
    destruct (if fault e 3 then None else _) as [cr|];
      destruct (fault e 2); try destruct (fault e 4);
      cbn [snd db apply_call credentials otps sessions]; eauto 10.
  - destruct (reset_password_malformed e mob code pw d W) as (msg & ->). auto.
Qed.

Lemma session_kept_map (g : user_sessions.row -> user_sessions.row)
    (l : list user_sessions.row) :
  (forall s, session_kept s (g s)) -> Forall2 session_kept l (map g l).
Proof.
  intros H. induction l as [|s l IH]; cbn; constructor; auto.
Qed.

Lemma session_kept_refl (l : list user_sessions.row) : Forall2 session_kept l l.
Proof. induction l; constructor; [split; auto|assumption]. Qed.

Lemma session_kept_trans (l1 l2 l3 : list user_sessions.row) :
  Forall2 session_kept l1 l2 -> Forall2 session_kept l2 l3 ->
  Forall2 session_kept l1 l3.
Proof.
  intros H. revert l3. induction H as [|a b l1 l2 [U A] _ IH]; intros l3 H3.
  - inversion H3. constructor.
  - inversion H3 as [|? c ? l3' [U' A'] H3']; subst.
    constructor; [|apply IH; assumption].
    split; [congruence|auto].
Qed.

Lemma accounts_set_password (m h : jsstring) (t : Z) (l : list user_credentials.row) :
  map (fun r => (user_credentials.id r, user_credentials.mobile_number r))
    (map (fun r => if credential_for m r then set_password h t r else r) l)
  = map (fun r => (user_credentials.id r, user_credentials.mobile_number r)) l.
Proof.
  rewrite map_map. apply map_ext. intros r.
  destruct (credential_for m r); reflexivity.
Qed.

Lemma handler_keeps (e : env) (req : request) (d : database) :
  accounts_and_sessions_kept d (db (snd (run (handler e req) d))).
Proof.
  unfold accounts_and_sessions_kept, accounts.
  destruct (handler_branches e req)
    as [(r & -> & _)|[(f & _ & _ & ->)|[(f & _ & _ & ->)|(f & _ & _ & ->)]]].
  - split; [reflexivity|apply session_kept_refl].
  - destruct (request_otp_store e (mobile_number f) d) as [-> ->].
    split; [reflexivity|apply session_kept_refl].
  - destruct (verify_otp_reads e (mobile_number f) (otp f) d) as (o & l & -> & _).
    split; [reflexivity|apply session_kept_refl].
  - destruct (reset_password_store e (mobile_number f) (otp f) (new_password f) d)
      as ([-> | ->] & _ & [-> | (u & ->)]);
      rewrite ?accounts_set_password;
      (split; [reflexivity|]);
      try apply session_kept_refl;
      apply session_kept_map; intros s;
      destruct (user_sessions.user_id s =? u); split; cbn; auto; discriminate.
Qed.

(** X1. Whatever requests are served, in whatever environments, no
    account is ever created, deleted or given another number, and no
    session is ever created, deleted, moved to another user or made active
    again: the rows of [user_credentials] keep their identifiers and
    numbers, and a session is active afterwards only if it was before. *)
Theorem accounts_and_sessions_preserved (rs : list (env * request)) :
  forall d : database,
    accounts_and_sessions_kept d (snd (serve_all rs d)).
Proof.
  unfold serve_all.
  induction rs as [|[e req] rs IH]; intros d.
  - split; [reflexivity|apply session_kept_refl].
  - cbn [map run_each fst snd].
    destruct (handler_keeps e req d) as [A S].
    destruct (IH (db (snd (run (handler e req) d)))) as [A' S'].
    split; [congruence|eapply session_kept_trans; eassumption].
Qed.

Lemma accounts_and_sessions_preserved_witness :
  accounts_and_sessions_kept sample_issued_db
    (snd (serve_all
            [(sample_env,
              post "reset_password" (JStr (lit "9876543210")) (JStr (lit "550000"))
                (JStr (lit "new-secret")));
             (at_time 1700000100000 sample_env,
              post "request_otp" (JStr (lit "9876543210")) JUndefined JUndefined)]
            sample_issued_db)).
Proof.
  exact (accounts_and_sessions_preserved
           [(sample_env,
             post "reset_password" (JStr (lit "9876543210")) (JStr (lit "550000"))
               (JStr (lit "new-secret")));
            (at_time 1700000100000 sample_env,
             post "request_otp" (JStr (lit "9876543210")) JUndefined JUndefined)]
           sample_issued_db).
Defined.

(** ** The edge function: what authorizes a change of password *)

(** X2. A request changes the credentials table only if it is a
    [reset_password] whose number and code are those of a row of the OTP
    table that is unused and has not expired at the time of the lookup;
    the change is then the new hash (and update time) on the accounts of
    that number, every other account as it was. *)
Theorem password_change_needs_otp (e : env) (req : request) (d : database) :
  credentials (db (snd (run (handler e req) d))) <> credentials d ->
  exists f row,
    body req = Some f
    /\ strict_eq_lit (action f) "reset_password" = true
    /\ In row (otps d)
    /\ otp_valid (ToString (mobile_number f)) (ToString (otp f)) (now e) row = true
    /\ credentials (db (snd (run (handler e req) d))) =
         with_password (ToString (mobile_number f))
           (hashPassword (ToString (new_password f))) (now_update e)
           (credentials d).
Proof.
  intros H.
  destruct (handler_branches e req)
    as [(r & E & _)|[(f & _ & _ & E)|[(f & _ & _ & E)|(f & B & A & E)]]];
    rewrite E in *.
  - exfalso. apply H. reflexivity.
  - exfalso. apply H. apply request_otp_store.
  - exfalso. apply H.
    destruct (verify_otp_reads e (mobile_number f) (otp f) d) as (o & l & -> & _).
    reflexivity.
  - exists f.
    destruct (well_formed_reset_dec (mobile_number f) (otp f) (new_password f))
      as [W|W].
    2:{ exfalso. apply H.
        destruct (reset_password_malformed e _ _ _ d W) as (msg & ->). reflexivity. }
    rewrite (reset_password_run e _ _ _ d W) in *. cbv zeta in *.
    unfold effect in *.
    destruct (fault e 0); [exfalso; apply H; reflexivity|].
    destruct (single (filter (otp_valid _ _ _) _)) as [row|] eqn:S;
      [|exfalso; apply H; reflexivity].
    destruct (fault e 1); [exfalso; apply H; reflexivity|].
    exists row. apply single_some in S.
    assert (I : In row (filter (otp_valid (ToString (mobile_number f))
                                  (ToString (otp f)) (now e)) (otps d)))
      by (rewrite S; left; reflexivity).
    apply filter_In in I as [I V].
    repeat (split; [assumption|]).
    destruct (if fault e 3 then None else _);
      destruct (fault e 2); try destruct (fault e 4); reflexivity.
Qed.

Lemma sample_reset_changes :
  credentials
    (db (snd (run (handler sample_env
                     (post "reset_password" (JStr (lit "9876543210"))
                        (JStr (lit "550000")) (JStr (lit "new-secret"))))
                sample_issued_db)))
  <> credentials sample_issued_db.
Proof. vm_compute. intros H. discriminate H. Defined.

Lemma password_change_needs_otp_witness :
  exists f row,
    body (post "reset_password" (JStr (lit "9876543210"))
            (JStr (lit "550000")) (JStr (lit "new-secret"))) = Some f
    /\ strict_eq_lit (action f) "reset_password" = true
    /\ In row (otps sample_issued_db)
    /\ otp_valid (ToString (mobile_number f)) (ToString (otp f))
         (now sample_env) row = true
    /\ credentials
         (db (snd (run (handler sample_env
                          (post "reset_password" (JStr (lit "9876543210"))
                             (JStr (lit "550000")) (JStr (lit "new-secret"))))
                     sample_issued_db))) =
         with_password (ToString (mobile_number f))
           (hashPassword (ToString (new_password f))) (now_update sample_env)
           (credentials sample_issued_db).
Proof.
  exact (password_change_needs_otp sample_env _ sample_issued_db
           sample_reset_changes).
Defined.

(** ** The edge function: the life of an issued code *)

Lemma digits_fuel_nonempty (fuel : nat) (n : Z) (acc : jsstring) :
  digits_fuel (S fuel) n acc <> [].
Proof.
  revert n acc. induction fuel as [|f IH]; intros n acc.
  - simpl. destruct (n <? 10); discriminate.
  - change (digits_fuel (S (S f)) n acc)
      with (if n <? 10 then (48 + n mod 10) :: acc
            else digits_fuel (S f) (n / 10) ((48 + n mod 10) :: acc)).
    destruct (n <? 10); [discriminate|apply IH].
Qed.

(** A number printed by [toString] is never the empty string. *)
Lemma Number_toString_truthy (z : Z) : ToBoolean (JStr (Number_toString z)) = true.
Proof.
  unfold Number_toString. destruct (z <? 0); [reflexivity|].
  unfold decimal. cbn [ToBoolean].
  destruct (digits_fuel _ z []) eqn:E; [|reflexivity].
  exfalso. exact (digits_fuel_nonempty _ _ _ E).
Qed.

Lemma generateOTP_truthy (r : Z) : ToBoolean (JStr (generateOTP r)) = true.
Proof. unfold generateOTP. apply Number_toString_truthy. Qed.

(** The lookup of the pair just issued, on the store a successful
    [request_otp] left: the new row, as long as it has not expired. *)
Lemma issued_code_lookup (e : env) (v : jsval) (d : database) (t : Z) :
  succeeded (run (request_otp e v) d) ->
  single (filter (otp_valid (ToString v) (generateOTP (random e)) t)
            (otps (db (snd (run (request_otp e v) d)))))
  = if t <=? now e + 10 * 60 * 1000
    then Some (new_otp e (ToString v) (generateOTP (random e)) (now e + 10 * 60 * 1000))
    else None.
Proof.
  intros S. destruct (request_otp_rows e v d S) as (-> & _).
  rewrite filter_app.
  replace (filter _ (filter _ (otps d))) with (@nil password_reset_otps.row).
  2:{ symmetry. apply filter_nil_iff. intros x Hx.
      apply filter_In in Hx as [_ Hx]. apply negb_true_iff in Hx.
      unfold otp_for in Hx. unfold otp_valid. rewrite Hx. reflexivity. }
  cbn [app filter]. unfold otp_valid at 1.
  cbn [new_otp password_reset_otps.mobile_number password_reset_otps.otp_code
       password_reset_otps.is_used password_reset_otps.expires_at].
  rewrite !str_eqb_refl. cbn [andb negb].
  destruct (t <=? now e + 10 * 60 * 1000); reflexivity.
Qed.

(** X3. Round trip of a code. On the store a successful [request_otp]
    left, the code of its answer is accepted for the number by
    [verify_otp], and by [reset_password] with any password that passes
    the checks, exactly when the clock of the later request is not past
    the clock of the issuing request plus ten minutes (the lookups going
    through). *)
Theorem issued_code_valid_ten_minutes (e e' : env) (v pw : jsval) (d : database) :
  succeeded (run (request_otp e v) d) ->
  fault e' 0 = false -> fault e' 1 = false ->
  ToBoolean pw = true -> length_below pw 6 = false ->
  let d' := db (snd (run (request_otp e v) d)) in
  let code := JStr (generateOTP (random e)) in
  (answered_200 (run (verify_otp e' v code) d') <-> now e' <= now e + 10 * 60 * 1000)
  /\ (answered_200 (run (reset_password e' v code pw) d')
      <-> now e' <= now e + 10 * 60 * 1000).
Proof.
  intros S F0 F1 Tp Lp. cbv zeta.
  pose proof (issued_code_lookup e v d (now e') S) as L.
  destruct (request_otp_succeeded e v d S) as [T _].
  pose proof (ten_digits_truthy _ T) as Tm.
  pose proof (generateOTP_truthy (random e)) as Tc.
  assert (W : well_formed_reset v (JStr (generateOTP (random e))) pw)
    by (repeat split; assumption).
  split.
  - rewrite verify_otp_run by assumption. cbv zeta. rewrite F0.
    change (ToString (JStr (generateOTP (random e)))) with (generateOTP (random e)).
    rewrite L.
    destruct (Z.leb_spec (now e') (now e + 10 * 60 * 1000)).
    + split; [auto|]. intros _. eexists. reflexivity.
    + split; [|lia]. intros (p & Hp). discriminate Hp.
  - rewrite (reset_password_run e' _ _ _ _ W). cbv zeta. rewrite F0, F1.
    change (ToString (JStr (generateOTP (random e)))) with (generateOTP (random e)).
    rewrite L.
    destruct (Z.leb_spec (now e') (now e + 10 * 60 * 1000)).
    + split; [auto|]. intros _.
      destruct (if fault e' 3 then None else _); eexists; reflexivity.
    + split; [|lia]. intros (p & Hp). discriminate Hp.
Qed.

Lemma issued_code_valid_ten_minutes_witness :
  (answered_200
     (run (verify_otp (at_time 1700000600000 sample_env) (JStr (lit "9876543210"))
             (JStr (generateOTP (random sample_env))))
        (db (snd (run (request_otp sample_env (JStr (lit "9876543210"))) sample_db))))
   <-> now (at_time 1700000600000 sample_env) <= now sample_env + 10 * 60 * 1000)
  /\ (answered_200
        (run (reset_password (at_time 1700000600000 sample_env)
                (JStr (lit "9876543210")) (JStr (generateOTP (random sample_env)))
                (JStr (lit "new-secret")))
           (db (snd (run (request_otp sample_env (JStr (lit "9876543210")))
                       sample_db))))
      <-> now (at_time 1700000600000 sample_env) <= now sample_env + 10 * 60 * 1000).
Proof.
  apply (issued_code_valid_ten_minutes sample_env (at_time 1700000600000 sample_env)
           (JStr (lit "9876543210")) (JStr (lit "new-secret")) sample_db
           sample_request_succeeded); reflexivity.
Defined.

(** What a [request_otp] that answered 500 has done: the account was
    found and the deletion was issued; then the expiry was out of range or
    the insertion failed. *)
Lemma request_otp_failed (e : env) (v : jsval) (d : database) :
  answered 500 (run (request_otp e v) d) ->
  decimal_digits 10 (ToString v)
  /\ (fst (run (request_otp e v) d)
      = Done (error_response 500 "Failed to generate OTP")
      \/ fst (run (request_otp e v) d)
         = Done (error_response 500 "Internal server error"))
  /\ db (snd (run (request_otp e v) d)) = effect e 1 (DeleteOtps (ToString v)) d.
Proof.
  intros (resp & Hr & Hs).
  destruct (test_10_digits (ToString v)) eqn:T.
  - apply test_10_digits_spec in T. split; [assumption|].
    rewrite (request_otp_run e v d T) in *. cbv zeta in *.
    destruct (fault e 0).
    { injection Hr as <-. discriminate Hs. }
    destruct (single _).
    2:{ injection Hr as <-. discriminate Hs. }
    destruct (valid_time _); [|split; [right|]; reflexivity].
    destruct (fault e 2).
    + split; [left|]; reflexivity.
    + injection Hr as <-. discriminate Hs.
  - apply test_10_digits_false in T.
    rewrite (request_otp_rejects e v d T) in Hr.
    injection Hr as <-. discriminate Hs.
Qed.

(** X4. A [request_otp] that answers 500 has already revoked the codes
    of the number: when its deletion took effect, the OTP table holds no
    row for the number afterwards, so that no [verify_otp] and no
    [reset_password] for the number is accepted on the store it left,
    whatever the code, the password and the time, although no new code
    was issued. *)
Theorem failed_request_revokes_codes (e : env) (v : jsval) (d : database) :
  answered 500 (run (request_otp e v) d) ->
  fault e 1 = false ->
  let d' := db (snd (run (request_otp e v) d)) in
  filter (otp_for (ToString v)) (otps d') = []
  /\ (forall (e' : env) (code : jsval),
         ~ answered_200 (run (verify_otp e' v code) d'))
  /\ (forall (e' : env) (code pw : jsval),
         ~ answered_200 (run (reset_password e' v code pw) d')).
Proof.
  intros A F1. cbv zeta.
  destruct (request_otp_failed e v d A) as (T & _ & ->).
  unfold effect. rewrite F1. cbn [apply_call otps].
  assert (N : forall c t,
             filter (otp_valid (ToString v) c t)
               (filter (fun r => negb (otp_for (ToString v) r)) (otps d)) = []).
  { intros c t. apply filter_nil_iff. intros x Hx.
    apply filter_In in Hx as [_ Hx]. apply negb_true_iff in Hx.
    unfold otp_for in Hx. unfold otp_valid. rewrite Hx. reflexivity. }
  split; [apply filter_none|]. split.
  - intros e' code (p & Hp).
    destruct (ToBoolean code) eqn:Tc.
    + pose proof (ten_digits_truthy _ T) as Tm.
      rewrite verify_otp_run in Hp by assumption.
      cbv zeta in Hp. cbn [otps] in Hp. rewrite N in Hp.
      destruct (fault e' 0); discriminate Hp.
    + rewrite verify_otp_missing in Hp by auto. discriminate Hp.
  - intros e' code pw A'.
    destruct (reset_password_answered e' v code pw _ A')
      as (_ & _ & _ & _ & row & Hrow & _).
    cbn [otps] in Hrow. rewrite N in Hrow. discriminate Hrow.
Qed.

Lemma sample_insert_fails :
  answered 500
    (run (request_otp (failing_at 2 sample_env) (JStr (lit "9876543210")))
       sample_issued_db).
Proof. eexists. split; vm_compute; reflexivity. Defined.

Lemma failed_request_revokes_codes_witness :
  filter (otp_for (lit "9876543210"))
    (otps (db (snd (run (request_otp (failing_at 2 sample_env)
                           (JStr (lit "9876543210"))) sample_issued_db)))) = [].
Proof.
  exact (proj1 (failed_request_revokes_codes (failing_at 2 sample_env)
                  (JStr (lit "9876543210")) sample_issued_db
                  sample_insert_fails eq_refl)).
Defined.

(** ** The edge function: what a reset does besides the password *)

Lemma filter_with_password (m m' h : jsstring) (t : Z)
    (l : list user_credentials.row) :
  filter (credential_for m') (with_password m h t l)
  = with_password m h t (filter (credential_for m') l).
Proof.
  unfold with_password.
  induction l as [|r l IH]; [reflexivity|]. cbn [map filter].
  replace (credential_for m' (if credential_for m r then set_password h t r else r))
    with (credential_for m' r) by (destruct (credential_for m r); reflexivity).
  destruct (credential_for m' r); cbn [map]; rewrite IH; reflexivity.
Qed.

Lemma single_map {A B} (g : A -> B) (l : list A) :
  single (map g l) = option_map g (single l).
Proof. destruct l as [|x [|y l]]; reflexivity. Qed.

(** The account the second lookup of [reset_password] finds is the one
    the number had before the update, with its identifier. *)
Lemma account_after_update (m h : jsstring) (t : Z) (l : list user_credentials.row) :
  option_map user_credentials.id
    (single (filter (credential_for m) (with_password m h t l)))
  = option_map user_credentials.id (single (filter (credential_for m) l)).
Proof.
  rewrite filter_with_password. unfold with_password. rewrite single_map.
  destruct (single (filter (credential_for m) l)) as [r|]; [|reflexivity].
  cbn [option_map]. destruct (credential_for m r); reflexivity.
Qed.

(** X5. A successful [reset_password] signs the user out everywhere,
    and nobody else: when the number has exactly one account, the
    sessions afterwards are those before with every session of that
    account inactive and every other session untouched. When the number
    has several accounts (the lookup with [.single()] then yields no row)
    the answer is the same 200 and no session is touched at all. *)
Theorem reset_signs_out (e : env) (mob code pw : jsval) (d : database) :
  succeeded (run (reset_password e mob code pw) d) ->
  let d' := db (snd (run (reset_password e mob code pw) d)) in
  match single (filter (credential_for (ToString mob)) (credentials d)) with
  | Some cr =>
      sessions d' = signed_out (user_credentials.id cr) (sessions d)
      /\ (forall s, In s (sessions d') ->
            user_sessions.user_id s = user_credentials.id cr ->
            user_sessions.is_active s = false)
      /\ (forall s, In s (sessions d) ->
            user_sessions.user_id s <> user_credentials.id cr ->
            In s (sessions d'))
  | None => sessions d' = sessions d
  end.
Proof.
  intros [A Hl]. cbv zeta.
  destruct (reset_password_answered e mob code pw d A) as (W & F0 & F1 & _).
  rewrite (reset_password_run e mob code pw d W) in *. cbv zeta in *.
  rewrite F0, F1 in *.
  destruct (single (filter (otp_valid _ _ _) _)) as [row|];
    [|destruct A as (p & Hp); discriminate Hp].
  assert (F3 : fault e 3 = false).
  { destruct (fault e 3) eqn:F; [|reflexivity]. exfalso.
    eapply no_failed_call; [exact Hl|]. cbn. eauto 10. }
  rewrite F3 in *.
  assert (C : option_map user_credentials.id
                (single (filter (credential_for (ToString mob))
                   (credentials
                      (effect e 2 (MarkOtpUsed (password_reset_otps.id row))
                         (apply_call e
                            (UpdatePassword (ToString mob)
                               (hashPassword (ToString pw)) (now_update e)) d)))))
              = option_map user_credentials.id
                  (single (filter (credential_for (ToString mob)) (credentials d)))).
  { unfold effect. destruct (fault e 2); cbn [apply_call credentials];
      apply account_after_update. }
  destruct (single (filter (credential_for (ToString mob)) (credentials (effect _ _ _ _))))
    as [cr'|];
    destruct (single (filter (credential_for (ToString mob)) (credentials d)))
      as [cr|]; cbn [option_map] in C; try discriminate C.
  - injection C as C.
    assert (F4 : fault e 4 = false).
    { destruct (fault e 4) eqn:F; [|reflexivity]. exfalso.
      eapply no_failed_call; [exact Hl|]. cbn. eauto 10. }
    assert (E : sessions
                  (db (snd (Done reset_done,
                            {| db := effect e 4 (DeactivateSessions (user_credentials.id cr'))
                                       (effect e 2 (MarkOtpUsed (password_reset_otps.id row))
                                          (apply_call e
                                             (UpdatePassword (ToString mob)
                                                (hashPassword (ToString pw))
                                                (now_update e)) d));
                               log := [(SelectOtp (ToString mob) (ToString code) (now e), true);
                                       (UpdatePassword (ToString mob)
                                          (hashPassword (ToString pw)) (now_update e), true);
                                       (MarkOtpUsed (password_reset_otps.id row),
                                        negb (fault e 2));
                                       (SelectCredential (ToString mob), negb false)]
                                      ++ [(DeactivateSessions (user_credentials.id cr'),
                                           negb (fault e 4))] |})))
                = signed_out (user_credentials.id cr) (sessions d)).
    { unfold effect. rewrite F4, C. destruct (fault e 2); reflexivity. }
    split; [exact E|]. rewrite E. unfold signed_out. split.
    + intros s Hs U. apply in_map_iff in Hs as (s0 & <- & _).
      destruct (Z.eqb_spec (user_sessions.user_id s0) (user_credentials.id cr));
        [reflexivity|contradiction].
    + intros s Hs U. apply in_map_iff. exists s. split; [|assumption].
      destruct (Z.eqb_spec (user_sessions.user_id s) (user_credentials.id cr));
        [contradiction|reflexivity].
  - unfold effect. destruct (fault e 2); reflexivity.
Qed.

Lemma sample_reset_ok :
  succeeded (run (reset_password sample_env (JStr (lit "9876543210"))
                    (JStr (lit "550000")) (JStr (lit "new-secret")))
               sample_issued_db).
Proof.
  split.
  - eexists. vm_compute. reflexivity.
  - vm_compute. repeat constructor.
Defined.

Lemma reset_signs_out_witness :
  sessions
    (db (snd (run (reset_password sample_env (JStr (lit "9876543210"))
                     (JStr (lit "550000")) (JStr (lit "new-secret")))
                sample_issued_db)))
  = [ {| user_sessions.user_id := 1; user_sessions.is_active := false |} ].
Proof.
  exact (proj1 (reset_signs_out sample_env (JStr (lit "9876543210"))
                  (JStr (lit "550000")) (JStr (lit "new-secret")) sample_issued_db
                  sample_reset_ok)).
Defined.

(** ** The edge function: the check on the length of the password *)

(** X6. The six-character minimum binds strings only. A password that
    arrives as a JSON number has no [length], so that the comparison is
    false and the check is passed: with a code that is valid for the
    number, [reset_password] answers 200 and stores the hash of the
    number's decimal digits, however few they are, while the same digits
    sent as a string are turned away with a 400 before any call to the
    store. *)
Theorem numeric_password_unchecked (e : env) (mob code : jsval) (z : Z)
    (row : password_reset_otps.row) (d : database) :
  z <> 0 ->
  (length (Number_toString z) < 6)%nat ->
  ToBoolean mob = true -> ToBoolean code = true ->
  fault e 0 = false -> fault e 1 = false ->
  filter (otp_valid (ToString mob) (ToString code) (now e)) (otps d) = [row] ->
  (answered_200 (run (reset_password e mob code (JNum z)) d)
   /\ credentials (db (snd (run (reset_password e mob code (JNum z)) d)))
      = with_password (ToString mob) (hashPassword (Number_toString z))
          (now_update e) (credentials d))
  /\ run (reset_password e mob code (JStr (Number_toString z))) d
     = (Done (error_response 400 "Password must be at least 6 characters"),
        {| db := d; log := [] |}).
Proof.
  intros Z0 L Tm Tc F0 F1 R. split.
  - assert (W : well_formed_reset mob code (JNum z)).
    { repeat split; try assumption. cbn [ToBoolean].
      destruct (Z.eqb_spec z 0); [contradiction|reflexivity]. }
    rewrite (reset_password_run e mob code (JNum z) d W). cbv zeta.
    rewrite F0, F1, R. cbn [single]. unfold effect.
    change (ToString (JNum z)) with (Number_toString z).
    destruct (if fault e 3 then None else _);
      destruct (fault e 2); try destruct (fault e 4);
      (split; [eexists; reflexivity|reflexivity]).
  - unfold run, reset_password. rewrite Tm, Tc, Number_toString_truthy.
    cbn [negb orb length_below].
    apply Nat.ltb_lt in L. rewrite L. reflexivity.
Qed.

Lemma numeric_password_unchecked_witness :
  (answered_200
     (run (reset_password sample_env (JStr (lit "9876543210"))
             (JStr (lit "550000")) (JNum 7)) sample_issued_db)
   /\ credentials
        (db (snd (run (reset_password sample_env (JStr (lit "9876543210"))
                         (JStr (lit "550000")) (JNum 7)) sample_issued_db)))
      = with_password (lit "9876543210") (hashPassword (lit "7"))
          (now_update sample_env) (credentials sample_issued_db))
  /\ run (reset_password sample_env (JStr (lit "9876543210"))
            (JStr (lit "550000")) (JStr (lit "7"))) sample_issued_db
     = (Done (error_response 400 "Password must be at least 6 characters"),
        {| db := sample_issued_db; log := [] |}).
Proof.
  apply (numeric_password_unchecked sample_env (JStr (lit "9876543210"))
           (JStr (lit "550000")) 7 sample_otp sample_issued_db);
    try reflexivity.
  - lia.
  - vm_compute. lia.
Defined.

(** ** The edge function: the answers *)

(** X7. Every request that is not cut short is answered, with one of
    the statuses 200, 400, 404 and 500; the body of the answer has the key
    [error] exactly when the status is not 200 (it is then the only
    key). *)
Theorem answer_shape (e : env) (req : request) (d : database) :
  exists resp,
    fst (run (handler e req) d) = Done resp
    /\ (status resp = 200 /\ field "error" resp = None
        \/ (status resp = 400 \/ status resp = 404 \/ status resp = 500)
           /\ error_body resp).
Proof.
  destruct (handler_branches e req)
    as [(r & -> & S)|[(f & _ & _ & ->)|[(f & _ & _ & ->)|(f & _ & _ & ->)]]].
  - exists r. split; [reflexivity|].
    destruct S as [[S P]|[[S|S] B]].
    + left. split; [assumption|]. unfold field. rewrite P. reflexivity.
    + right. split; [tauto|assumption].
    + right. split; [tauto|assumption].
  - destruct (test_10_digits (ToString (mobile_number f))) eqn:T.
    + apply test_10_digits_spec in T. rewrite request_otp_run by assumption.
      cbv zeta.
      destruct (fault e 0).
      { eexists. split; [reflexivity|]. right.
        split; [right; left; reflexivity|eexists; reflexivity]. }
      destruct (single _).
      2:{ eexists. split; [reflexivity|]. right.
          split; [right; left; reflexivity|eexists; reflexivity]. }
      destruct (valid_time _).
      2:{ eexists. split; [reflexivity|]. right.
          split; [right; right; reflexivity|eexists; reflexivity]. }
      destruct (fault e 2); eexists; (split; [reflexivity|]).
      * right. split; [right; right; reflexivity|eexists; reflexivity].
      * left. split; reflexivity.
    + apply test_10_digits_false in T.
      rewrite request_otp_rejects by assumption.
      eexists. split; [reflexivity|]. right.
      split; [left; reflexivity|eexists; reflexivity].
  - destruct (ToBoolean (mobile_number f)) eqn:Tm;
      [destruct (ToBoolean (otp f)) eqn:Tc|];
      try (rewrite verify_otp_missing by auto; eexists;
           split; [reflexivity|]; right;
           split; [left; reflexivity|eexists; reflexivity]).
    rewrite verify_otp_run by assumption. cbv zeta.
    destruct (if fault e 0 then None else _); eexists; (split; [reflexivity|]).
    + left. split; reflexivity.
    + right. split; [left; reflexivity|eexists; reflexivity].
  - destruct (well_formed_reset_dec (mobile_number f) (otp f) (new_password f))
      as [W|W].
    + rewrite reset_password_run by assumption. cbv zeta.
      destruct (if fault e 0 then None else _).
      2:{ eexists. split; [reflexivity|]. right.
          split; [left; reflexivity|eexists; reflexivity]. }
      destruct (fault e 1).
      { eexists. split; [reflexivity|]. right.
        split; [right; right; reflexivity|eexists; reflexivity]. }
      destruct (if fault e 3 then None else _); eexists;
        (split; [reflexivity|]); left; split; reflexivity.
    + destruct (reset_password_malformed e _ _ _ d W) as (msg & ->).
      eexists. split; [reflexivity|]. right.
      split; [left; reflexivity|eexists; reflexivity].
Qed.

Lemma answer_shape_witness :
  exists resp,
    fst (run (handler sample_env
                (post "verify_otp" (JStr (lit "9876543210")) (JStr (lit "000000"))
                   JUndefined)) sample_issued_db) = Done resp
    /\ (status resp = 200 /\ field "error" resp = None
        \/ (status resp = 400 \/ status resp = 404 \/ status resp = 500)
           /\ error_body resp).
Proof.
  exact (answer_shape sample_env
           (post "verify_otp" (JStr (lit "9876543210")) (JStr (lit "000000"))
              JUndefined) sample_issued_db).
Defined.

(** X8. An answer other than 200 means that nothing has changed, with
    two exceptions, both in [request_otp] after its deletion: the 500 of
    a failed insertion, and the 500 of the catch-all when the expiry is
    out of the range of a [Date] and [toISOString] throws. In both the
    store is the one before with the rows of the number deleted (if the
    deletion took effect). *)
Theorem refusals_change_nothing (e : env) (req : request) (d : database)
    (resp : response) :
  fst (run (handler e req) d) = Done resp ->
  status resp <> 200 ->
  db (snd (run (handler e req) d)) = d
  \/ exists f,
       body req = Some f
       /\ strict_eq_lit (action f) "request_otp" = true
       /\ db (snd (run (handler e req) d))
          = effect e 1 (DeleteOtps (ToString (mobile_number f))) d
       /\ (resp = error_response 500 "Failed to generate OTP"
           /\ valid_time (now e + 10 * 60 * 1000) = true
           \/ resp = error_response 500 "Internal server error"
              /\ valid_time (now e + 10 * 60 * 1000) = false).
Proof.
  intros R S.
  destruct (handler_branches e req)
    as [(r & E & _)|[(f & B & A & E)|[(f & _ & _ & E)|(f & _ & _ & E)]]];
    rewrite E in *.
  - left. reflexivity.
  - destruct (test_10_digits (ToString (mobile_number f))) eqn:T.
    + apply test_10_digits_spec in T.
      rewrite (request_otp_run e _ d T) in *. cbv zeta in *.
      destruct (fault e 0); [left; reflexivity|].
      destruct (single _); [|left; reflexivity].
      change (now e + 10 * 60 * 1000) with (now e + 600000).
      destruct (valid_time (now e + 600000)).
      2:{ right. injection R as <-. exists f. auto 10. }
      destruct (fault e 2).
      * right. injection R as <-. exists f. auto 10.
      * injection R as <-. exfalso. apply S. reflexivity.
    + apply test_10_digits_false in T.
      rewrite (request_otp_rejects e _ d T). left. reflexivity.
  - left. destruct (verify_otp_reads e (mobile_number f) (otp f) d)
      as (o & l & -> & _). reflexivity.
  - left.
    destruct (well_formed_reset_dec (mobile_number f) (otp f) (new_password f))
      as [W|W].
    + rewrite (reset_password_run e _ _ _ d W) in *. cbv zeta in *.
      destruct (if fault e 0 then None else _); [|reflexivity].
      destruct (fault e 1); [reflexivity|].
      exfalso. apply S.
      destruct (if fault e 3 then None else _); injection R as <-; reflexivity.
    + destruct (reset_password_malformed e _ _ _ d W) as (msg & ->). reflexivity.
Qed.

Lemma sample_late_request :
  fst (run (handler (at_time 8639999999999999 sample_env)
              (post "request_otp" (JStr (lit "9876543210")) JUndefined JUndefined))
         sample_issued_db)
  = Done (error_response 500 "Internal server error").
Proof. vm_compute. reflexivity. Defined.

Lemma refusals_change_nothing_witness :
  db (snd (run (handler (at_time 8639999999999999 sample_env)
                  (post "request_otp" (JStr (lit "9876543210")) JUndefined
                     JUndefined)) sample_issued_db)) = sample_issued_db
  \/ exists f,
       body (post "request_otp" (JStr (lit "9876543210")) JUndefined JUndefined)
       = Some f
       /\ strict_eq_lit (action f) "request_otp" = true
       /\ db (snd (run (handler (at_time 8639999999999999 sample_env)
                          (post "request_otp" (JStr (lit "9876543210")) JUndefined
                             JUndefined)) sample_issued_db))
          = effect (at_time 8639999999999999 sample_env) 1
              (DeleteOtps (ToString (mobile_number f))) sample_issued_db
       /\ (error_response 500 "Internal server error"
           = error_response 500 "Failed to generate OTP"
           /\ valid_time (now (at_time 8639999999999999 sample_env) + 10 * 60 * 1000)
              = true
           \/ error_response 500 "Internal server error"
              = error_response 500 "Internal server error"
              /\ valid_time (now (at_time 8639999999999999 sample_env)
                             + 10 * 60 * 1000) = false).
Proof.
  apply (refusals_change_nothing (at_time 8639999999999999 sample_env)
           (post "request_otp" (JStr (lit "9876543210")) JUndefined JUndefined)
           sample_issued_db _ sample_late_request).
  vm_compute. discriminate.
Defined.

(** ** The edge function: the OTP table over sequences of requests *)

(** X9. One row per number is an invariant of the OTP table: it holds
    after any sequence of requests of any kind, served in any environments
    in which no deletion fails, if it held before. *)
Theorem one_otp_per_number_invariant (rs : list (env * request)) (d : database) :
  Forall (fun r => fault (fst r) 1 = false) rs ->
  one_otp_per_number d ->
  one_otp_per_number (snd (serve_all rs d))
  /\ forall m, (length (filter (otp_for m) (otps (snd (serve_all rs d)))) <= 1)%nat.
Proof.
  intros F U.
  assert (U' : one_otp_per_number (snd (serve_all rs d))).
  { revert d U. unfold serve_all.
    induction F as [|[e req] rs F1 F IH]; intros d U; [exact U|].
    cbn [map run_each fst snd]. apply IH. apply handler_one_otp; assumption. }
  split; [exact U'|]. intros m.
  unfold one_otp_per_number in U'.
  induction (otps (snd (serve_all rs d))) as [|r l IH]; [cbn; lia|].
  cbn [map] in U'. apply NoDup_cons_iff in U' as [N U'].
  cbn [filter]. destruct (otp_for m r) eqn:O; [|apply IH; assumption].
  replace (filter (otp_for m) l) with (@nil password_reset_otps.row); [cbn; lia|].
  symmetry. apply filter_nil_iff. intros x Hx.
  destruct (otp_for m x) eqn:Ox; [|reflexivity].
  exfalso. apply N. unfold otp_for in *.
  apply str_eqb_eq in O. apply str_eqb_eq in Ox.
  rewrite O, <- Ox. apply in_map. assumption.
Qed.

Lemma one_otp_per_number_invariant_witness :
  one_otp_per_number
    (snd (serve_all
            [(sample_env, post "request_otp" (JStr (lit "9876543210")) JUndefined JUndefined);
             (at_time 1700000100000 sample_env,
              post "request_otp" (JStr (lit "9876543210")) JUndefined JUndefined)]
            sample_db))
  /\ forall m,
       (length (filter (otp_for m)
                  (otps (snd (serve_all
                     [(sample_env,
                       post "request_otp" (JStr (lit "9876543210")) JUndefined JUndefined);
                      (at_time 1700000100000 sample_env,
                       post "request_otp" (JStr (lit "9876543210")) JUndefined JUndefined)]
                     sample_db)))) <= 1)%nat.
Proof.
  apply one_otp_per_number_invariant.
  - repeat constructor.
  - vm_compute. constructor.
Defined.

(** ** The code of [generateOTP] *)

Lemma digits_value_bound (s : jsstring) :
  Forall (fun c => 48 <= c <= 57) s ->
  0 <= digits_value s < 10 ^ Z.of_nat (length s).
Proof.
  induction 1 as [|c s Hc _ IH]; [cbn; lia|].
  cbn [digits_value length]. rewrite Nat2Z.inj_succ, Z.pow_succ_r by lia.
  nia.
Qed.

(** X10. For every value of [0, 1) that [Math.random()] can return,
    the code is a string of six decimal digits that reads as a number
    between 100000 and 999999: its first digit is never 0, so that 900000
    codes can occur, not a million. *)
Theorem otp_code_shape (r : Z) :
  Float64.unit_interval r ->
  decimal_digits 6 (generateOTP r)
  /\ 100000 <= digits_value (generateOTP r) <= 999999
  /\ exists c rest, generateOTP r = c :: rest /\ 49 <= c <= 57.
Proof.
  intros U.
  pose proof (Float64Facts.otp_number_range r U) as R.
  assert (D : decimal_digits 6 (generateOTP r))
    by (unfold generateOTP; apply six_digits; exact R).
  assert (V : 100000 <= digits_value (generateOTP r) <= 999999).
  { unfold generateOTP, Number_toString.
    destruct (Z.ltb_spec (Float64.floor
               (Float64.add (Float64.of_int 100000) (Float64.mul_int r 900000))) 0);
      [lia|].
    rewrite decimal_value by lia. exact R. }
  split; [exact D|]. split; [exact V|].
  destruct D as [L F].
  destruct (generateOTP r) as [|c rest]; [discriminate L|].
  exists c, rest. split; [reflexivity|].
  inversion F as [|? ? Hc Hrest]; subst.
  pose proof (digits_value_bound rest Hrest) as B.
  cbn [digits_value] in V. cbn [length] in L.
  injection L as L. rewrite L in *.
  change (10 ^ Z.of_nat 5) with 100000 in *. lia.
Qed.

Lemma otp_code_shape_witness :
  decimal_digits 6 (generateOTP (2 ^ 1073))
  /\ 100000 <= digits_value (generateOTP (2 ^ 1073)) <= 999999
  /\ exists c rest, generateOTP (2 ^ 1073) = c :: rest /\ 49 <= c <= 57.
Proof. exact (otp_code_shape (2 ^ 1073) unit_interval_half). Defined.

(** ** Jobs: the detail page *)

Module JobPageFacts.
Import Jobs JobPage.

(** The truth value of [isExpired], condition by condition. *)
Lemma isExpired_bool (j : job) (now : Z) :
  ToBoolean (isExpired j now) =
    str_eqb (status j) (lit "closed")
    || match expires_at j with Some t => t <? now | None => false end
    || match max_applications j, application_count j with
       | Some mx, Some n => negb (mx =? 0) && negb (n =? 0) && (mx <=? n)
       | _, _ => false
       end.
Proof.
  unfold isExpired.
  destruct (str_eqb (status j) (lit "closed")); [reflexivity|].
  cbn [js_or ToBoolean orb].
  assert (Q : ToBoolean
                (js_and (number (max_applications j))
                   (js_and (number (application_count j))
                      match application_count j, max_applications j with
                      | Some n, Some mx => JBool (mx <=? n)
                      | _, _ => JBool false
                      end))
              = match max_applications j, application_count j with
                | Some mx, Some n => negb (mx =? 0) && negb (n =? 0) && (mx <=? n)
                | _, _ => false
                end).
  { destruct (max_applications j) as [mx|], (application_count j) as [n|];
      unfold js_and; cbn [number ToBoolean]; try reflexivity.
    - destruct (mx =? 0) eqn:M; cbn [negb andb ToBoolean]; [rewrite M; reflexivity|].
      destruct (n =? 0) eqn:N; cbn [negb andb ToBoolean]; [rewrite N|]; reflexivity.
    - destruct (mx =? 0) eqn:M; cbn [negb andb ToBoolean]; [rewrite M|]; reflexivity. }
  destruct (expires_at j) as [t|]; cbn [and_then ToBoolean].
  - destruct (t <? now); [reflexivity|exact Q].
  - exact Q.
Qed.

(** X11. When the detail page takes a job as ended: exactly when its
    status is [closed], or it has an expiry that is strictly in the past,
    or it has a cap and a count that are both non-zero with the count at
    or above the cap. A status other than [closed] plays no part, a job
    is still open at the very instant of its expiry, and a cap of 0 never
    ends a job. *)
Theorem isExpired_cases (j : job) (now : Z) :
  ToBoolean (isExpired j now) = true <->
    status j = lit "closed"
    \/ (exists t, expires_at j = Some t /\ t < now)
    \/ (exists mx n, max_applications j = Some mx /\ application_count j = Some n
          /\ mx <> 0 /\ n <> 0 /\ mx <= n).
Proof.
  rewrite isExpired_bool, !orb_true_iff, str_eqb_eq.
  assert (A : match expires_at j with Some t => t <? now | None => false end = true
              <-> exists t, expires_at j = Some t /\ t < now).
  { destruct (expires_at j) as [t|].
    - rewrite Z.ltb_lt. split; [eauto|]. intros (t' & E & L).
      injection E as <-. exact L.
    - split; [discriminate|]. intros (t' & E & _). discriminate E. }
  assert (B : match max_applications j, application_count j with
              | Some mx, Some n => negb (mx =? 0) && negb (n =? 0) && (mx <=? n)
              | _, _ => false
              end = true
              <-> exists mx n, max_applications j = Some mx
                    /\ application_count j = Some n
                    /\ mx <> 0 /\ n <> 0 /\ mx <= n).
  { destruct (max_applications j) as [mx|], (application_count j) as [n|];
      try (split; [discriminate|]; intros (mx' & n' & E1 & E2 & _); discriminate).
    rewrite !andb_true_iff, !negb_true_iff, !Z.eqb_neq, Z.leb_le.
    split.
    - intros [[M N] L]. exists mx, n. auto.
    - intros (mx' & n' & E1 & E2 & M & N & L).
      injection E1 as <-. injection E2 as <-. auto. }
  rewrite A, B. tauto.
Qed.

Lemma isExpired_cases_witness :
  ToBoolean (isExpired (with_status (lit "open")
                          {| id := 10; creator_id := 1; status := lit "open";
                             expires_at := None;
                             max_applications := Some 2;
                             application_count := Some 2;
                             has_applied := false |}) 0) = true.
Proof.
  apply (proj2 (isExpired_cases _ 0)). right. right. exists 2, 2.
  repeat split; try reflexivity; lia.
Defined.

(** X12. The controls of the detail page. The apply dialog and the
    close button are never rendered together; the creator is never offered
    to apply to their own job, and nobody but the creator to close it; a
    visitor who is not logged in gets neither control, so that the
    dialog's "Login to Apply" variant never appears on this page; where
    the dialog is rendered it shows "Applied" or "Apply Now" according to
    [has_applied]. *)
Theorem detail_controls (j : job) (user : option Z) (now : Z) (v : detail) :
  JobDetail false (Some j) user now = Detail v ->
  (apply v = None \/ close_job v = false)
  /\ (isCreator user j = true -> apply v = None)
  /\ (isCreator user j = false -> close_job v = false)
  /\ (user = None -> apply v = None /\ close_job v = false)
  /\ (forall a, apply v = Some a ->
        a = if has_applied j then Applied else ApplyNow).
Proof.
  unfold JobDetail. intros H. injection H as <-. cbn [apply close_job].
  destruct (ToBoolean (isExpired j now)), user as [uid|]; cbn [negb andb isCreator];
    try destruct (uid =? creator_id j); cbn [negb andb ApplyJobDialog];
    repeat split; auto; try discriminate;
    intros a E; injection E as <-; reflexivity.
Qed.

Lemma detail_controls_witness :
  apply {| badge := "Open"; expiry_line := Some "Expires on"%string;
           apply := Some ApplyNow; close_job := false |} = None
  \/ close_job {| badge := "Open"; expiry_line := Some "Expires on"%string;
                  apply := Some ApplyNow; close_job := false |} = false.
Proof.
  exact (proj1 (detail_controls sample_job (Some 2) 1700000000000 _ eq_refl)).
Defined.

(** ** Jobs: what [handleApply] does to the store and to the dialog *)

Lemma caught_no_success (err : pg_error) (m : jsstring) :
  ~ In (ToastSuccess m) (caught err).
Proof. intros [H|[H|[]]]; discriminate H. Qed.

(** [handleApply] in full: either nothing is inserted and no success is
    reported, or the user is logged in, the stored job is open and not
    expired, the pair had no application, and exactly one row of the pair
    is appended with the success toast. *)
Lemma handleApply_cases (e : env) (user : option Z) (j : job) (u : dialog)
    (s : store) :
  (snd (handleApply e user j u s) = s
   /\ (forall m, ~ In (ToastSuccess m) (snd (fst (handleApply e user j u s))))
   /\ draft (fst (fst (handleApply e user j u s))) = draft u
   /\ (user = None \/ loading (fst (fst (handleApply e user j u s))) = false))
  \/ (exists uid jd,
        user = Some uid
        /\ select_job e (id j) s = inr jd
        /\ status jd = lit "open"
        /\ (forall t, expires_at jd = Some t -> now e <= t)
        /\ insert_fault e = None
        /\ (forall b, In b (job_applications s) -> ~ applied j uid b)
        /\ handleApply e user j u s =
             ({| open := false; loading := false; draft := [] |}, submitted,
              {| jobs := jobs s;
                 job_applications :=
                   job_applications s
                   ++ [{| job_id := id j; applicant_id := uid;
                          message := match trim (draft u) with
                                     | [] => None
                                     | m => Some m
                                     end |}] |})).
Proof.
  unfold handleApply.
  destruct user as [uid|].
  2:{ left. cbn. repeat split; auto. intros m [H|[]]; discriminate H. }
  destruct (select_job e (id j) s) as [err|jd] eqn:Sj.
  { left. cbn. repeat split; auto. apply caught_no_success. }
  destruct (str_eqb (status jd) (lit "open")) eqn:St; cbn [negb].
  2:{ left. cbn. repeat split; auto. intros m [H|[H|[]]]; discriminate H. }
  destruct (ToBoolean (and_then (expires_at jd) (fun t => JBool (t <? now e))))
    eqn:Ex.
  { left. cbn. repeat split; auto. intros m [H|[H|[]]]; discriminate H. }
  unfold insert_application.
  destruct (insert_fault e) as [err|] eqn:F.
  { left. destruct (str_eqb (code err) (lit "23505")); cbn; repeat split; auto.
    - intros m [H|[]]; discriminate H.
    - apply caught_no_success. }
  destruct (existsb _ (job_applications s)) eqn:X.
  { left. cbn. repeat split; auto. intros m [H|[]]; discriminate H. }
  right. exists uid, jd. apply str_eqb_eq in St.
  repeat split; auto.
  - intros t Et. rewrite Et in Ex. cbn in Ex.
    destruct (Z.ltb_spec t (now e)); [discriminate Ex|assumption].
  - intros b Hb [Bj Bu].
    assert (Y : existsb (same_pair {| job_id := id j; applicant_id := uid;
                                      message := match trim (draft u) with
                                                 | [] => None
                                                 | m => Some m
                                                 end |})
                  (job_applications s) = true).
    { apply JobsFacts.same_pair_found. exists b. auto. }
    congruence.
Qed.

(** X13. What [handleApply] can do to the store: the jobs are never
    touched, and the applications are either left as they are, with no
    success reported, or extended by exactly one row, of the user logged
    in and of the job shown, with the success toast and the call of
    [onApplied]; the latter only if the job as stored is open and not
    expired and the user had no application to it. *)
Theorem handleApply_store (e : env) (user : option Z) (j : job) (u : dialog)
    (s : store) :
  let r := handleApply e user j u s in
  jobs (snd r) = jobs s
  /\ (job_applications (snd r) = job_applications s
      /\ (forall m, ~ In (ToastSuccess m) (snd (fst r)))
      \/ exists uid jd row,
           user = Some uid
           /\ select_job e (id j) s = inr jd
           /\ status jd = lit "open"
           /\ (forall t, expires_at jd = Some t -> now e <= t)
           /\ (forall b, In b (job_applications s) -> ~ applied j uid b)
           /\ applied j uid row
           /\ job_applications (snd r) = job_applications s ++ [row]
           /\ snd (fst r) = submitted).
Proof.
  cbv zeta.
  destruct (handleApply_cases e user j u s)
    as [(E & N & _)|(uid & jd & U & Sj & St & Ex & _ & No & E)].
  - rewrite E. split; [reflexivity|]. left. split; [reflexivity|exact N].
  - rewrite E. cbn [snd fst jobs job_applications]. split; [reflexivity|].
    right. eexists uid, jd, _. repeat split; eauto.
Qed.

Lemma handleApply_store_witness :
  jobs (snd (handleApply sample_env (Some 2) sample_job sample_dialog sample_store))
  = jobs sample_store.
Proof.
  exact (proj1 (handleApply_store sample_env (Some 2) sample_job sample_dialog
                  sample_store)).
Defined.

(** X14. What [handleApply] does to the dialog. The text typed is
    cleared only by a submitted application and kept on every other path;
    after every run for a logged-in user the submit button is enabled
    again ([loading] is false); and [onApplied] is called only on paths
    that close the dialog. *)
Theorem handleApply_dialog (e : env) (user : option Z) (j : job) (u : dialog)
    (s : store) :
  let r := handleApply e user j u s in
  let u' := fst (fst r) in
  (snd (fst r) = submitted /\ u' = {| open := false; loading := false; draft := [] |}
   \/ snd (fst r) <> submitted /\ draft u' = draft u)
  /\ (user = None \/ loading u' = false)
  /\ (In OnApplied (snd (fst r)) -> open u' = false)
  /\ (~ In OnApplied (snd (fst r)) -> open u' = open u).
Proof.
  cbv zeta.
  destruct (handleApply_cases e user j u s)
    as [(_ & N & D & L)|(uid & jd & U & _ & _ & _ & _ & _ & E)].
  - split; [|split; [exact L|]].
    + right. split; [|exact D]. intros X. apply (N (lit "Application submitted successfully!")).
      rewrite X. left. reflexivity.
    + clear N D L. unfold handleApply.
      destruct user as [uid|].
      2:{ cbn. split; [intros [H|[]]; discriminate H|auto]. }
      destruct (select_job e (id j) s) as [err|jd].
      { cbn. split; [intros [H|[H|[]]]; discriminate H|auto]. }
      destruct (str_eqb (status jd) (lit "open")); cbn [negb].
      2:{ cbn. split; [reflexivity|]. intros X. exfalso. apply X. auto. }
      destruct (ToBoolean (and_then (expires_at jd) (fun t => JBool (t <? now e)))).
      { cbn. split; [reflexivity|]. intros X. exfalso. apply X. auto. }
      unfold insert_application.
      destruct (insert_fault e) as [err|].
      { destruct (str_eqb (code err) (lit "23505")); cbn; (split; [|auto]).
        - intros [H|[]]; discriminate H.
        - intros [H|[H|[]]]; discriminate H. }
      destruct (existsb _ (job_applications s)).
      * cbn. split; [intros [H|[]]; discriminate H|auto].
      * cbn. split; [reflexivity|]. intros X. exfalso. apply X. auto.
  - rewrite E. cbn [fst snd open loading]. split; [left; auto|].
    split; [right; reflexivity|]. split; [reflexivity|].
    intros X. exfalso. apply X. right. left. reflexivity.
Qed.

Lemma handleApply_dialog_witness :
  snd (fst (handleApply sample_env (Some 2) sample_job sample_dialog sample_store))
    = submitted
  /\ fst (fst (handleApply sample_env (Some 2) sample_job sample_dialog sample_store))
     = {| open := false; loading := false; draft := [] |}
  \/ snd (fst (handleApply sample_env (Some 2) sample_job sample_dialog sample_store))
       <> submitted
     /\ draft (fst (fst (handleApply sample_env (Some 2) sample_job sample_dialog
                           sample_store))) = draft sample_dialog.
Proof.
  exact (proj1 (handleApply_dialog sample_env (Some 2) sample_job sample_dialog
                  sample_store)).
Defined.

(** *** The message as it is stored *)

Lemma trim_start_split (s : jsstring) :
  exists pre, s = pre ++ trim_start s /\ blank pre.
Proof.
  induction s as [|c s (pre & E & B)].
  - exists []. split; reflexivity.
  - cbn [trim_start]. destruct (is_space c) eqn:C.
    + exists (c :: pre). split; [cbn; congruence|].
      unfold blank in *. cbn. rewrite C. exact B.
    + exists []. split; reflexivity.
Qed.

Lemma trim_start_head (s : jsstring) (c : Z) (t : jsstring) :
  trim_start s = c :: t -> is_space c = false.
Proof.
  induction s as [|x s IH]; [discriminate|]. cbn [trim_start].
  destruct (is_space x) eqn:X; [exact IH|].
  intros E. injection E as <- _. exact X.
Qed.

Lemma trim_start_blank (s : jsstring) : blank s -> trim_start s = [].
Proof.
  unfold blank. induction s as [|c s IH]; [reflexivity|]. cbn.
  destruct (is_space c); [exact IH|discriminate].
Qed.

Lemma blank_app (a b : jsstring) : blank a -> blank b -> blank (a ++ b).
Proof. unfold blank. intros A B. rewrite forallb_app, A, B. reflexivity. Qed.

Lemma blank_rev (a : jsstring) : blank a -> blank (rev a).
Proof.
  unfold blank. rewrite !forallb_forall. intros A x Hx.
  apply A. apply in_rev. assumption.
Qed.

(** [trim] removes a blank prefix and a blank suffix, and what is left
    neither starts nor ends with white space. *)
Lemma trim_split (s : jsstring) :
  exists pre post,
    s = pre ++ trim s ++ post /\ blank pre /\ blank post
    /\ (forall c t, trim s = c :: t -> is_space c = false)
    /\ (forall t c, trim s = t ++ [c] -> is_space c = false).
Proof.
  unfold trim.
  destruct (trim_start_split s) as (pre & E1 & B1).
  destruct (trim_start_split (rev (trim_start s))) as (post & E2 & B2).
  set (a := trim_start s) in *. set (b := trim_start (rev a)) in *.
  assert (Ea : a = rev b ++ rev post).
  { rewrite <- rev_app_distr, <- E2, rev_involutive. reflexivity. }
  exists pre, (rev post). split; [rewrite <- Ea; exact E1|].
  split; [exact B1|]. split; [apply blank_rev; exact B2|]. split.
  - intros c t H.
    apply (trim_start_head s c (t ++ rev post)).
    fold a. rewrite Ea, H. reflexivity.
  - intros t c H.
    assert (Hb : b = c :: rev t).
    { rewrite <- (rev_involutive b), H, rev_app_distr. reflexivity. }
    exact (trim_start_head _ _ _ Hb).
Qed.

Lemma trim_blank (s : jsstring) : trim s = [] <-> blank s.
Proof.
  split.
  - intros T. destruct (trim_split s) as (pre & post & E & B1 & B2 & _).
    rewrite T in E. rewrite E. apply blank_app; assumption.
  - intros B. unfold trim. rewrite (trim_start_blank s B). reflexivity.
Qed.

(** X15. The message of a submitted application is the text typed with
    the white space at its two ends removed, and [null] when nothing else
    was typed: the row that [handleApply] appends has no message exactly
    when the text is blank, and otherwise a message that is not empty,
    neither starts nor ends with white space, and is the text up to a
    blank prefix and a blank suffix. *)
Theorem application_message_trimmed (e : env) (user : option Z) (j : job)
    (u : dialog) (s : store) (row : application) :
  job_applications (snd (handleApply e user j u s)) = job_applications s ++ [row] ->
  match message row with
  | None => blank (draft u)
  | Some m =>
      m <> [] /\ ~ blank (draft u)
      /\ (exists pre post, draft u = pre ++ m ++ post /\ blank pre /\ blank post)
      /\ (forall c t, m = c :: t -> is_space c = false)
      /\ (forall t c, m = t ++ [c] -> is_space c = false)
  end.
Proof.
  intros H.
  destruct (handleApply_cases e user j u s)
    as [(E & _)|(uid & jd & _ & _ & _ & _ & _ & _ & E)]; rewrite E in H.
  - exfalso. apply (f_equal (@length _)) in H. rewrite length_app in H.
    cbn in H. lia.
  - cbn [snd job_applications] in H. apply app_inv_head in H.
    injection H as <-. cbn [message].
    destruct (trim_split (draft u)) as (pre & post & S & B1 & B2 & Hh & Hl).
    pose proof (trim_blank (draft u)) as TB.
    destruct (trim (draft u)) as [|c m] eqn:T.
    + apply TB. reflexivity.
    + split; [discriminate|]. split.
      { intros B. apply TB in B. discriminate B. }
      split; [exists pre, post; auto|]. split; assumption.
Qed.

Lemma application_message_trimmed_witness :
  match message {| job_id := 10; applicant_id := 2;
                   message := Some (lit "I am interested") |} with
  | None => blank (draft sample_dialog)
  | Some m =>
      m <> [] /\ ~ blank (draft sample_dialog)
      /\ (exists pre post, draft sample_dialog = pre ++ m ++ post
                           /\ blank pre /\ blank post)
      /\ (forall c t, m = c :: t -> is_space c = false)
      /\ (forall t c, m = t ++ [c] -> is_space c = false)
  end.
Proof.
  apply (application_message_trimmed sample_env (Some 2) sample_job
           sample_dialog sample_store).
  vm_compute. reflexivity.
Defined.

(** ** Jobs: the page and the dialog together *)

(** X16. The cap on applications is looked at by the page only. For a
    job that is stored open and unexpired but has reached its cap, the
    detail page shows "Offer Ended" and renders no apply dialog, whoever
    looks; yet a dialog that is still open from before submits
    successfully: [handleApply] checks the status and the expiry of the
    stored job, not the cap, and the application is inserted. *)
Theorem full_job_accepts (e : env) (uid : Z) (j jd : job) (u : dialog)
    (s : store) (mx n : Z) :
  select_job e (id j) s = inr jd ->
  status jd = lit "open" ->
  (forall t, expires_at jd = Some t -> now e <= t) ->
  max_applications jd = Some mx -> application_count jd = Some n ->
  0 < mx <= n ->
  insert_fault e = None ->
  (forall b, In b (job_applications s) -> ~ applied j uid b) ->
  (forall viewer, exists v,
      JobDetail false (Some jd) viewer (now e) = Detail v
      /\ badge v = "Offer Ended"%string /\ apply v = None)
  /\ snd (fst (handleApply e (Some uid) j u s)) = submitted
  /\ exists row,
       applied j uid row
       /\ job_applications (snd (handleApply e (Some uid) j u s))
          = job_applications s ++ [row].
Proof.
  intros Sj St Ex Mx Cn Cap F No. split.
  - intros viewer.
    assert (X : ToBoolean (isExpired jd (now e)) = true).
    { rewrite isExpired_bool, Mx, Cn.
      destruct (Z.eqb_spec mx 0); [lia|]. destruct (Z.eqb_spec n 0); [lia|].
      destruct (Z.leb_spec mx n); [|lia]. cbn [negb andb].
      apply orb_true_r. }
    unfold JobDetail. rewrite X. eexists. split; [reflexivity|].
    split; reflexivity.
  - rewrite (JobsFacts.handleApply_insert e uid j jd u s Sj St Ex). cbv zeta.
    unfold insert_application. rewrite F.
    match goal with |- context [existsb ?p ?l] =>
      replace (existsb p l) with false end.
    2:{ symmetry. apply not_true_is_false. intros X.
        apply JobsFacts.same_pair_found in X as (b & Hb & Bj & Bu).
        apply (No b Hb). split; assumption. }
    cbn [fst snd job_applications]. split; [reflexivity|].
    eexists. split; [|reflexivity]. split; reflexivity.
Qed.

Lemma full_job_accepts_witness :
  let full := {| id := 10; creator_id := 1; status := lit "open";
                 expires_at := Some 1700000600000;
                 max_applications := Some 2; application_count := Some 2;
                 has_applied := false |} in
  let s := {| jobs := [full]; job_applications := [] |} in
  (forall viewer, exists v,
      JobDetail false (Some full) viewer (now sample_env) = Detail v
      /\ badge v = "Offer Ended"%string /\ apply v = None)
  /\ snd (fst (handleApply sample_env (Some 2) full sample_dialog s)) = submitted
  /\ exists row,
       applied full 2 row
       /\ job_applications (snd (handleApply sample_env (Some 2) full sample_dialog s))
          = job_applications s ++ [row].
Proof.
  cbv zeta.
  apply (full_job_accepts sample_env 2 _ _ sample_dialog _ 2 2);
    try reflexivity.
  - intros t E. injection E as <-. vm_compute. discriminate.
  - lia.
  - intros b [].
Defined.

(** ** Jobs: closing a job *)

Lemma closed_rows_status (i : Z) (s : store) (jd : job) :
  In jd (jobs (close_rows i s)) -> id jd = i -> status jd = lit "closed".
Proof.
  unfold close_rows. cbn [jobs]. intros H E.
  apply in_map_iff in H as (x & <- & _).
  destruct (Z.eqb_spec (id x) i) as [_|N]; [reflexivity|contradiction].
Qed.

Lemma select_job_found (e : env) (i : Z) (s : store) (jd : job) :
  select_job e i s = inr jd -> In jd (jobs s) /\ id jd = i.
Proof.
  unfold select_job. destruct (select_fault e); [discriminate|].
  destruct (filter _ (jobs s)) as [|x [|y l]] eqn:F; try discriminate.
  intros E. injection E as <-.
  assert (I : In x (filter (fun j => id j =? i) (jobs s)))
    by (rewrite F; left; reflexivity).
  apply filter_In in I as [I X]. apply Z.eqb_eq in X. auto.
Qed.

(** X17. Once [handleCloseJob] has gone through, the job takes no
    application: on the store it leaves, [handleApply] for that job
    inserts nothing and reports no success, for every user, dialog, clock
    and behaviour of the store; the detail page of the job as stored
    shows "Offer Ended" with neither the apply dialog nor the close
    button, whoever looks and whenever. The other jobs and all the
    applications are as before. *)
Theorem closed_job_takes_no_application (j : job) (s : store) :
  let s' := snd (handleCloseJob None j s) in
  (forall (e : env) (user : option Z) (u : dialog),
      snd (handleApply e user j u s') = s'
      /\ forall m, ~ In (ToastSuccess m) (snd (fst (handleApply e user j u s'))))
  /\ (forall jd, In jd (jobs s') -> id jd = id j ->
        forall (viewer : option Z) (t : Z),
          JobDetail false (Some jd) viewer t =
            Detail {| badge := "Offer Ended";
                      expiry_line :=
                        match expires_at jd with
                        | Some x => Some (if x <? t then "Expired on"%string
                                          else "Expires on"%string)
                        | None => None
                        end;
                      apply := None;
                      close_job := false |})
  /\ (forall jd, In jd (jobs s) -> id jd <> id j -> In jd (jobs s'))
  /\ job_applications s' = job_applications s.
Proof.
  cbv zeta. cbn [handleCloseJob snd]. split; [|split; [|split]].
  - intros e user u.
    destruct (handleApply_cases e user j u (close_rows (id j) s))
      as [(E & N & _)|(uid & jd & _ & Sj & St & _)]; [auto|].
    exfalso. apply select_job_found in Sj as [I Ei].
    rewrite (closed_rows_status _ _ _ I Ei) in St. vm_compute in St.
    discriminate St.
  - intros jd I Ei viewer t.
    pose proof (closed_rows_status _ _ _ I Ei) as C.
    unfold JobDetail, isExpired. rewrite C, str_eqb_refl.
    cbn [js_or ToBoolean negb andb]. rewrite andb_false_r. reflexivity.
  - intros jd I N. unfold close_rows. cbn [jobs]. apply in_map_iff.
    exists jd. split; [|assumption].
    destruct (Z.eqb_spec (id jd) (id j)); [contradiction|reflexivity].
  - reflexivity.
Qed.

Lemma closed_job_takes_no_application_witness :
  job_applications (snd (handleCloseJob None sample_job sample_store))
  = job_applications sample_store.
Proof.
  exact (proj2 (proj2 (proj2 (closed_job_takes_no_application sample_job
                                sample_store)))).
Defined.
End JobPageFacts.

(** ** The password-reset wizard *)

Module ForgotPasswordFacts.
Import ForgotPassword.

(** *** The strength meter *)

Lemma existsb_incl {A} (f : A -> bool) (p q : list A) :
  incl p q -> existsb f p = true -> existsb f q = true.
Proof.
  intros I H. apply existsb_exists in H as (x & Hx & Fx).
  apply existsb_exists. exists x. split; [apply I; exact Hx|exact Fx].
Qed.

Lemma strength_level (pwd : jsstring) :
  strength (getPasswordStrength pwd) = level_of (passedChecks (getPasswordStrength pwd)).
Proof.
  unfold getPasswordStrength, level_of. cbn [strength passedChecks].
  set (n := Z.of_nat _).
  destruct (5 <=? n); [reflexivity|].
  destruct (4 <=? n); [reflexivity|].
  destruct (3 <=? n); reflexivity.
Qed.

Lemma level_of_mono (a b : Z) : a <= b -> rank (level_of a) <= rank (level_of b).
Proof.
  intros H. unfold level_of.
  destruct (Z.leb_spec 5 a), (Z.leb_spec 5 b), (Z.leb_spec 4 a), (Z.leb_spec 4 b),
    (Z.leb_spec 3 a), (Z.leb_spec 3 b); cbn; lia.
Qed.

Lemma passed_range (c : checks_of) :
  0 <= Z.of_nat (length (filter (fun b : bool => b) (values c))) <= 5.
Proof.
  destruct c as [[] [] [] [] []]; cbn; lia.
Qed.

Lemma passed_le (a1 a2 a3 a4 a5 b1 b2 b3 b4 b5 : bool) :
  (a1 = true -> b1 = true) -> (a2 = true -> b2 = true) ->
  (a3 = true -> b3 = true) -> (a4 = true -> b4 = true) ->
  (a5 = true -> b5 = true) ->
  Z.of_nat (length (filter (fun b : bool => b) [a1; a2; a3; a4; a5]))
  <= Z.of_nat (length (filter (fun b : bool => b) [b1; b2; b3; b4; b5])).
Proof.
  intros H1 H2 H3 H4 H5.
  destruct a1; [rewrite (H1 eq_refl)|destruct b1];
    (destruct a2; [rewrite (H2 eq_refl)|destruct b2]);
    (destruct a3; [rewrite (H3 eq_refl)|destruct b3]);
    (destruct a4; [rewrite (H4 eq_refl)|destruct b4]);
    (destruct a5; [rewrite (H5 eq_refl)|destruct b5]);
    cbn; lia.
Qed.

(** X18. Typing more never lowers the meter: when a password has all
    the characters of another and is at least as long (in particular when
    characters are added to it, anywhere), it passes at least as many
    checks and its strength is at least as high. *)
Theorem strength_never_drops (p q : jsstring) :
  incl p q -> (length p <= length q)%nat ->
  passedChecks (getPasswordStrength p) <= passedChecks (getPasswordStrength q)
  /\ rank (strength (getPasswordStrength p))
     <= rank (strength (getPasswordStrength q)).
Proof.
  intros I L.
  assert (P : passedChecks (getPasswordStrength p)
              <= passedChecks (getPasswordStrength q)).
  { unfold getPasswordStrength. cbn [passedChecks values minLength hasUppercase
                                     hasLowercase hasNumber hasSpecial].
    apply passed_le; try (apply existsb_incl; exact I).
    intros H. apply Nat.leb_le in H. apply Nat.leb_le. lia. }
  split; [exact P|]. rewrite !strength_level. apply level_of_mono. exact P.
Qed.

Lemma strength_never_drops_witness :
  passedChecks (getPasswordStrength (lit "abc"))
  <= passedChecks (getPasswordStrength (lit "abc" ++ lit "D1"))
  /\ rank (strength (getPasswordStrength (lit "abc")))
     <= rank (strength (getPasswordStrength (lit "abc" ++ lit "D1"))).
Proof.
  apply strength_never_drops.
  - apply incl_appl. apply incl_refl.
  - vm_compute. lia.
Defined.

Lemma in_range_exists (lo hi : Z) (s : jsstring) :
  existsb (in_range lo hi) s = true <-> exists c, In c s /\ lo <= c <= hi.
Proof.
  rewrite existsb_exists. unfold in_range.
  split; intros (c & I & H); exists c; (split; [exact I|]).
  - apply andb_true_iff in H. rewrite !Z.leb_le in H. exact H.
  - apply andb_true_iff. rewrite !Z.leb_le. exact H.
Qed.

Lemma is_special_exists (s : jsstring) :
  existsb is_special s = true <-> exists c, In c s /\ In c special_characters.
Proof.
  rewrite existsb_exists. unfold is_special.
  split; intros (c & I & H); exists c; (split; [exact I|]).
  - apply existsb_exists in H as (x & Hx & E). apply Z.eqb_eq in E.
    subst x. exact Hx.
  - apply existsb_exists. exists c. split; [exact H|apply Z.eqb_refl].
Qed.

(** X19. A password is rated [strong] exactly when it passes all five
    checks: six code units or more, and at least one upper-case letter of
    A-Z, one lower-case letter of a-z, one digit and one of the listed
    special characters. *)
Theorem strong_password (pwd : jsstring) :
  strength (getPasswordStrength pwd) = strong <->
    (6 <= length pwd)%nat
    /\ (exists c, In c pwd /\ 65 <= c <= 90)
    /\ (exists c, In c pwd /\ 97 <= c <= 122)
    /\ (exists c, In c pwd /\ 48 <= c <= 57)
    /\ (exists c, In c pwd /\ In c special_characters).
Proof.
  rewrite <- !in_range_exists, <- is_special_exists, <- Nat.leb_le.
  rewrite strength_level. unfold getPasswordStrength, level_of.
  cbn [passedChecks values minLength hasUppercase hasLowercase hasNumber hasSpecial].
  destruct (6 <=? length pwd)%nat, (existsb (in_range 65 90) pwd),
    (existsb (in_range 97 122) pwd), (existsb (in_range 48 57) pwd),
    (existsb is_special pwd); cbn; split; intros H;
    try discriminate H; try (repeat split; reflexivity);
    try (destruct H as (H1 & H2 & H3 & H4 & H5); discriminate).
Qed.

Lemma strong_password_witness :
  strength (getPasswordStrength (lit "Secret#1")) = strong.
Proof.
  apply (proj2 (strong_password (lit "Secret#1"))).
  split; [vm_compute; lia|].
  split; [exists 83; split; [vm_compute; tauto|lia]|].
  split; [exists 101; split; [vm_compute; tauto|lia]|].
  split; [exists 49; split; [vm_compute; tauto|lia]|].
  exists 35. split; vm_compute; tauto.
Defined.

(** X20. The meter is not the rule. A password rated [strong] always
    passes the schema that [handleResetPassword] applies; but a password
    rated [good] can be refused by it (five characters of four kinds),
    and a password that passes it can be rated [weak] (six letters of one
    case). *)
Theorem meter_and_minimum :
  (forall pwd, strength (getPasswordStrength pwd) = strong ->
               passwordSchema pwd = None)
  /\ (exists pwd, strength (getPasswordStrength pwd) = good
                  /\ passwordSchema pwd <> None)
  /\ (exists pwd, passwordSchema pwd = None
                  /\ strength (getPasswordStrength pwd) = weak).
Proof.
  split; [|split].
  - intros pwd H.
    assert (M : (6 <=? length pwd)%nat = true).
    { rewrite strength_level in H. unfold getPasswordStrength, level_of in H.
      cbn [passedChecks values minLength hasUppercase hasLowercase hasNumber
           hasSpecial] in H.
      destruct (6 <=? length pwd)%nat; [reflexivity|].
      destruct (existsb (in_range 65 90) pwd), (existsb (in_range 97 122) pwd),
        (existsb (in_range 48 57) pwd), (existsb is_special pwd);
        discriminate H. }
    unfold passwordSchema. apply Nat.leb_le in M.
    destruct (Nat.ltb_spec (length pwd) 6); [lia|reflexivity].
  - exists (lit "aB1!x"). split; [reflexivity|discriminate].
  - exists (lit "aaaaaa"). split; reflexivity.
Qed.

Lemma meter_and_minimum_witness : passwordSchema (lit "Secret#1") = None.
Proof. exact (proj1 meter_and_minimum (lit "Secret#1") eq_refl). Defined.

Lemma percentage_of (n : Z) :
  0 <= n <= 5 ->
  Float64.mul_int (Float64Ops.div_int (Float64.of_int n) 5) 100
  = Float64.of_int (20 * n).
Proof.
  intros H.
  assert (C : n = 0 \/ n = 1 \/ n = 2 \/ n = 3 \/ n = 4 \/ n = 5) by lia.
  destruct C as [-> | [-> | [-> | [-> | [-> | ->]]]]]; vm_compute; reflexivity.
Qed.

(** X21. The width of the meter is exact: computed in binary64 as the
    number of checks passed divided by 5 and multiplied by 100, the
    percentage is exactly 20 times that number (0, 20, 40, 60, 80 or
    100), the two roundings cancelling out. *)
Theorem percentage_exact (pwd : jsstring) :
  0 <= passedChecks (getPasswordStrength pwd) <= 5
  /\ percentage (getPasswordStrength pwd)
     = Float64.of_int (20 * passedChecks (getPasswordStrength pwd)).
Proof.
  unfold getPasswordStrength. cbn [passedChecks percentage].
  split; [apply passed_range|apply percentage_of, passed_range].
Qed.

Lemma percentage_exact_witness :
  percentage (getPasswordStrength (lit "Secret#1")) = Float64.of_int 100.
Proof. exact (proj2 (percentage_exact (lit "Secret#1"))). Defined.

(** *** The mobile number input *)

Lemma replace_non_digits_all (s : jsstring) :
  Forall (fun c => 48 <= c <= 57) (replace_non_digits s).
Proof.
  apply Forall_forall. intros c H. apply filter_In in H as [_ H].
  apply is_digit_spec. exact H.
Qed.

Lemma filter_same {A} (f : A -> bool) (l : list A) :
  filter f l = l <-> forallb f l = true.
Proof.
  induction l as [|x l IH]; [cbn; tauto|]. cbn [filter forallb].
  destruct (f x) eqn:F; cbn [andb].
  - rewrite <- IH. split; [intros E; injection E; auto|congruence].
  - split; [|discriminate]. intros E.
    assert (L : (length (filter f l) <= length l)%nat) by apply filter_length_le.
    apply (f_equal (@length _)) in E. cbn in E. lia.
Qed.

(** X22. What the mobile number field can hold: whatever is typed or
    pasted, the number kept is made of decimal digits only, is what was
    entered exactly when that was all digits, and passes the schema of
    [handleRequestOTP] exactly when it has ten digits. *)
Theorem mobile_input_digits (value : jsstring) (w : wizard) :
  let m := mobileNumber (typeMobileNumber value w) in
  Forall (fun c => 48 <= c <= 57) m
  /\ (m = value <-> Forall (fun c => 48 <= c <= 57) value)
  /\ (phoneSchema m = None <-> length m = 10%nat)
  /\ (length m <= length value)%nat.
Proof.
  cbv zeta. cbn [typeMobileNumber setMobileNumber mobileNumber].
  pose proof (replace_non_digits_all value) as D.
  split; [exact D|]. split; [|split].
  - unfold replace_non_digits. split.
    + intros E. apply filter_same in E. apply Forall_forall. intros c Hc.
      apply is_digit_spec. revert c Hc. apply forallb_forall. exact E.
    + intros F. apply filter_same. apply forallb_forall. intros c Hc.
      apply is_digit_spec. revert c Hc. apply Forall_forall. exact F.
  - unfold phoneSchema.
    assert (T : test_10_digits (replace_non_digits value) = true
                <-> length (replace_non_digits value) = 10%nat).
    { rewrite test_10_digits_spec. unfold decimal_digits. tauto. }
    destruct (Nat.ltb_spec (length (replace_non_digits value)) 1).
    + split; [discriminate|lia].
    + destruct (test_10_digits (replace_non_digits value)); cbn [negb].
      * split; [intros _; apply T; reflexivity|reflexivity].
      * split; [discriminate|]. intros E. apply T in E. discriminate E.
  - apply filter_length_le.
Qed.

Lemma mobile_input_digits_witness :
  phoneSchema (mobileNumber (typeMobileNumber (lit "98765-43210") initial)) = None.
Proof.
  apply (proj2 (proj1 (proj2 (proj2 (mobile_input_digits (lit "98765-43210")
                                       initial))))).
  reflexivity.
Defined.

(** *** The countdown of the resend button *)

Lemma ticks_at_zero (n : nat) :
  forall w, resendCooldown w = 0 ->
    resendCooldown (ticks n w) = 0 /\ intervals (ticks n w) = (intervals w - n)%nat.
Proof.
  induction n as [|n IH]; intros w Z0; cbn [ticks].
  - split; [exact Z0|lia].
  - unfold tick. destruct (intervals w) as [|k] eqn:K.
    + destruct (IH w Z0) as [A B]. rewrite A, B, K. split; reflexivity.
    + rewrite Z0. cbn [Z.leb Z.compare].
      destruct (IH (setResendCooldown 0 k w) eq_refl) as [A B].
      rewrite A, B. cbn [setResendCooldown intervals]. split; [reflexivity|lia].
Qed.

Lemma ticks_running (n : nat) :
  forall w k, 1 <= resendCooldown w -> intervals w = S k ->
    resendCooldown (ticks n w) = Z.max 0 (resendCooldown w - Z.of_nat n)
    /\ intervals (ticks n w)
       = (S k - (n - (Z.to_nat (resendCooldown w) - 1)))%nat.
Proof.
  induction n as [|n IH]; intros w k C K; cbn [ticks].
  - split; [lia|]. rewrite K. lia.
  - unfold tick. rewrite K.
    destruct (Z.leb_spec (resendCooldown w) 1).
    + destruct (ticks_at_zero n (setResendCooldown 0 k w) eq_refl) as [A B].
      rewrite A, B. cbn [setResendCooldown intervals]. split; lia.
    + destruct (IH (setResendCooldown (resendCooldown w - 1) (S k) w) k) as [A B];
        [cbn; lia|reflexivity|].
      rewrite A, B. cbn [setResendCooldown resendCooldown]. split; lia.
Qed.

(** X23. The countdown counts firings, not seconds. After
    [startResendCooldown], [n] firings of the running intervals leave the
    countdown at 60 - n, down to 0; the intervals keep running until the
    countdown is at 1 or below, and from then on each firing clears the
    interval that fired. [startResendCooldown] does not clear an interval
    that is still running: it adds one. So with one interval the button
    is enabled again after 60 seconds, and with an interval left from an
    earlier request (the number was changed and the code requested again)
    after 30. *)
Theorem cooldown_counts_firings (w : wizard) (n : nat) :
  let w' := ticks n (startResendCooldown w) in
  resendCooldown w' = Z.max 0 (60 - Z.of_nat n)
  /\ intervals w' = (S (intervals w) - (n - 59))%nat
  /\ intervals (startResendCooldown w) = S (intervals w).
Proof.
  cbv zeta.
  destruct (ticks_running n (startResendCooldown w) (intervals w)) as [A B];
    [cbn; lia|reflexivity|].
  rewrite A, B. cbn [startResendCooldown setResendCooldown resendCooldown intervals].
  repeat split.
Qed.

Lemma cooldown_counts_firings_witness :
  resendCooldown (ticks 60 (startResendCooldown initial)) = 0
  /\ intervals (ticks 60 (startResendCooldown initial)) = 0%nat
  /\ intervals (startResendCooldown initial) = 1%nat.
Proof. exact (cooldown_counts_firings initial 60). Defined.
End ForgotPasswordFacts.

(** ** The wizard and the edge function together *)

Module WizardFacts.
Import ForgotPassword.

Lemma nonempty_truthy (s : jsstring) : s <> [] -> ToBoolean (JStr s) = true.
Proof. destruct s; [contradiction|reflexivity]. Qed.

(** The requests of the wizard reach the dispatch of a configured
    worker whose client is created. *)
Lemma post_serving (e : env) (a : string) (mob code pw : jsval) :
  configured (getenv e "SUPABASE_URL") = true ->
  configured (getenv e "SUPABASE_SERVICE_ROLE_KEY") = true ->
  client_created e = true ->
  serving e (post a mob code pw).
Proof. intros U K C. split; [reflexivity|]. repeat split; assumption. Qed.

Lemma post_not_configured (e : env) (a : string) (mob code pw : jsval)
    (d : database) :
  configured (getenv e "SUPABASE_URL") = false
  \/ configured (getenv e "SUPABASE_SERVICE_ROLE_KEY") = false ->
  run (handler e (post a mob code pw)) d =
    (Done (error_response 500 "Server not configured"), {| db := d; log := [] |}).
Proof.
  intros H. unfold run, handler. cbn [method post String.eqb Ascii.eqb Bool.eqb].
  destruct H as [-> | ->]; rewrite ?orb_true_r; reflexivity.
Qed.

Lemma post_no_client (e : env) (a : string) (mob code pw : jsval) (d : database) :
  configured (getenv e "SUPABASE_URL") = true ->
  configured (getenv e "SUPABASE_SERVICE_ROLE_KEY") = true ->
  client_created e = false ->
  run (handler e (post a mob code pw)) d =
    (Done (error_response 500 "Internal server error"), {| db := d; log := [] |}).
Proof.
  intros U K C. unfold run, handler.
  cbn [method post String.eqb Ascii.eqb Bool.eqb]. rewrite U, K, C. reflexivity.
Qed.

(** An answer with an [error] makes the wizard throw, however it
    reaches it. *)
Lemma error_thrown (transport : response -> invoke_result) (st : Z) (msg : string) :
  faithful transport ->
  lit msg <> [] ->
  thrown (transport (error_response st msg)) <> None.
Proof.
  intros F N. destruct (transport (error_response st msg)) as [data|m] eqn:T.
  - apply F in T. unfold error_response in T. cbn [payload] in T.
    injection T as <-.
    change (thrown (Returned [("error"%string, JStr (lit msg))]))
      with (if ToBoolean (JStr (lit msg))
            then Some (ToString (JStr (lit msg))) else None).
    rewrite (nonempty_truthy _ N). discriminate.
  - discriminate.
Qed.

Ltac literal := let H := fresh in intros H; vm_compute in H; discriminate H.

(** What [request_otp] answers: 200, or an error with its message. *)
Lemma request_otp_answer (e : env) (v : jsval) (d : database) :
  answered_200 (run (request_otp e v) d)
  \/ exists st msg,
       fst (run (request_otp e v) d) = Done (error_response st msg)
       /\ lit msg <> [].
Proof.
  destruct (test_10_digits (ToString v)) eqn:T.
  - apply test_10_digits_spec in T. rewrite request_otp_run by assumption.
    cbv zeta.
    destruct (fault e 0); [right; eexists _, _; split; [reflexivity|literal]|].
    destruct (single _); [|right; eexists _, _; split; [reflexivity|literal]].
    destruct (valid_time _); [|right; eexists _, _; split; [reflexivity|literal]].
    destruct (fault e 2); [right; eexists _, _; split; [reflexivity|literal]|].
    left. eexists. reflexivity.
  - apply test_10_digits_false in T. rewrite request_otp_rejects by assumption.
    right. eexists _, _. split; [reflexivity|literal].
Qed.

Lemma verify_otp_answer (e : env) (mob code : jsval) (d : database) :
  answered_200 (run (verify_otp e mob code) d)
  \/ exists st msg,
       fst (run (verify_otp e mob code) d) = Done (error_response st msg)
       /\ lit msg <> [].
Proof.
  destruct (ToBoolean mob) eqn:Tm; [destruct (ToBoolean code) eqn:Tc|];
    try (rewrite verify_otp_missing by auto; right; eexists _, _;
         split; [reflexivity|literal]).
  rewrite verify_otp_run by assumption. cbv zeta.
  destruct (if fault e 0 then None else _).
  - left. eexists. reflexivity.
  - right. eexists _, _. split; [reflexivity|literal].
Qed.

Lemma reset_password_answer (e : env) (mob code pw : jsval) (d : database) :
  answered_200 (run (reset_password e mob code pw) d)
  \/ exists st msg,
       fst (run (reset_password e mob code pw) d) = Done (error_response st msg)
       /\ lit msg <> [].
Proof.
  destruct (well_formed_reset_dec mob code pw) as [W|W].
  - rewrite reset_password_run by assumption. cbv zeta.
    destruct (if fault e 0 then None else _);
      [|right; eexists _, _; split; [reflexivity|literal]].
    destruct (fault e 1); [right; eexists _, _; split; [reflexivity|literal]|].
    left. destruct (if fault e 3 then None else _); eexists; reflexivity.
  - right. unfold run, reset_password.
    destruct (ToBoolean mob) eqn:Tm; [|eexists _, _; split; [reflexivity|literal]].
    destruct (ToBoolean code) eqn:Tc; [|eexists _, _; split; [reflexivity|literal]].
    destruct (ToBoolean pw) eqn:Tp; [|eexists _, _; split; [reflexivity|literal]].
    destruct (length_below pw 6) eqn:Lp;
      [eexists _, _; split; [reflexivity|literal]|].
    exfalso. apply W. repeat split; assumption.
Qed.

(** *** What the wizard sends passes the validation of the fields *)

(** X24. The checks of the wizard imply those of the edge function.
    Whatever a handler of the wizard sends to a worker that is configured
    and whose [createClient] returns a client (when it throws, the answer
    is the 500 of the catch-all and the store is not called) is not turned
    away on its fields: the number that [handleRequestOTP] sends is
    a string of ten digits, and with a number in the state, the code that
    [handleVerifyOTP] sends and the code and password that
    [handleResetPassword] sends are present and the password has six
    characters or more, so that in each case the function goes on to the
    store. *)
Theorem wizard_requests_pass_validation (reply : invoke_result) (w : wizard)
    (req : request) (e : env) (d : database) :
  serving e req ->
  (sent (handleRequestOTP reply w) = Some req ->
     req = post "request_otp" (JStr (mobileNumber w)) JUndefined JUndefined
     /\ decimal_digits 10 (mobileNumber w)
     /\ passes_validation e req d)
  /\ (mobileNumber w <> [] ->
      sent (handleVerifyOTP reply w) = Some req ->
      req = post "verify_otp" (JStr (mobileNumber w)) (JStr (otp w)) JUndefined
      /\ length (otp w) = 6%nat
      /\ passes_validation e req d)
  /\ (mobileNumber w <> [] ->
      sent (handleResetPassword reply w) = Some req ->
      req = post "reset_password" (JStr (mobileNumber w)) (JStr (otp w))
              (JStr (newPassword w))
      /\ newPassword w = confirmPassword w
      /\ (6 <= length (newPassword w))%nat
      /\ (otp w <> [] -> passes_validation e req d)).
Proof.
  intros Sv. unfold passes_validation. split; [|split].
  - unfold handleRequestOTP, phoneSchema.
    destruct (Nat.ltb_spec (length (mobileNumber w)) 1) as [_|_]; [discriminate|].
    destruct (test_10_digits (mobileNumber w)) eqn:T; [|discriminate].
    cbn [negb]. apply test_10_digits_spec in T.
    cbv zeta. intros H.
    assert (R : req = post "request_otp" (JStr (mobileNumber w)) JUndefined JUndefined).
    { destruct (thrown reply); cbn [sent snd app] in H; injection H as <-;
        reflexivity. }
    clear H. subst req.
    split; [reflexivity|]. split; [exact T|].
    rewrite handler_request_otp by exact Sv.
    rewrite (request_otp_run e (JStr (mobileNumber w)) d T). cbv zeta.
    destruct (fault e 0); [discriminate|].
    destruct (single _); [|discriminate].
    destruct (valid_time _); [|discriminate].
    destruct (fault e 2); discriminate.
  - intros M. unfold handleVerifyOTP.
    destruct (Nat.eqb_spec (length (otp w)) 6) as [L|L]; [|discriminate].
    cbn [negb]. cbv zeta.
    intros H.
    assert (R : req = post "verify_otp" (JStr (mobileNumber w)) (JStr (otp w))
                        JUndefined).
    { destruct (thrown reply); cbn [sent snd] in H; injection H as <-;
        reflexivity. }
    clear H. subst req. split; [reflexivity|]. split; [exact L|].
    rewrite handler_verify_otp by exact Sv.
    rewrite verify_otp_run.
    + cbv zeta. destruct (if fault e 0 then None else _); discriminate.
    + apply nonempty_truthy. exact M.
    + apply nonempty_truthy. intros X. rewrite X in L. discriminate L.
  - intros M. unfold handleResetPassword, passwordSchema.
    destruct (Nat.ltb_spec (length (newPassword w)) 6) as [L|L]; [discriminate|].
    destruct (str_eqb (newPassword w) (confirmPassword w)) eqn:Q; [|discriminate].
    cbn [negb app length Nat.ltb Nat.leb]. cbv zeta. intros H.
    assert (R : req = post "reset_password" (JStr (mobileNumber w)) (JStr (otp w))
                        (JStr (newPassword w))).
    { destruct (thrown reply); cbn [sent snd] in H; injection H as <-;
        reflexivity. }
    clear H. subst req. split; [reflexivity|].
    split; [apply str_eqb_eq; exact Q|]. split; [exact L|].
    intros O. rewrite handler_reset_password by exact Sv.
    rewrite reset_password_run.
    + cbv zeta. destruct (if fault e 0 then None else _); [|discriminate].
      destruct (fault e 1); [discriminate|].
      destruct (if fault e 3 then None else _); discriminate.
    + repeat split; try (apply nonempty_truthy; assumption).
      * apply nonempty_truthy. intros X. rewrite X in L. cbn in L. lia.
      * cbn [length_below]. destruct (Nat.ltb_spec (length (newPassword w)) 6);
          [lia|reflexivity].
Qed.

Lemma wizard_requests_pass_validation_witness :
  post "request_otp" (JStr (lit "9876543210")) JUndefined JUndefined
  = post "request_otp" (JStr (mobileNumber (sample_wizard StepMobile)))
      JUndefined JUndefined
  /\ decimal_digits 10 (mobileNumber (sample_wizard StepMobile))
  /\ passes_validation sample_env
       (post "request_otp" (JStr (lit "9876543210")) JUndefined JUndefined)
       sample_db.
Proof.
  apply (proj1 (wizard_requests_pass_validation (Failed [])
                  (sample_wizard StepMobile)
                  (post "request_otp" (JStr (lit "9876543210")) JUndefined JUndefined)
                  sample_env sample_db
                  (post_serving sample_env _ _ _ _ eq_refl eq_refl eq_refl))).
  reflexivity.
Defined.

(** *** The wizard moves on only when the function said yes *)

Lemma handler_on_post (e : env) (a : string) (mob code pw : jsval) (d : database) :
  serving e (post a mob code pw)
  \/ exists msg,
       lit msg <> []
       /\ run (handler e (post a mob code pw)) d =
            (Done (error_response 500 msg), {| db := d; log := [] |}).
Proof.
  destruct (configured (getenv e "SUPABASE_URL")) eqn:U;
    [destruct (configured (getenv e "SUPABASE_SERVICE_ROLE_KEY")) eqn:K;
     [destruct (client_created e) eqn:C|]|].
  - left. apply post_serving; assumption.
  - right. eexists. split; [|apply post_no_client; assumption]. literal.
  - right. eexists. split; [|apply post_not_configured; auto]. literal.
  - right. eexists. split; [|apply post_not_configured; auto]. literal.
Qed.

(** X25. The wizard shows its last step only when the password has
    been changed. Let the request of [handleResetPassword] be served by the
    edge function and the answer be handed back to the wizard, by any
    means that does not alter a body. If the wizard moves to the step
    [success], then the function answered 200 on a row of the OTP table
    that was valid for the number and the code of the wizard, the two
    passwords typed were equal and of six characters or more, and the
    accounts of the number now hold the hash of that password. *)
Theorem success_means_password_changed
    (transport : response -> invoke_result) (e : env) (d : database)
    (w : wizard) (resp : response) :
  faithful transport ->
  let req := post "reset_password" (JStr (mobileNumber w)) (JStr (otp w))
               (JStr (newPassword w)) in
  fst (run (handler e req) d) = Done resp ->
  step w <> StepSuccess ->
  step (fst (handleResetPassword (transport resp) w)) = StepSuccess ->
  sent (handleResetPassword (transport resp) w) = Some req
  /\ answered_200 (run (handler e req) d)
  /\ newPassword w = confirmPassword w
  /\ (6 <= length (newPassword w))%nat
  /\ credentials (db (snd (run (handler e req) d)))
     = with_password (mobileNumber w) (hashPassword (newPassword w))
         (now_update e) (credentials d)
  /\ exists row,
       In row (otps d)
       /\ otp_valid (mobileNumber w) (otp w) (now e) row = true.
Proof.
  intros F. cbv zeta. intros R N S.
  unfold handleResetPassword, passwordSchema in S |- *.
  destruct (Nat.ltb_spec (length (newPassword w)) 6) as [L|L];
    [cbn in S; contradiction|].
  destruct (str_eqb (newPassword w) (confirmPassword w)) eqn:Q;
    [|cbn in S; contradiction].
  cbn [negb app length Nat.ltb Nat.leb] in S |- *. cbv zeta in S |- *.
  destruct (thrown (transport resp)) eqn:T; [cbn in S; contradiction|].
  split; [reflexivity|].
  assert (A : answered_200
                (run (handler e (post "reset_password" (JStr (mobileNumber w))
                                   (JStr (otp w)) (JStr (newPassword w)))) d)).
  { destruct (handler_on_post e "reset_password" (JStr (mobileNumber w))
                (JStr (otp w)) (JStr (newPassword w)) d) as [Sv|E].
    - rewrite handler_reset_password in * by exact Sv.
      destruct (reset_password_answer e (JStr (mobileNumber w)) (JStr (otp w))
                  (JStr (newPassword w)) d) as [A|(st & msg & E & M)]; [exact A|].
      exfalso. rewrite E in R. injection R as <-.
      exact (error_thrown transport st msg F M T).
    - exfalso. destruct E as (msg & M & E). rewrite E in R. injection R as <-.
      exact (error_thrown transport 500 msg F M T). }
  split; [exact A|]. split; [apply str_eqb_eq; exact Q|]. split; [exact L|].
  destruct (handler_on_post e "reset_password" (JStr (mobileNumber w))
              (JStr (otp w)) (JStr (newPassword w)) d) as [Sv|E].
  2:{ exfalso. destruct E as (msg & _ & E). destruct A as (p & Hp).
      rewrite E in Hp. discriminate Hp. }
  rewrite handler_reset_password in * by exact Sv.
  destruct (reset_password_answered e _ _ _ d A)
    as (_ & _ & _ & _ & row & Hrow & _ & Hc & _).
  split; [exact Hc|].
  exists row. apply single_some in Hrow.
  assert (I : In row (filter (otp_valid (mobileNumber w) (otp w) (now e)) (otps d)))
    by (change (mobileNumber w) with (ToString (JStr (mobileNumber w)));
        change (otp w) with (ToString (JStr (otp w)));
        rewrite Hrow; left; reflexivity).
  apply filter_In in I. exact I.
Qed.

Lemma sample_reset_answer :
  fst (run (handler sample_env
              (post "reset_password" (JStr (mobileNumber (sample_wizard StepPassword)))
                 (JStr (otp (sample_wizard StepPassword)))
                 (JStr (newPassword (sample_wizard StepPassword)))))
         sample_issued_db) = Done reset_done.
Proof. vm_compute. reflexivity. Defined.

Lemma sample_transport_faithful : faithful sample_transport.
Proof.
  intros resp data. unfold sample_transport.
  destruct (payload resp) as [p|]; [|discriminate].
  destruct (status resp =? 200); [|discriminate].
  intros E. injection E as <-. reflexivity.
Defined.

Lemma success_means_password_changed_witness :
  answered_200
    (run (handler sample_env
            (post "reset_password" (JStr (lit "9876543210")) (JStr (lit "550000"))
               (JStr (lit "new-secret")))) sample_issued_db).
Proof.
  refine (proj1 (proj2 (success_means_password_changed sample_transport sample_env
                          sample_issued_db (sample_wizard StepPassword) reset_done
                          sample_transport_faithful sample_reset_answer _ _))).
  - discriminate.
  - vm_compute. reflexivity.
Defined.

(** X26. The code reaches the screen of whoever asks for it. Let the
    request of [handleRequestOTP] be served by the edge function and the
    answer be handed back to the wizard, by any means that does not alter
    a body. If the wizard moves from the step [mobile] to the step [otp],
    then the function answered 200, the countdown runs from 60, and the
    wizard has put up a toast that reads "Your OTP is: " followed by the
    very code that was generated for the number. *)
Theorem requested_code_is_displayed
    (transport : response -> invoke_result) (e : env) (d : database)
    (w : wizard) (resp : response) :
  faithful transport ->
  let req := post "request_otp" (JStr (mobileNumber w)) JUndefined JUndefined in
  fst (run (handler e req) d) = Done resp ->
  step w = StepMobile ->
  step (fst (handleRequestOTP (transport resp) w)) = StepOtp ->
  answered_200 (run (handler e req) d)
  /\ resendCooldown (fst (handleRequestOTP (transport resp) w)) = 60
  /\ In (Toast (lit "Debug OTP (Testing Only)")
           (lit "Your OTP is: " ++ generateOTP (random e)) false (Some 30000))
        (snd (handleRequestOTP (transport resp) w)).
Proof.
  intros F. cbv zeta. intros R M S.
  unfold handleRequestOTP in S |- *.
  destruct (phoneSchema (mobileNumber w));
    [cbn in S; rewrite M in S; discriminate S|].
  cbv zeta in S |- *.
  destruct (thrown (transport resp)) eqn:T;
    [cbn in S; rewrite M in S; discriminate S|].
  assert (A : answered_200
                (run (handler e (post "request_otp" (JStr (mobileNumber w))
                                   JUndefined JUndefined)) d)).
  { destruct (handler_on_post e "request_otp" (JStr (mobileNumber w))
                JUndefined JUndefined d) as [Sv|E].
    - rewrite handler_request_otp in * by exact Sv.
      destruct (request_otp_answer e (JStr (mobileNumber w)) d)
        as [A|(st & msg & E & N)]; [exact A|].
      exfalso. rewrite E in R. injection R as <-.
      exact (error_thrown transport st msg F N T).
    - exfalso. destruct E as (msg & N & E). rewrite E in R. injection R as <-.
      exact (error_thrown transport 500 msg F N T). }
  split; [exact A|]. split; [reflexivity|].
  destruct (handler_on_post e "request_otp" (JStr (mobileNumber w))
              JUndefined JUndefined d) as [Sv|E].
  2:{ exfalso. destruct E as (msg & _ & E). destruct A as (p & Hp).
      rewrite E in Hp. discriminate Hp. }
  rewrite handler_request_otp in * by exact Sv.
  destruct (request_otp_answered e _ d A) as [_ E].
  rewrite E in R. cbn [fst] in R. injection R as <-.
  destruct (transport _) as [data|m] eqn:Tr; [|discriminate T].
  apply F in Tr. cbn [payload] in Tr. injection Tr as <-.
  cbn [snd]. right. right. cbn [lookup String.eqb Ascii.eqb Bool.eqb].
  rewrite generateOTP_truthy. left. reflexivity.
Qed.

Lemma sample_request_answer :
  fst (run (handler sample_env
              (post "request_otp" (JStr (mobileNumber (sample_wizard StepMobile)))
                 JUndefined JUndefined)) sample_db)
  = Done (otp_sent (lit "550000")).
Proof. vm_compute. reflexivity. Defined.

Lemma requested_code_is_displayed_witness :
  In (Toast (lit "Debug OTP (Testing Only)")
        (lit "Your OTP is: " ++ generateOTP (random sample_env)) false (Some 30000))
     (snd (handleRequestOTP (sample_transport (otp_sent (lit "550000")))
             (sample_wizard StepMobile))).
Proof.
  refine (proj2 (proj2 (requested_code_is_displayed sample_transport sample_env
                          sample_db (sample_wizard StepMobile)
                          (otp_sent (lit "550000"))
                          sample_transport_faithful sample_request_answer _ _))).
  - reflexivity.
  - vm_compute. reflexivity.
Defined.
End WizardFacts.
